(** * temphums_go: sensor-record transfer and hourly aggregation utilities

    A shallow embedding of the four command-line utilities of the
    repository (the CSV export [src/main.go], the console report, the plain
    transfer [TransferRecs] and the upsert transfer [TransferRecords]),
    together with the parts of their environment that decide their
    behaviour: the process environment and the dotenv overlay, the document
    store with its query, aggregation and write operations, the calendar
    used for hour buckets and file names, and the CSV writer.

    Conventions.
    - A BSON date is the number of milliseconds since the Unix epoch, in [Z].
    - A BSON number is an exact rational in [Q]; binary floating point
      rounding error is outside the model.
    - Machine integers are unbounded ([Z]); no overflow is modelled.
    - A document is a finite map from field names to values. *)

From Stdlib Require Import ZArith QArith Qround Qabs String Ascii List.
From Stdlib Require Import Sorted Permutation Lia Lqa.
From stdpp Require Import base option gmap strings list fin_maps sorting.

Open Scope Z_scope.

(* ===================================================================== *)
(** * Text helpers                                                        *)
(* ===================================================================== *)

Module Text.

(** The decimal digit character of [d] (meaningful for [0 <= d <= 9]). *)
Definition digit (d : Z) : ascii := ascii_of_N (48 + Z.to_N d).

(** Fixed-width, zero padded decimal fields. *)
Definition pad2 (n : Z) : string :=
  String (digit (n / 10 mod 10)) (String (digit (n mod 10)) EmptyString).

Definition pad4 (n : Z) : string :=
  String (digit (n / 1000 mod 10))
    (String (digit (n / 100 mod 10)) (pad2 n)).

(** The digits of [u] put in front of [acc], last digit first, as Go's
    integer formatting loops do; [fuel] bounds the number of digits. *)
Fixpoint digits (fuel : nat) (u : Z) (acc : string) : string :=
  match fuel with
  | O => acc
  | S fuel' =>
      if u <? 10 then String (digit u) acc
      else digits fuel' (u / 10) (String (digit (u mod 10)) acc)
  end.

(** Decimal numeral of a non-negative integer, no padding. A number has
    no more decimal digits than binary ones. *)
Definition decimal (n : Z) : string :=
  digits (S (Z.to_nat (Z.log2 n))) n EmptyString.

(** The number a decimal numeral stands for, read after the digits
    already accumulated in [acc]. *)
Fixpoint numeral_from (acc : Z) (s : string) : Z :=
  match s with
  | EmptyString => acc
  | String c s' => numeral_from (10 * acc + (Z.of_N (N_of_ascii c) - 48)) s'
  end.

Definition numeral_value (s : string) : Z := numeral_from 0 s.

Fixpoint zeros (k : nat) : string :=
  match k with
  | O => EmptyString
  | S k' => String "0" (zeros k')
  end.

(** Go's [appendInt(b, x, width)]: sign, then the numeral left-padded
    with zeros to at least [width] digits. *)
Definition appendInt (x : Z) (width : nat) : string :=
  let s := decimal (Z.abs x) in
  ((if (x <? 0)%Z then "-" else "") ++ zeros (width - String.length s) ++ s)%string.

Definition quote : ascii := ascii_of_N 34.
Definition newline : ascii := ascii_of_N 10.
Definition carriage_return : ascii := ascii_of_N 13.

Fixpoint contains_char (c : ascii) (s : string) : bool :=
  match s with
  | EmptyString => false
  | String a s' => if Ascii.eqb a c then true else contains_char c s'
  end.

Fixpoint concat_all (l : list string) : string :=
  match l with
  | [] => EmptyString
  | s :: l' => (s ++ concat_all l')%string
  end.

End Text.

(* ===================================================================== *)
(** * Calendar                                                            *)
(* ===================================================================== *)

Module Calendar.

(** Day number (days since 1970-01-01) of a proleptic Gregorian date.
    The day of month is not range checked: day 0 is the last day of the
    previous month, as in Go's [time.Date]. *)
Definition days_from_civil (y m d : Z) : Z :=
  let y' := if m <=? 2 then y - 1 else y in
  let era := y' / 400 in
  let yoe := y' - era * 400 in
  let mp := (m + 9) mod 12 in
  let doy := (153 * mp + 2) / 5 + d - 1 in
  let doe := yoe * 365 + yoe / 4 - yoe / 100 + doy in
  era * 146097 + doe - 719468.

(** Year offset (March based), month and day of a day-of-era in
    [0, 146097). *)
Definition civil_of_doe (doe : Z) : Z * Z * Z :=
  let yoe := (doe - doe / 1460 + doe / 36524 - doe / 146096) / 365 in
  let doy := doe - (365 * yoe + yoe / 4 - yoe / 100) in
  let mp := (5 * doy + 2) / 153 in
  let d := doy - (153 * mp + 2) / 5 + 1 in
  let m := if mp <? 10 then mp + 3 else mp - 9 in
  ((if m <=? 2 then yoe + 1 else yoe), m, d).

(** Inverse of [days_from_civil]: (year, month, day) of a day number. *)
Definition civil_from_days (z : Z) : Z * Z * Z :=
  let z' := z + 719468 in
  let era := z' / 146097 in
  let doe := z' mod 146097 in
  let '(yoe, m, d) := civil_of_doe doe in
  (yoe + era * 400, m, d).

(** Broken-down wall clock time. *)
Record civil := Civil {
  c_year : Z; c_month : Z; c_day : Z;
  c_hour : Z; c_minute : Z; c_second : Z
}.

(** Wall clock of a count of seconds since the epoch (no zone applied). *)
Definition civil_of_seconds (s : Z) : civil :=
  let '(y, m, d) := civil_from_days (s / 86400) in
  let r := s mod 86400 in
  Civil y m d (r / 3600) (r mod 3600 / 60) (r mod 60).

(** The hour a wall clock time falls in: (year, month, day, hour). *)
Definition hour_of (c : civil) : Z * Z * Z * Z :=
  (c_year c, c_month c, c_day c, c_hour c).

End Calendar.

(* ===================================================================== *)
(** * Numbers                                                             *)
(* ===================================================================== *)

Module Num.

Definition pow10 (n : nat) : Z := 10 ^ Z.of_nat n.

(** Nearest integer, ties to the even neighbour. *)
Definition round_half_even (q : Q) : Z :=
  let f := Qfloor q in
  match Qcompare (q - inject_Z f) (1 # 2) with
  | Lt => f
  | Gt => f + 1
  | Eq => if Z.even f then f else f + 1
  end.

(** The database's [$round : [x, place]]: [place >= 0] keeps that many
    decimals, [place < 0] rounds to the left of the decimal point. *)
Definition round_places (q : Q) (place : Z) : Q :=
  if (0 <=? place)%Z then
    let s := pow10 (Z.to_nat place) in
    Qred (inject_Z (round_half_even (q * inject_Z s)) / inject_Z s)
  else
    let s := pow10 (Z.to_nat (- place)) in
    Qred (inject_Z (round_half_even (q / inject_Z s) * s)).

Definition sum (l : list Q) : Q := fold_right Qplus 0%Q l.

(** Arithmetic mean of a non-empty list. *)
Definition mean (l : list Q) : Q :=
  (sum l / inject_Z (Z.of_nat (length l)))%Q.

(** Go's [fmt.Sprintf("%.<prec>f", x)] on an exact value: sign, integer
    part, and [prec] decimals of the magnitude rounded half-to-even. *)
Definition format_fixed (prec : nat) (x : Q) : string :=
  let n := round_half_even (Qabs x * inject_Z (pow10 prec)) in
  let ip := Text.decimal (n / pow10 prec) in
  let fs := Text.decimal (n mod pow10 prec) in
  ((if Qlt_le_dec x 0 then "-" else "") ++ ip ++
   (match prec with
    | O => ""
    | _ => "." ++ Text.zeros (prec - String.length fs) ++ fs
    end))%string.

End Num.

(* ===================================================================== *)
(** * Documents                                                           *)
(* ===================================================================== *)

Module Bson.

(** The value types that occur in sensor records and in the results of
    the aggregation: null, numbers, strings and dates. *)
Inductive value :=
| VNull
| VNum (q : Q)
| VStr (s : string)
| VDate (ms : Z).

(** [bson.M] / [bson.D]: a document. *)
Abbreviation doc := (gmap string value).

(** Canonical type order of the store: null < numbers < strings < dates. *)
Definition type_rank (v : value) : Z :=
  match v with
  | VNull => 1
  | VNum _ => 2
  | VStr _ => 3
  | VDate _ => 9
  end.

(** Comparison of two values: by type first, by content within a type. *)
Definition compare (a b : value) : comparison :=
  match a, b with
  | VNull, VNull => Eq
  | VNum p, VNum q => Qcompare p q
  | VStr s, VStr t => String.compare s t
  | VDate x, VDate y => Z.compare x y
  | _, _ => Z.compare (type_rank a) (type_rank b)
  end.

Definition eqb (a b : value) : bool :=
  match compare a b with Eq => true | _ => false end.

Definition leb (a b : value) : bool :=
  match compare a b with Gt => false | _ => true end.

(** Reading a field: an absent field reads as null, as [record["_id"]]
    does on a Go map and as a field path does in the store. *)
Definition get (d : doc) (k : string) : value := default VNull (d !! k).

(** [$set]: the fields of [upd] written over [d]. *)
Definition set_fields (upd d : doc) : doc := upd ∪ d.

End Bson.

Export Bson(value, VNull, VNum, VStr, VDate, doc).

(* ===================================================================== *)
(** * Go's time package, as far as the utilities use it                   *)
(* ===================================================================== *)

Module GoTime.
Import Calendar.

(** A time zone: for a Unix time in seconds, the offset east of UTC in
    seconds and the interval [start, end) of Unix times over which that
    offset applies ([Location.lookup]). *)
Record Location := { lookup : Z -> Z * Z * Z }.

Definition alpha : Z := - 2 ^ 63.
Definition omega : Z := 2 ^ 63 - 1.

Definition UTC : Location := {| lookup := fun _ => (0, alpha, omega) |}.

(** An instant (Unix seconds; the sub-second part plays no role in the
    utilities) together with the zone it is displayed in. *)
Record Time := { unix : Z; loc : Location }.

Definition offset_at (l : Location) (u : Z) : Z := fst (fst (lookup l u)).

(** Wall clock reading of [t] in its own location. *)
Definition wall (t : Time) : civil :=
  civil_of_seconds (unix t + offset_at (loc t) (unix t)).

Definition Year (t : Time) : Z := c_year (wall t).
Definition Month (t : Time) : Z := c_month (wall t).
Definition Day (t : Time) : Z := c_day (wall t).

(** [norm(hi, lo, base)]: carry [lo] into [hi] so that [0 <= lo < base]. *)
Definition norm (hi lo base : Z) : Z * Z := (hi + lo / base, lo mod base).

(** [time.Date(year, month, day, hour, min, sec, 0, loc)]. Out-of-range
    fields are normalised; the zone offset is looked up at the wall
    clock reading taken as UTC and looked up again when the corrected
    instant falls outside the interval found. *)
Definition Date (year month day hour min sec : Z) (l : Location) : Time :=
  let '(year, m) := norm year (month - 1) 12 in
  let month := m + 1 in
  let '(min, sec) := norm min sec 60 in
  let '(hour, min) := norm hour min 60 in
  let '(day, hour) := norm day hour 24 in
  let d := days_from_civil year month 1 + (day - 1) in
  let u := d * 86400 + hour * 3600 + min * 60 + sec in
  let '(offset, start, stop) := lookup l u in
  let u' :=
    if offset =? 0 then u
    else
      let utc := u - offset in
      let offset' :=
        if (utc <? start) || (stop <=? utc) then offset_at l utc else offset in
      u - offset' in
  {| unix := u'; loc := l |}.

(** [t.Add(d)], with the duration in seconds. *)
Definition Add (t : Time) (d : Z) : Time :=
  {| unix := unix t + d; loc := loc t |}.

Definition Hour : Z := 3600.

(** [t.Format(layout)] for layouts built from the numeric elements
    2006, 01, 02, 15, 04, 05 and literal text. *)
Fixpoint format_civil (layout : string) (c : civil) : string :=
  match layout with
  | String "2" (String "0" (String "0" (String "6" rest))) =>
      (Text.appendInt (c_year c) 4 ++ format_civil rest c)%string
  | String "0" (String "1" rest) =>
      (Text.appendInt (c_month c) 2 ++ format_civil rest c)%string
  | String "0" (String "2" rest) =>
      (Text.appendInt (c_day c) 2 ++ format_civil rest c)%string
  | String "1" (String "5" rest) =>
      (Text.appendInt (c_hour c) 2 ++ format_civil rest c)%string
  | String "0" (String "4" rest) =>
      (Text.appendInt (c_minute c) 2 ++ format_civil rest c)%string
  | String "0" (String "5" rest) =>
      (Text.appendInt (c_second c) 2 ++ format_civil rest c)%string
  | String a rest => String a (format_civil rest c)
  | EmptyString => EmptyString
  end.

Definition Format (t : Time) (layout : string) : string :=
  format_civil layout (wall t).

(** The BSON date a [time.Time] is marshalled to. *)
Definition to_bson (t : Time) : value := VDate (unix t * 1000).

End GoTime.

(* ===================================================================== *)
(** * Process environment and the dotenv overlay                          *)
(* ===================================================================== *)

Module Env.

(** [os.Getenv]: the empty string when the variable is not set. *)
Definition Getenv (env : gmap string string) (key : string) : string :=
  default EmptyString (env !! key).

(** godotenv's [loadFile]: every pair of the file is exported, except
    that without [overload] a variable that was set when the file was
    opened is left alone. *)
Definition loadFile (overload : bool) (envMap env : gmap string string)
  : gmap string string :=
  map_fold
    (fun key val acc =>
       if negb (bool_decide (is_Some (env !! key))) || overload
       then <[key := val]> acc else acc)
    env envMap.

(** [godotenv.Load(name)] and [godotenv.Overload(name)] over the parsed
    dotenv files found on disk; [None] when the file cannot be read. *)
Definition Load (files : gmap string (gmap string string)) (name : string)
    (env : gmap string string) : option (gmap string string) :=
  envMap ← files !! name; Some (loadFile false envMap env).

Definition Overload (files : gmap string (gmap string string)) (name : string)
    (env : gmap string string) : option (gmap string string) :=
  envMap ← files !! name; Some (loadFile true envMap env).

End Env.

(* ===================================================================== *)
(** * encoding/csv writer                                                 *)
(* ===================================================================== *)

Module Csv.
Import Text.

(** [unicode.IsSpace] of the first rune of a UTF-8 string. *)
Definition starts_with_space (s : string) : bool :=
  match s with
  | EmptyString => false
  | String a rest =>
      let n := N_of_ascii a in
      if ((9 <=? n) && (n <=? 13))%N || (n =? 32)%N then true
      else match rest with
           | EmptyString => false
           | String b rest' =>
               let m := N_of_ascii b in
               if (n =? 194)%N then (m =? 133)%N || (m =? 160)%N
               else match rest' with
                    | EmptyString => false
                    | String c _ =>
                        let k := N_of_ascii c in
                        if (n =? 225)%N then (m =? 154)%N && (k =? 128)%N
                        else if (n =? 226)%N then
                          ((m =? 128)%N &&
                             (((128 <=? k) && (k <=? 138))%N ||
                              (k =? 168)%N || (k =? 169)%N || (k =? 175)%N))
                          || ((m =? 129)%N && (k =? 159)%N)
                        else if (n =? 227)%N then (m =? 128)%N && (k =? 128)%N
                        else false
                    end
           end
  end.

(** [fieldNeedsQuotes] with the default comma delimiter. *)
Definition fieldNeedsQuotes (field : string) : bool :=
  match field with
  | EmptyString => false
  | _ =>
      if String.eqb field "\." then true
      else if contains_char newline field || contains_char carriage_return field
              || contains_char quote field || contains_char "," field
      then true
      else starts_with_space field
  end.

(** The body of a quoted field: every quote is doubled. *)
Fixpoint escape (field : string) : string :=
  match field with
  | EmptyString => EmptyString
  | String a rest =>
      if Ascii.eqb a quote then String quote (String quote (escape rest))
      else String a (escape rest)
  end.

Definition write_field (field : string) : string :=
  if fieldNeedsQuotes field
  then String quote (escape field ++ String quote EmptyString)
  else field.

Fixpoint join_fields (record : list string) : string :=
  match record with
  | [] => EmptyString
  | [f] => write_field f
  | f :: rest => (write_field f ++ "," ++ join_fields rest)%string
  end.

(** [Writer.Write(record)]: the bytes appended to the output. *)
Definition Write (record : list string) : string :=
  (join_fields record ++ String newline EmptyString)%string.

(** The writer is buffered (4096 bytes) and every field the utilities
    write is shorter than the buffer: what has reached the file before
    [Flush] is the longest prefix that is a whole number of buffers and
    leaves at least one byte pending. *)
Definition committed (stream : string) : string :=
  let n := Z.of_nat (String.length stream) in
  String.substring 0 (Z.to_nat (4096 * ((n - 1) / 4096))) stream.

End Csv.

(* ===================================================================== *)
(** * The document store: queries, aggregation, writes                    *)
(* ===================================================================== *)

Module Mongo.
Import Calendar.

(** Outcome of a server-side evaluation. *)
Inductive result (A : Type) :=
| Ok (a : A)
| Err (msg : string).
Arguments Ok {A} a.
Arguments Err {A} msg.

#[export] Instance result_ret : MRet result := fun A a => Ok a.
#[export] Instance result_bind : MBind result := fun A B f m =>
  match m with
  | Ok a => f a
  | Err e => Err e
  end.

(** ** Queries *)

(** Comparison operators of a filter: [$gte], [$lt]. *)
Inductive cmp_op := gte | lt.

(** What a filter asks of one field: equality with a value, or a
    document of comparison operators. *)
Inductive cond :=
| CEq (v : value)
| COps (ops : list (cmp_op * value)).

(** A filter document: a condition per field, all of which must hold. *)
Definition query := list (string * cond).

(** A comparison operator only matches values of the type of its
    operand. *)
Definition op_holds (o : cmp_op) (operand field : value) : bool :=
  (Bson.type_rank field =? Bson.type_rank operand) &&
  match o with
  | gte => Bson.leb operand field
  | lt => negb (Bson.leb operand field)
  end.

Definition cond_holds (c : cond) (field : value) : bool :=
  match c with
  | CEq v => Bson.eqb field v
  | COps ops => forallb (fun '(o, v) => op_holds o v field) ops
  end.

Definition matches (q : query) (d : doc) : bool :=
  forallb (fun '(k, c) => cond_holds c (Bson.get d k)) q.

(** [Collection.Find(ctx, filter)]: the matching documents, in the
    order of the collection. *)
Definition Find (q : query) (coll : list doc) : list doc :=
  List.filter (matches q) coll.

(** ** Aggregation expressions *)

(** [EString "$f"] is the field path [f]; any other string is a
    literal. *)
Inductive expr :=
| EString (s : string)
| EToDate (e : expr)
| EDateToString (format : string) (date : expr) (timezone : string)
| ERound (e : expr) (place : Z).

(** Accumulators of [$group]: [$avg]. *)
Inductive accumulator :=
| Avg (e : expr).

Inductive stage :=
| Match_ (q : query)
| AddFields (fields : list (string * expr))
| Group (id : expr) (accs : list (string * accumulator))
| Sort (keys : list (string * Z)).

(** [mongo.Pipeline]. *)
Definition Pipeline := list stage.

(** One conversion specifier of [$dateToString]. Specifiers other than
    the ones below are reported as errors. *)
Definition format_spec (spec : ascii) (c : civil) (ms : Z) : result string :=
  if Ascii.eqb spec "Y" then
    if (0 <=? c_year c) && (c_year c <=? 9999)
    then Ok (Text.pad4 (c_year c))
    else Err "date component was outside the supported range of 0-9999"
  else if Ascii.eqb spec "m" then Ok (Text.pad2 (c_month c))
  else if Ascii.eqb spec "d" then Ok (Text.pad2 (c_day c))
  else if Ascii.eqb spec "H" then Ok (Text.pad2 (c_hour c))
  else if Ascii.eqb spec "M" then Ok (Text.pad2 (c_minute c))
  else if Ascii.eqb spec "S" then Ok (Text.pad2 (c_second c))
  else if Ascii.eqb spec "%" then Ok "%"%string
  else Err "invalid format character".

Fixpoint format_date (fmt : string) (c : civil) (ms : Z) : result string :=
  match fmt with
  | EmptyString => Ok EmptyString
  | String a rest =>
      if Ascii.eqb a "%" then
        match rest with
        | EmptyString => Err "unmatched % at end of format string"
        | String spec rest' =>
            piece ← format_spec spec c ms;
            tail ← format_date rest' c ms;
            Ok (piece ++ tail)%string
        end
      else
        tail ← format_date rest c ms;
        Ok (String a tail)
  end.

(** Wall clock reading of a date in a zone given by its offset in
    seconds east of UTC at each Unix time. *)
Definition local_civil (offset : Z -> Z) (ms : Z) : civil :=
  let s := ms / 1000 in
  civil_of_seconds (s + offset s).

Section Server.
(** The server's time zone database: for a zone name, the offset in
    seconds east of UTC in force at each Unix time (in seconds). *)
Variable tzdb : string -> option (Z -> Z).
(** The server's parser of date strings, used by [$toDate]. *)
Variable parse_date : string -> option Z.

Definition to_date (v : value) : result value :=
  match v with
  | VNull => Ok VNull
  | VDate ms => Ok (VDate ms)
  | VNum q => Ok (VDate (Z.quot (Qnum q) (Z.pos (Qden q))))
  | VStr s =>
      match parse_date s with
      | Some ms => Ok (VDate ms)
      | None => Err "Error parsing date string"
      end
  end.

Definition date_to_string (format : string) (timezone : string) (v : value)
  : result value :=
  match tzdb timezone with
  | None => Err "unrecognized time zone identifier"
  | Some offset =>
      match v with
      | VNull => Ok VNull
      | VDate ms =>
          s ← format_date format (local_civil offset ms) ms; Ok (VStr s)
      | _ => Err "can't convert to Date"
      end
  end.

Definition round (place : Z) (v : value) : result value :=
  match v with
  | VNull => Ok VNull
  | VNum q => Ok (VNum (Num.round_places q place))
  | _ => Err "$round only supports numeric types"
  end.

Fixpoint eval (e : expr) (d : doc) : result value :=
  match e with
  | EString (String "$" path) => Ok (Bson.get d path)
  | EString s => Ok (VStr s)
  | EToDate e' => v ← eval e' d; to_date v
  | EDateToString format date timezone =>
      v ← eval date d; date_to_string format timezone v
  | ERound e' place => v ← eval e' d; round place v
  end.

(** [$avg]: running sum and count of the numeric values; the other
    values are ignored, and the result is null when there were none. *)
Definition avg_step (st : Q * Z) (v : value) : Q * Z :=
  match v with
  | VNum q => ((fst st + q)%Q, snd st + 1)
  | _ => st
  end.

Definition avg (vs : list value) : value :=
  let '(s, n) := fold_left avg_step vs (0%Q, 0) in
  if n =? 0 then VNull else VNum (Qred (s / inject_Z n)).

Definition acc_input (a : accumulator) : expr :=
  match a with Avg e => e end.

Definition acc_result (a : accumulator) (vs : list value) : value :=
  match a with Avg _ => avg vs end.

(** ** Stages *)

Definition add_fields (fields : list (string * expr)) (d : doc) : result doc :=
  vs ← mapM (fun '(k, e) => v ← eval e d; Ok (k, v)) fields;
  Ok (fold_left (fun acc '(k, v) => <[k := v]> acc) vs d).

(** The group key of a document and the input of each accumulator. *)
Definition group_input (id : expr) (accs : list (string * accumulator))
    (d : doc) : result (value * list value) :=
  k ← eval id d;
  vs ← mapM (fun '(_, a) => eval (acc_input a) d) accs;
  Ok (k, vs).

(** The distinct keys, in order of first occurrence. *)
Fixpoint distinct (ks : list value) : list value :=
  match ks with
  | [] => []
  | k :: ks' => k :: List.filter (fun k' => negb (Bson.eqb k k')) (distinct ks')
  end.

Definition members (k : value) (keyed : list (value * list value))
  : list (list value) :=
  snd <$> List.filter (fun kv => Bson.eqb k (fst kv)) keyed.

(** The values fed to the [i]-th accumulator by the members of a group. *)
Definition column (i : nat) (rows : list (list value)) : list value :=
  (fun r => nth i r VNull) <$> rows.

Definition group_row (accs : list (string * accumulator))
    (keyed : list (value * list value)) (k : value) : doc :=
  fold_left
    (fun acc '(i, (name, a)) =>
       <[name := acc_result a (column i (members k keyed))]> acc)
    (imap (fun i na => (i, na)) accs)
    {[ "_id"%string := k ]}.

Definition group (id : expr) (accs : list (string * accumulator))
    (docs : list doc) : result (list doc) :=
  keyed ← mapM (group_input id accs) docs;
  Ok (group_row accs keyed <$> distinct (fst <$> keyed)).

(** Comparison of two documents on a list of sort keys, each with its
    direction (1 ascending, -1 descending). *)
Fixpoint sort_compare (keys : list (string * Z)) (a b : doc) : comparison :=
  match keys with
  | [] => Eq
  | (k, dir) :: keys' =>
      match Bson.compare (Bson.get a k) (Bson.get b k) with
      | Eq => sort_compare keys' a b
      | c => if 0 <=? dir then c else CompOpp c
      end
  end.

Definition sort_le (keys : list (string * Z)) (a b : doc) : Prop :=
  sort_compare keys a b ≠ Gt.

#[export] Instance sort_le_dec keys a b : Decision (sort_le keys a b).
Proof. unfold sort_le. apply _. Defined.

Definition sort (keys : list (string * Z)) (docs : list doc) : list doc :=
  merge_sort (sort_le keys) docs.

Definition run_stage (s : stage) (docs : list doc) : result (list doc) :=
  match s with
  | Match_ q => Ok (List.filter (matches q) docs)
  | AddFields fields => mapM (add_fields fields) docs
  | Group id accs => group id accs docs
  | Sort keys => Ok (sort keys docs)
  end.

(** [Collection.Aggregate(ctx, pipeline)]: the stages in sequence. *)
Fixpoint Aggregate (p : Pipeline) (docs : list doc) : result (list doc) :=
  match p with
  | [] => Ok docs
  | s :: p' => docs' ← run_stage s docs; Aggregate p' docs'
  end.

End Server.

(** ** Writes *)

Definition has_id (id : value) (d : doc) : bool := Bson.eqb (Bson.get d "_id") id.

(** [Collection.InsertMany(ctx, docs)]: ordered; the first document
    whose [_id] is already taken stops the insertion with a duplicate
    key error, the documents before it stay inserted. *)
Fixpoint InsertMany (docs : list doc) (coll : list doc)
  : list doc * option string :=
  match docs with
  | [] => (coll, None)
  | d :: docs' =>
      match d !! "_id"%string with
      | Some id =>
          if existsb (has_id id) coll
          then (coll, Some "E11000 duplicate key error"%string)
          else InsertMany docs' (coll ++ [d])
      | None => InsertMany docs' (coll ++ [d])
      end
  end.

(** Update operators: [$set]. *)
Inductive update_op :=
| set (fields : doc).

(** [mongo.UpdateOneModel]. *)
Record UpdateOneModel := NewUpdateOneModel {
  Filter : query;
  Update : list update_op;
  Upsert : bool
}.

Definition apply_update (u : list update_op) (d : doc) : doc :=
  fold_left (fun acc o => match o with set fields => Bson.set_fields fields acc end)
    u d.

(** The first document matching [q] replaced by its update. *)
Fixpoint update_first (q : query) (u : list update_op) (coll : list doc)
  : option (list doc) :=
  match coll with
  | [] => None
  | d :: coll' =>
      if matches q d then Some (apply_update u d :: coll')
      else cons d <$> update_first q u coll'
  end.

(** The document an upsert starts from: the equality fields of the
    filter. *)
Definition upsert_seed (q : query) : doc :=
  fold_left
    (fun acc '(k, c) => match c with CEq v => <[k := v]> acc | COps _ => acc end)
    q ∅.

Definition update_one (m : UpdateOneModel) (coll : list doc) : list doc :=
  match update_first (Filter m) (Update m) coll with
  | Some coll' => coll'
  | None =>
      if Upsert m then coll ++ [apply_update (Update m) (upsert_seed (Filter m))]
      else coll
  end.

(** [Collection.BulkWrite(ctx, models, opts)]: the models applied one
    after the other. *)
Definition BulkWrite (models : list UpdateOneModel) (coll : list doc) : list doc :=
  fold_left (fun c m => update_one m c) models coll.

End Mongo.

(* ===================================================================== *)
(** * The world the utilities run in                                      *)
(* ===================================================================== *)

Module Sys.

(** Calls made on a database deployment, in the order they are made. *)
Inductive db_call :=
| CallConnect (uri : string)
| CallFind (uri : string) (q : Mongo.query)
| CallAggregate (uri : string) (p : Mongo.Pipeline)
| CallInsertMany (uri : string) (docs : list doc)
| CallBulkWrite (uri : string) (models : list Mongo.UpdateOneModel)
| CallDisconnect (uri : string).

Record World := mkWorld {
  (** dotenv files on disk, by path, as the key/value pairs they hold *)
  w_dotenv : gmap string (gmap string string);
  (** collection [ts.temphums] of the deployment reachable at each URI *)
  w_store : gmap string (list doc);
  (** contents of the regular files written by the utilities *)
  w_fs : gmap string string;
  (** paths at which a file cannot be created *)
  w_nocreate : gset string;
  (** bytes handed so far to the buffered writer of each open file *)
  w_writer : gmap string string;
  (** lines printed on standard output *)
  w_stdout : list string;
  (** lines printed by the logger *)
  w_log : list string;
  (** database calls issued *)
  w_calls : list db_call
}.

Definition with_store (f : gmap string (list doc) -> gmap string (list doc))
    (w : World) : World :=
  mkWorld (w_dotenv w) (f (w_store w)) (w_fs w) (w_nocreate w) (w_writer w)
    (w_stdout w) (w_log w) (w_calls w).

Definition with_fs (f : gmap string string -> gmap string string)
    (w : World) : World :=
  mkWorld (w_dotenv w) (w_store w) (f (w_fs w)) (w_nocreate w) (w_writer w)
    (w_stdout w) (w_log w) (w_calls w).

Definition with_writer (f : gmap string string -> gmap string string)
    (w : World) : World :=
  mkWorld (w_dotenv w) (w_store w) (w_fs w) (w_nocreate w) (f (w_writer w))
    (w_stdout w) (w_log w) (w_calls w).

Definition add_stdout (line : string) (w : World) : World :=
  mkWorld (w_dotenv w) (w_store w) (w_fs w) (w_nocreate w) (w_writer w)
    (w_stdout w ++ [line]) (w_log w) (w_calls w).

Definition add_log (line : string) (w : World) : World :=
  mkWorld (w_dotenv w) (w_store w) (w_fs w) (w_nocreate w) (w_writer w)
    (w_stdout w) (w_log w ++ [line]) (w_calls w).

Definition add_call (c : db_call) (w : World) : World :=
  mkWorld (w_dotenv w) (w_store w) (w_fs w) (w_nocreate w) (w_writer w)
    (w_stdout w) (w_log w) (w_calls w ++ [c]).

(** What the process is started with. *)
Record Process := {
  environ : gmap string string;
  now : GoTime.Time
}.

(** A step either returns a value or ends the process with a status. *)
Inductive outcome (A : Type) :=
| Return (a : A)
| Exited (status : Z).
Arguments Return {A} a.
Arguments Exited {A} status.

Definition Prog (A : Type) : Type := World -> World * outcome A.

#[export] Instance prog_ret : MRet Prog := fun A a w => (w, Return a).
#[export] Instance prog_bind : MBind Prog := fun A B f m w =>
  match m w with
  | (w', Return a) => f a w'
  | (w', Exited s) => (w', Exited s)
  end.

(** Exit status of a whole program: 0 when [main] returns. *)
Definition run (p : Prog unit) (w : World) : World * Z :=
  match p w with
  | (w', Return _) => (w', 0)
  | (w', Exited s) => (w', s)
  end.

(** [log.Fatal] / [log.Fatalf]: print, then [os.Exit(1)]; deferred calls
    do not run. *)
Definition log_Fatal {A} (msg : string) : Prog A :=
  fun w => (add_log msg w, Exited 1).

Definition log_Println (msg : string) : Prog unit :=
  fun w => (add_log msg w, Return ()).

Definition fmt_Print (msg : string) : Prog unit :=
  fun w => (add_stdout msg w, Return ()).

(** [if err != nil { log.Fatalf(...) }] *)
Definition check {A} (msg : string -> string) (r : A + string) : Prog A :=
  match r with
  | inl a => mret a
  | inr err => log_Fatal (msg err)
  end.

Fixpoint foldM {A S} (body : S -> A -> Prog S) (s : S) (l : list A) : Prog S :=
  match l with
  | [] => mret s
  | a :: l' => s' ← body s a; foldM body s' l'
  end.

(** ** godotenv *)

Definition godotenv_Load (name : string) (env : gmap string string)
  : Prog (gmap string string + string) :=
  fun w =>
    (w, Return match Env.Load (w_dotenv w) name env with
               | Some env' => inl env'
               | None => inr ("open " ++ name ++ ": no such file or directory")%string
               end).

Definition godotenv_Overload (name : string) (env : gmap string string)
  : Prog (gmap string string + string) :=
  fun w =>
    (w, Return match Env.Overload (w_dotenv w) name env with
               | Some env' => inl env'
               | None => inr ("open " ++ name ++ ": no such file or directory")%string
               end).

(** ** Database driver *)

(** A connected client is identified by the URI it was opened on. *)
Definition mongo_Connect (uri : string) : Prog (string + string) :=
  fun w =>
    (add_call (CallConnect uri) w,
     Return (if bool_decide (is_Some (w_store w !! uri)) then inl uri
             else inr "server selection error"%string)).

Definition Disconnect (client : string) : Prog unit :=
  fun w => (add_call (CallDisconnect client) w, Return ()).

Definition collection (client : string) (w : World) : list doc :=
  default [] (w_store w !! client).

Definition coll_Find (client : string) (q : Mongo.query)
  : Prog (list doc + string) :=
  fun w =>
    (add_call (CallFind client q) w,
     Return (inl (Mongo.Find q (collection client w)))).

Definition coll_InsertMany (client : string) (docs : list doc)
  : Prog (unit + string) :=
  fun w =>
    let '(coll', err) := Mongo.InsertMany docs (collection client w) in
    (add_call (CallInsertMany client docs) (with_store <[client := coll']> w),
     Return match err with
            | None => inl ()
            | Some e => inr e
            end).

Definition coll_BulkWrite (client : string) (models : list Mongo.UpdateOneModel)
  : Prog (unit + string) :=
  fun w =>
    (add_call (CallBulkWrite client models)
       (with_store <[client := Mongo.BulkWrite models (collection client w)]> w),
     Return (inl ())).

(** ** Files *)

(** [os.Create]: the file is created or truncated. *)
Definition os_Create (name : string) : Prog (string + string) :=
  fun w =>
    if bool_decide (name ∈ w_nocreate w)
    then (w, Return (inr ("open " ++ name ++ ": permission denied")%string))
    else (with_writer <[name := EmptyString]>
            (with_fs <[name := EmptyString]> w),
          Return (inl name)).

(** [csv.Writer.Write] on the writer of [file]. *)
Definition csv_Write (file : string) (record : list string) : Prog (unit + string) :=
  fun w =>
    let stream :=
      (default EmptyString (w_writer w !! file) ++ Csv.Write record)%string in
    (with_fs <[file := Csv.committed stream]>
       (with_writer <[file := stream]> w),
     Return (inl ())).

(** [csv.Writer.Flush]. *)
Definition csv_Flush (file : string) : Prog unit :=
  fun w =>
    (with_fs <[file := default EmptyString (w_writer w !! file)]> w, Return ()).

End Sys.

(* ===================================================================== *)
(** * Hourly aggregation (shared by the CSV export and the console report) *)
(* ===================================================================== *)

Module Aggregation.
Import GoTime Mongo Sys.

Definition yesterdayStart (now : Time) : Time :=
  Date (Year now) (Month now) (Day now - 1) 0 0 0 (loc now).

Definition yesterdayEnd (now : Time) : Time :=
  Add (yesterdayStart now) (24 * Hour).

(** The aggregation pipeline, stage for stage as in the source. *)
Definition pipeline (now : Time) : Pipeline :=
  [ Match_
      [ ("updatedAt",
         COps [ (gte, to_bson (yesterdayStart now));
                (lt, to_bson (yesterdayEnd now)) ]) ];
    AddFields
      [ ("localHour",
         EDateToString "%Y-%m-%d %H:00:00"
           (EToDate (EString "$updatedAt"))
           "America/Chicago") ];
    Group (EString "$localHour")
      [ ("avgHumidity", Avg (ERound (EString "$humidity") 2));
        ("avgTemperature", Avg (ERound (EString "$temperature") 2)) ];
    Sort [ ("_id", 1) ] ]%string.

(** The struct each result document is decoded into. *)
Record result_row := {
  ID : string;
  AvgHumidity : Q;
  AvgTemperature : Q
}.

(** Decoding a field into a Go [string]: null leaves the zero value. *)
Definition decode_string (v : value) : string + string :=
  match v with
  | VStr s => inl s
  | VNull => inl EmptyString
  | _ => inr "cannot decode into a string type"%string
  end.

(** Decoding a field into a Go [float64]: null leaves the zero value. *)
Definition decode_float (v : value) : Q + string :=
  match v with
  | VNum q => inl q
  | VNull => inl 0%Q
  | _ => inr "cannot decode into a float32 or float64 type"%string
  end.

(** [cursor.Decode(&result)]. *)
Definition Decode (d : doc) : result_row + string :=
  match decode_string (Bson.get d "_id") with
  | inr e => inr e
  | inl id =>
      match decode_float (Bson.get d "avgHumidity") with
      | inr e => inr e
      | inl h =>
          match decode_float (Bson.get d "avgTemperature") with
          | inr e => inr e
          | inl t => inl {| ID := id; AvgHumidity := h; AvgTemperature := t |}
          end
      end
  end.

Section Server.
Variable tzdb : string -> option (Z -> Z).
Variable parse_date : string -> option Z.

(** [coll.Aggregate(ctx, pipeline)] on the collection of [client]. *)
Definition coll_Aggregate (client : string) (p : Pipeline)
  : Prog (list doc + string) :=
  fun w =>
    (add_call (CallAggregate client p) w,
     Return match Aggregate tzdb parse_date p (collection client w) with
            | Ok rows => inl rows
            | Err e => inr e
            end).
End Server.

End Aggregation.

(* ===================================================================== *)
(** * src/main.go: hourly averages of yesterday, written to a CSV file    *)
(* ===================================================================== *)

Module CsvExport.
Import GoTime Mongo Sys Aggregation.

Definition header : list string :=
  [ "measurement_date_time"; "temperature_F"; "humidity_percent" ]%string.

Definition csvFileName (now : Time) : string :=
  ("measurements_" ++ Format now "2006-01-02" ++ ".csv")%string.

(** The record written for one decoded result. *)
Definition record (result : result_row) : list string :=
  [ ID result;
    Num.format_fixed 2 (AvgTemperature result);
    Num.format_fixed 2 (AvgHumidity result) ].

Section Server.
Variable tzdb : string -> option (Z -> Z).
Variable parse_date : string -> option Z.

Definition main (p : Process) : Prog unit :=
  env ← godotenv_Load ".env" (environ p)
        ≫= check (fun err => "Error loading .env file: " ++ err)%string;
  env ← godotenv_Overload ".env.local" env
        ≫= check (fun err => "Error loading .env.local file: " ++ err)%string;
  let mongoURI := Env.Getenv env "MONGO_URI" in
  if String.eqb mongoURI "" then log_Fatal "MONGO_URI not set in environment"
  else
    client ← mongo_Connect mongoURI ≫= check id;
    let now := now p in
    cursor ← coll_Aggregate tzdb parse_date client (pipeline now) ≫= check id;
    file ← os_Create (csvFileName now)
           ≫= check (fun err => "Failed to create CSV file: " ++ err)%string;
    _ ← csv_Write file header
        ≫= check (fun err => "Failed to write header to CSV file: " ++ err)%string;
    _ ← foldM
          (fun _ d =>
             result ← check id (Decode d);
             csv_Write file (record result)
             ≫= check (fun err => "Failed to write record to CSV file: " ++ err)%string)
          () cursor;
    _ ← fmt_Print ("Data successfully written to " ++ csvFileName now
                   ++ String Text.newline "")%string;
    (* deferred calls, last registered first *)
    _ ← csv_Flush file;
    Disconnect client.

End Server.
End CsvExport.

(* ===================================================================== *)
(** * Console report: hourly averages of yesterday, printed               *)
(* ===================================================================== *)

Module ConsoleReport.
Import GoTime Mongo Sys Aggregation.

Definition line (result : result_row) : string :=
  ("Hour: " ++ ID result ++
   ", Avg Humidity: " ++ Num.format_fixed 2 (AvgHumidity result) ++
   ", Avg Temperature: " ++ Num.format_fixed 2 (AvgTemperature result) ++
   String Text.newline "")%string.

Section Server.
Variable tzdb : string -> option (Z -> Z).
Variable parse_date : string -> option Z.

Definition main (p : Process) : Prog unit :=
  env ← godotenv_Load ".env" (environ p)
        ≫= check (fun err => "Error loading .env file: " ++ err)%string;
  env ← godotenv_Overload ".env.local" env
        ≫= check (fun err => "Error loading .env.local file: " ++ err)%string;
  let mongoURI := Env.Getenv env "MONGO_URI" in
  if String.eqb mongoURI "" then log_Fatal "MONGO_URI not set in environment"
  else
    client ← mongo_Connect mongoURI ≫= check id;
    let now := now p in
    cursor ← coll_Aggregate tzdb parse_date client (pipeline now) ≫= check id;
    _ ← foldM
          (fun _ d =>
             result ← check id (Decode d);
             fmt_Print (line result))
          () cursor;
    (* deferred calls *)
    Disconnect client.

End Server.
End ConsoleReport.

(* ===================================================================== *)
(** * Range transfer                                                      *)
(* ===================================================================== *)

(** The filter both transfers build: [start <= updatedAt < end]. *)
Definition range_filter (startDate endDate : GoTime.Time) : Mongo.query :=
  [ ("updatedAt"%string,
     Mongo.COps [ (Mongo.gte, GoTime.to_bson startDate);
                  (Mongo.lt, GoTime.to_bson endDate) ]) ].

(** Package transfer_recs: plain bulk insert of the records of 2023. *)
Module transfer_recs.
Import GoTime Mongo Sys.

Definition startDate : Time := Date 2023 1 1 0 0 0 UTC.
Definition endDate : Time := Date 2024 1 1 0 0 0 UTC.
Definition filter : query := range_filter startDate endDate.

Definition TransferRecs (p : Process) : Prog unit :=
  env ← godotenv_Load ".env" (environ p)
        ≫= check (fun err => "Error loading .env file: " ++ err)%string;
  env ← godotenv_Overload ".env.local" env
        ≫= check (fun err => "Error loading .env.local file: " ++ err)%string;
  let sourceMongoURI := Env.Getenv env "SOURCE_MONGO_URI" in
  if String.eqb sourceMongoURI ""
  then log_Fatal "SOURCE_MONGO_URI not set in environment"
  else
    let destMongoURI := Env.Getenv env "DEST_MONGO_URI" in
    if String.eqb destMongoURI ""
    then log_Fatal "DEST_MONGO_URI not set in environment"
    else
      sourceClient ← mongo_Connect sourceMongoURI ≫= check id;
      destClient ← mongo_Connect destMongoURI ≫= check id;
      cursor ← coll_Find sourceClient filter ≫= check id;
      records ← foldM (fun records record => mret (records ++ [record])) [] cursor;
      _ ← (if (0 <? length records)%nat then
             _ ← coll_InsertMany destClient records ≫= check id;
             log_Println ("Successfully transferred "
                          ++ Text.decimal (Z.of_nat (length records))
                          ++ " records from 2023")%string
           else log_Println "No records found for the year 2023");
      (* deferred calls, last registered first *)
      _ ← Disconnect destClient;
      Disconnect sourceClient.

End transfer_recs.

(** Upsert transfer of the records of May to August 2020. *)
Module Upsert.
Import GoTime Mongo Sys.

Definition startDate : Time := Date 2020 5 1 0 0 0 UTC.
Definition endDate : Time := Date 2020 9 1 0 0 0 UTC.
Definition filter : query := range_filter startDate endDate.

(** The write model built for one record. *)
Definition updateModel (record : doc) : UpdateOneModel :=
  {| Filter := [ ("_id"%string, CEq (Bson.get record "_id")) ];
     Update := [ set record ];
     Upsert := true |}.

Definition TransferRecords (p : Process) : Prog unit :=
  env ← godotenv_Load ".env" (environ p)
        ≫= check (fun err => "Error loading .env file: " ++ err)%string;
  env ← godotenv_Overload ".env.local" env
        ≫= check (fun err => "Error loading .env.local file: " ++ err)%string;
  let sourceMongoURI := Env.Getenv env "SOURCE_MONGO_URI" in
  if String.eqb sourceMongoURI ""
  then log_Fatal "SOURCE_MONGO_URI not set in environment"
  else
    let destMongoURI := Env.Getenv env "DEST_MONGO_URI" in
    if String.eqb destMongoURI ""
    then log_Fatal "DEST_MONGO_URI not set in environment"
    else
      sourceClient ← mongo_Connect sourceMongoURI ≫= check id;
      destClient ← mongo_Connect destMongoURI ≫= check id;
      cursor ← coll_Find sourceClient filter ≫= check id;
      records ← foldM
                  (fun records record => mret (records ++ [updateModel record]))
                  [] cursor;
      _ ← (if (0 <? length records)%nat then
             _ ← coll_BulkWrite destClient records ≫= check id;
             log_Println ("Successfully transferred "
                          ++ Text.decimal (Z.of_nat (length records))
                          ++ " records from 2024")%string
           else log_Println "No records found for the year 2021");
      (* deferred calls, last registered first *)
      _ ← Disconnect destClient;
      Disconnect sourceClient.

Definition main : Process -> Prog unit := TransferRecords.

End Upsert.

(* ===================================================================== *)
(** * A time zone database                                                *)
(* ===================================================================== *)

(** US Central time under the daylight saving rules in force since 2007:
    UTC-5 from 02:00 local on the second Sunday of March to 02:00 local on
    the first Sunday of November, UTC-6 otherwise. Used to run the
    utilities on concrete inputs; the theorems about the aggregation hold
    for any database that knows the zone. *)
Module TzData.
Import Calendar.

(** Day of the week of a day number, 0 = Sunday. *)
Definition weekday (d : Z) : Z := (d + 4) mod 7.

(** Day number of the [n]-th Sunday of month [m] of year [y]. *)
Definition nth_sunday (y m n : Z) : Z :=
  let d1 := days_from_civil y m 1 in
  d1 + (7 - weekday d1) mod 7 + 7 * (n - 1).

Definition dst_start (y : Z) : Z := nth_sunday y 3 2 * 86400 + 8 * 3600.
Definition dst_end (y : Z) : Z := nth_sunday y 11 1 * 86400 + 7 * 3600.

Definition us_central (s : Z) : Z :=
  let y := fst (fst (civil_from_days (s / 86400))) in
  if (dst_start y <=? s) && (s <? dst_end y) then -18000 else -21600.

Definition tzdb (name : string) : option (Z -> Z) :=
  if String.eqb name "America/Chicago" then Some us_central
  else if String.eqb name "UTC" then Some (fun _ => 0)
  else None.

(** No date strings are stored in the sample collections. *)
Definition parse_date (s : string) : option Z := None.

(** The same zone as a Go location. *)
Definition Chicago : GoTime.Location :=
  {| GoTime.lookup := fun u =>
       let y := fst (fst (civil_from_days (u / 86400))) in
       if u <? dst_start y then (-21600, dst_end (y - 1), dst_start y)
       else if u <? dst_end y then (-18000, dst_start y, dst_end y)
       else (-21600, dst_end y, dst_start (y + 1)) |}.

End TzData.

(* ===================================================================== *)
(** * Notions used to state the properties                                *)
(* ===================================================================== *)

(** The environment the utilities read their settings from: the base file
    loaded without overriding, then the local file loaded with overriding. *)
Definition load_config (files : gmap string (gmap string string))
    (env : gmap string string) : option (gmap string string) :=
  env1 ← Env.Load files ".env" env;
  Env.Overload files ".env.local" env1.

(** The key of an hour (year, month, day, hour): [YYYY-MM-DD HH:00:00]. *)
Definition bucket_string (h : Z * Z * Z * Z) : string :=
  let '(y, m, d, hh) := h in
  (Text.pad4 y ++ "-" ++ Text.pad2 m ++ "-" ++ Text.pad2 d ++ " "
   ++ Text.pad2 hh ++ ":00:00")%string.

(** The numbers found in a field of the given documents. *)
Definition numbers (field : string) (ds : list doc) : list Q :=
  omap (fun d => match Bson.get d field with
                 | VNum q => Some q
                 | _ => None
                 end) ds.

(** The numbers among a list of values. *)
Definition nums_of (vs : list value) : list Q :=
  omap (fun v => match v with VNum q => Some q | _ => None end) vs.

(** Round every value to 2 decimals, then take the mean. *)
Definition round_then_average (qs : list Q) : value :=
  match qs with
  | [] => VNull
  | _ => VNum (Qred (Num.mean ((fun q => Num.round_places q 2) <$> qs)))
  end.

(** Take the mean, then round it to 2 decimals. *)
Definition average_then_round (qs : list Q) : value :=
  match qs with
  | [] => VNull
  | _ => VNum (Num.round_places (Num.mean qs) 2)
  end.

(** Days from March 1 of year 0 to March 1 of year [Y]. *)
Definition days_before_year (Y : Z) : Z := 365 * Y + Y / 4 - Y / 100 + Y / 400.

(** The year of the era a day of the era falls in (years start in March). *)
Definition year_of_doe (doe : Z) : Z :=
  (doe - doe / 1460 + doe / 36524 - doe / 146096) / 365.

(** Month (0 = March) and day of month of a day of the year. *)
Definition month_day (doy : Z) : Z * Z :=
  let mp := (5 * doy + 2) / 153 in (mp, doy - (153 * mp + 2) / 5 + 1).

(** The date of day [doy] of the year that starts on March 1 of [Y]. *)
Definition of_march (Y doy : Z) : Z * Z * Z :=
  let '(mp, d) := month_day doy in
  let m := if mp <? 10 then mp + 3 else mp - 9 in
  ((if m <=? 2 then Y + 1 else Y), m, d).

(** A number that orders dates with months in 1..12 and days in 1..31. *)
Definition date_code (c : Z * Z * Z) : Z :=
  let '(y, m, d) := c in (y * 12 + (m - 1)) * 31 + (d - 1).

(** The number of the wall-clock hour an instant falls in, in a zone:
    whole hours since the epoch on that wall clock. *)
Definition local_hour_number (offset : Z -> Z) (ms : Z) : Z :=
  (ms / 1000 + offset (ms / 1000)) / 3600.

(** Chronological order of two hours: lexicographic on year, month, day
    and hour. *)
Definition hour_compare (a b : Z * Z * Z * Z) : comparison :=
  let '(y1, m1, d1, h1) := a in
  let '(y2, m2, d2, h2) := b in
  match y1 ?= y2 with
  | Eq => match m1 ?= m2 with
          | Eq => match d1 ?= d2 with
                  | Eq => h1 ?= h2
                  | c => c
                  end
          | c => c
          end
  | c => c
  end.

(** An hour of the calendar whose year has four digits. *)
Definition valid_hour (h : Z * Z * Z * Z) : Prop :=
  let '(y, m, d, hh) := h in
  0 <= y <= 9999 /\ 1 <= m <= 12 /\ 1 <= d <= 31 /\ 0 <= hh <= 23.

(** The bucket string of a result row. *)
Definition row_key (row : doc) : string :=
  match Bson.get row "_id" with
  | VStr s => s
  | _ => EmptyString
  end.

(** Lexicographic order on strings, as a relation. *)
Definition string_le (s t : string) : Prop := String.leb s t = true.

(** The hour bucket of an instant in a zone, when its year can be
    printed. *)
Definition printable (offset : Z -> Z) (ms : Z) : Prop :=
  0 <= Calendar.c_year (Mongo.local_civil offset ms) <= 9999.

Definition local_hour (offset : Z -> Z) (ms : Z) : Z * Z * Z * Z :=
  Calendar.hour_of (Mongo.local_civil offset ms).

Section AggregationNotions.
Import Mongo.
Variable tzdb : string -> option (Z -> Z).
Variable parse_date : string -> option Z.

(** The hour bucket the pipeline computes for a document. *)
Definition hour_bucket (d : doc) : Mongo.result value :=
  Mongo.eval tzdb parse_date
    (Mongo.EDateToString "%Y-%m-%d %H:00:00"
       (Mongo.EToDate (Mongo.EString "$updatedAt")) "America/Chicago") d.

Definition in_bucket (k : string) (d : doc) : bool :=
  match hour_bucket d with
  | Mongo.Ok (VStr k') => String.eqb k k'
  | _ => false
  end.

(** A number, or nothing: what [$round] accepts. *)
Definition number_or_null (v : value) : Prop :=
  v = VNull \/ exists q, v = VNum q.

(** A record the pipeline can read in the zone with the given offsets:
    a date that can be printed, and humidity and temperature that are
    numbers or absent. *)
Definition readable (offset : Z -> Z) (d : doc) : Prop :=
  (exists t, d !! "updatedAt"%string = Some (VDate t) /\ printable offset t) /\
  number_or_null (Bson.get d "humidity") /\
  number_or_null (Bson.get d "temperature").

(** The records of yesterday that fall in bucket [k]. *)
Definition bucket_members (now : GoTime.Time) (coll : list doc) (k : string)
  : list doc :=
  List.filter (in_bucket k)
    (Mongo.Find
       (range_filter (Aggregation.yesterdayStart now) (Aggregation.yesterdayEnd now))
       coll).

(** What the pipeline reads from a record: its bucket, and the rounded
    humidity and temperature that feed the two averages. *)
Definition reading (d : doc) : Mongo.result (value * list value) :=
  k ← hour_bucket d;
  h ← Mongo.round 2 (Bson.get d "humidity");
  t ← Mongo.round 2 (Bson.get d "temperature");
  Mongo.Ok (k, [h; t]).

(** The result row of the group with key [k]. *)
Definition row_of (keyed : list (value * list value)) (k : value) : doc :=
  <[ "avgTemperature"%string := Mongo.avg (Mongo.column 1 (Mongo.members k keyed)) ]>
    (<[ "avgHumidity"%string := Mongo.avg (Mongo.column 0 (Mongo.members k keyed)) ]>
       {[ "_id"%string := k ]}).

End AggregationNotions.

(** [r] carries a date [updatedAt] in the half-open range [lo, hi)
    (milliseconds since the epoch). *)
Definition updated_in (lo hi : Z) (r : doc) : Prop :=
  exists t, r !! "updatedAt"%string = Some (VDate t) /\ lo <= t < hi.

(** The identifier of a document as the upsert reads it. *)
Definition doc_id (d : doc) : value := Bson.get d "_id".

(** The upsert of one record, as [TransferRecords] issues it. *)
Definition upsert (r : doc) (coll : list doc) : list doc :=
  Mongo.update_one (Upsert.updateModel r) coll.

(** No two documents of the list carry the same identifier. *)
Fixpoint unique_ids (coll : list doc) : bool :=
  match coll with
  | [] => true
  | d :: coll' =>
      negb (existsb (Mongo.has_id (doc_id d)) coll') && unique_ids coll'
  end.

(** A record is stored in a collection when the first document carrying
    its identifier has all its fields, with the same values. *)
Definition stored (r : doc) (coll : list doc) : Prop :=
  exists d, find (Mongo.has_id (doc_id r)) coll = Some d /\ r ⊆ d.

(** The store a run of [TransferRecords] leaves behind, as a function of
    the dotenv files, the environment of the process and the store it
    starts from. *)
Definition store_after_upsert (files : gmap string (gmap string string))
    (env0 : gmap string string) (store : gmap string (list doc))
  : gmap string (list doc) :=
  match load_config files env0 with
  | None => store
  | Some env =>
      let src := Env.Getenv env "SOURCE_MONGO_URI" in
      let dst := Env.Getenv env "DEST_MONGO_URI" in
      if String.eqb src "" || String.eqb dst "" then store
      else
        match store !! src, store !! dst with
        | Some c_src, Some c_dst =>
            let recs := Mongo.Find Upsert.filter c_src in
            if (0 <? length recs)%nat
            then <[dst := Mongo.BulkWrite (Upsert.updateModel <$> recs) c_dst]> store
            else store
        | _, _ => store
        end
  end.

(** Every collection of the store is keyed by [_id]. *)
Definition all_keyed (store : gmap string (list doc)) : Prop :=
  map_Forall (fun _ coll => unique_ids coll = true) store.

(** A call that writes to a collection. *)
Definition is_write (c : Sys.db_call) : bool :=
  match c with
  | Sys.CallInsertMany _ _ | Sys.CallBulkWrite _ _ => true
  | _ => false
  end.

(** Characters of bucket strings and of formatted numbers: digits,
    minus, point, colon and space. *)
Definition is_digit (c : ascii) : bool :=
  let n := N_of_ascii c in ((48 <=? n) && (n <=? 57))%N.

Definition plain (c : ascii) : bool :=
  is_digit c || Ascii.eqb c "-" || Ascii.eqb c "." || Ascii.eqb c ":"
  || Ascii.eqb c " ".

Fixpoint all_plain (s : string) : bool :=
  match s with
  | EmptyString => true
  | String c s' => plain c && all_plain s'
  end.

(** The string starts with a digit or a minus sign. *)
Definition head_ok (s : string) : bool :=
  match s with
  | EmptyString => false
  | String c _ => is_digit c || Ascii.eqb c "-"
  end.

(** What a row of the aggregation decodes to. *)
Definition decode_row (row : doc) : Aggregation.result_row :=
  {| Aggregation.ID := row_key row;
     Aggregation.AvgHumidity :=
       match Bson.get row "avgHumidity" with VNum q => q | _ => 0%Q end;
     Aggregation.AvgTemperature :=
       match Bson.get row "avgTemperature" with VNum q => q | _ => 0%Q end |}.

(** The header line of the CSV file. *)
Definition header_line : string :=
  ("measurement_date_time,temperature_F,humidity_percent"
   ++ String Text.newline "")%string.

(** The line of the CSV file for one decoded row: bucket, average
    temperature, average humidity, the averages with 2 decimals. *)
Definition row_line (r : Aggregation.result_row) : string :=
  (Aggregation.ID r ++ "," ++
   Num.format_fixed 2 (Aggregation.AvgTemperature r) ++ "," ++
   Num.format_fixed 2 (Aggregation.AvgHumidity r) ++
   String Text.newline "")%string.

(** The whole CSV file for the rows of an aggregation. *)
Definition csv_content (rows : list doc) : string :=
  (header_line ++ Text.concat_all (row_line <$> (decode_row <$> rows)))%string.

(** A world in which the writer of [file] has been handed [stream] and
    the file holds [content]. *)
Definition writing (file content stream : string) (w : Sys.World) : Sys.World :=
  Sys.with_fs <[file := content]> (Sys.with_writer <[file := stream]> w).

(** [YYYY-MM-DD] as Go prints it for the layout [2006-01-02]. *)
Definition date_string (y m d : Z) : string :=
  (Text.appendInt y 4 ++ "-" ++ Text.appendInt m 2 ++ "-"
   ++ Text.appendInt d 2)%string.

(** A run of the CSV export from [w] that ended in [r] succeeded and left
    [content] in [file]: status 0, the success message on standard
    output, nothing logged, no other file and no collection changed. *)
Definition exported (w : Sys.World) (file content : string)
    (r : Sys.World * Z) : Prop :=
  snd r = 0 /\
  Sys.w_fs (fst r) !! file = Some content /\
  (forall other, other <> file -> Sys.w_fs (fst r) !! other = Sys.w_fs w !! other) /\
  Sys.w_stdout (fst r) =
    Sys.w_stdout w ++
    [("Data successfully written to " ++ file ++ String Text.newline "")%string] /\
  Sys.w_log (fst r) = Sys.w_log w /\
  Sys.w_store (fst r) = Sys.w_store w.

(** A run from [w] that ended in [r] transferred nothing: it returned
    normally after connecting to both deployments, querying the source and
    disconnecting, wrote nothing, and logged [msg]. *)
Definition transfers_nothing (w : Sys.World) (src dst : string)
    (q : Mongo.query) (msg : string) (r : Sys.World * Z) : Prop :=
  snd r = 0 /\
  Sys.w_store (fst r) = Sys.w_store w /\
  Sys.w_calls (fst r) =
    Sys.w_calls w ++
    [ Sys.CallConnect src; Sys.CallConnect dst; Sys.CallFind src q;
      Sys.CallDisconnect dst; Sys.CallDisconnect src ] /\
  List.filter is_write (Sys.w_calls (fst r)) = List.filter is_write (Sys.w_calls w) /\
  Sys.w_log (fst r) = Sys.w_log w ++ [msg].

(** What "terminates at once with a diagnostic and without touching the
    database" means for a run from [w] that ends in [(w', status)]. *)
Definition fatal_before_io (w : Sys.World) (r : Sys.World * Z) : Prop :=
  snd r = 1 /\
  (exists msg, Sys.w_log (fst r) = Sys.w_log w ++ [msg]) /\
  Sys.w_calls (fst r) = Sys.w_calls w /\
  Sys.w_store (fst r) = Sys.w_store w /\
  Sys.w_fs (fst r) = Sys.w_fs w /\
  Sys.w_stdout (fst r) = Sys.w_stdout w.

(** The two reports and the two transfers, as programs of a process. *)
Definition reports (tzdb : string -> option (Z -> Z))
    (parse_date : string -> option Z) : list (Sys.Process -> Sys.Prog unit) :=
  [ CsvExport.main tzdb parse_date; ConsoleReport.main tzdb parse_date ].

Definition transfers : list (Sys.Process -> Sys.Prog unit) :=
  [ transfer_recs.TransferRecs; Upsert.TransferRecords ].

Definition utilities (tzdb : string -> option (Z -> Z))
    (parse_date : string -> option Z) : list (Sys.Process -> Sys.Prog unit) :=
  reports tzdb parse_date ++ transfers.

(** Every document of the collection carries an [_id] field. *)
Definition identified (coll : list doc) : Prop :=
  Forall (fun d => is_Some (d !! "_id"%string)) coll.

(** What a run from [w] that ended in [r] did: its exit status, the line
    it logged, the database calls it issued, and the store it left. *)
Definition ran (w : Sys.World) (status : Z) (line : string)
    (calls : list Sys.db_call) (store : gmap string (list doc))
    (r : Sys.World * Z) : Prop :=
  snd r = status /\
  Sys.w_log (fst r) = Sys.w_log w ++ [line] /\
  Sys.w_calls (fst r) = Sys.w_calls w ++ calls /\
  Sys.w_store (fst r) = store /\
  Sys.w_dotenv (fst r) = Sys.w_dotenv w /\
  Sys.w_fs (fst r) = Sys.w_fs w /\
  Sys.w_stdout (fst r) = Sys.w_stdout w.

(** The lines the console report prints for the rows of an aggregation. *)
Definition report_lines (rows : list doc) : list string :=
  ConsoleReport.line <$> (decode_row <$> rows).

(** A run of the console report from [w] that ended in [r] succeeded and
    printed [lines]: status 0, one connection, one aggregation and the
    disconnection, nothing logged, no file and no collection changed. *)
Definition reported (w : Sys.World) (uri : string) (p : Mongo.Pipeline)
    (lines : list string) (r : Sys.World * Z) : Prop :=
  snd r = 0 /\
  Sys.w_stdout (fst r) = Sys.w_stdout w ++ lines /\
  Sys.w_calls (fst r) =
    Sys.w_calls w ++
    [ Sys.CallConnect uri; Sys.CallAggregate uri p; Sys.CallDisconnect uri ] /\
  Sys.w_log (fst r) = Sys.w_log w /\
  Sys.w_fs (fst r) = Sys.w_fs w /\
  Sys.w_store (fst r) = Sys.w_store w.

(** The string is made of decimal digits. *)
Fixpoint all_digits (s : string) : bool :=
  match s with
  | EmptyString => true
  | String c s' => is_digit c && all_digits s'
  end.

(** The document found under the identifier [v] once the records [recs]
    have been upserted, given the document found under [v] before: every
    record carrying [v] is written over it, or over a new document made
    of the identifier when there was none. *)
Definition upserted (v : value) (recs : list doc) (found : option doc)
  : option doc :=
  fold_left
    (fun acc r =>
       if Bson.eqb (doc_id r) v
       then Some (Bson.set_fields r (default {[ "_id"%string := doc_id r ]} acc))
       else acc)
    recs found.

(** What a run of a transfer from [w] that ended in [r] asked of the two
    deployments: it connected to the source and to the destination,
    queried the source once with [q], issued the call [write] when the
    query returned records [recs] and no write call when it returned
    none, and disconnected from both when it ended normally. *)
Definition transferred (w : Sys.World) (src dst : string) (q : Mongo.query)
    (recs : list doc) (write : Sys.db_call) (r : Sys.World * Z) : Prop :=
  Sys.w_calls (fst r) =
    Sys.w_calls w ++
    [ Sys.CallConnect src; Sys.CallConnect dst; Sys.CallFind src q ] ++
    match recs with [] => [] | _ => [write] end ++
    (if snd r =? 0 then [ Sys.CallDisconnect dst; Sys.CallDisconnect src ]
     else []).

(* ===================================================================== *)
(** * Sample inputs                                                       *)
(* ===================================================================== *)

Module Sample.
Import Sys.
Open Scope string_scope.

(** Three readings of 2020-05-01 (Central daylight time, UTC-5):
    00:59, 01:01 and 01:01:10 local. *)
Definition r1 : doc :=
  {[ "_id" := VNum 1; "updatedAt" := VDate 1588312740000;
     "temperature" := VNum (10004 # 1000); "humidity" := VNum 40 ]}.
Definition r2 : doc :=
  {[ "_id" := VNum 2; "updatedAt" := VDate 1588312860000;
     "temperature" := VNum (10006 # 1000); "humidity" := VNum 41 ]}.
Definition r3 : doc :=
  {[ "_id" := VNum 3; "updatedAt" := VDate 1588312870000;
     "temperature" := VNum (10004 # 1000); "humidity" := VNum 43 ]}.

(** Two readings of 2020-11-01, one hour apart, on either side of the
    end of daylight saving time: 01:30 CDT and 01:30 CST. *)
Definition r_cdt : doc :=
  {[ "_id" := VNum 4; "updatedAt" := VDate 1604212200000;
     "temperature" := VNum 50; "humidity" := VNum 60 ]}.
Definition r_cst : doc :=
  {[ "_id" := VNum 5; "updatedAt" := VDate 1604215800000;
     "temperature" := VNum 52; "humidity" := VNum 62 ]}.

(** The rows the aggregation of the day after yields for them. *)
Definition row_00 : doc :=
  {[ "_id" := VStr "2020-05-01 00:00:00";
     "avgHumidity" := VNum 40; "avgTemperature" := VNum 10 ]}.
Definition row_01 : doc :=
  {[ "_id" := VStr "2020-05-01 01:00:00";
     "avgHumidity" := VNum 42; "avgTemperature" := VNum (2001 # 200) ]}.

Definition empty_world : World :=
  {| w_dotenv := ∅; w_store := ∅; w_fs := ∅; w_nocreate := ∅;
     w_writer := ∅; w_stdout := []; w_log := []; w_calls := [] |}.

(** Both dotenv files present; one deployment holding the readings and
    an empty one. *)
Definition world : World :=
  {| w_dotenv :=
       {[ ".env" := {[ "MONGO_URI" := "mongodb://a";
                       "SOURCE_MONGO_URI" := "mongodb://a";
                       "DEST_MONGO_URI" := "mongodb://b" ]};
          ".env.local" := ∅ ]};
     w_store := {[ "mongodb://a" := [r3; r1; r2]; "mongodb://b" := [] ]};
     w_fs := ∅; w_nocreate := ∅; w_writer := ∅;
     w_stdout := []; w_log := []; w_calls := [] |}.

(** Both dotenv files present, no connection string anywhere. *)
Definition world_without_uri : World :=
  {| w_dotenv := {[ ".env" := {[ "LOG_LEVEL" := "debug" ]}; ".env.local" := ∅ ]};
     w_store := {[ "mongodb://a" := [r1] ]};
     w_fs := ∅; w_nocreate := ∅; w_writer := ∅;
     w_stdout := []; w_log := []; w_calls := [] |}.

(** Started on 2020-05-02 at 10:00 in Chicago, with an empty environment. *)
Definition process : Process :=
  {| environ := ∅;
     now := {| GoTime.unix := 1588431600; GoTime.loc := TzData.Chicago |} |}.

(** Started on 2020-05-03 at 10:00 in Chicago: no reading of the day
    before. *)
Definition process_next_day : Process :=
  {| environ := ∅;
     now := {| GoTime.unix := 1588518000; GoTime.loc := TzData.Chicago |} |}.

(** The local override file is missing. *)
Definition world_without_local : World :=
  {| w_dotenv :=
       {[ ".env" := {[ "SOURCE_MONGO_URI" := "mongodb://a";
                       "DEST_MONGO_URI" := "mongodb://b" ]} ]};
     w_store := {[ "mongodb://a" := [r1]; "mongodb://b" := [] ]};
     w_fs := ∅; w_nocreate := ∅; w_writer := ∅;
     w_stdout := []; w_log := []; w_calls := [] |}.

(** Started at the same time with the connection strings in the
    environment of the process. *)
Definition process_with_uri : Process :=
  {| environ := {[ "MONGO_URI" := "mongodb://a";
                   "SOURCE_MONGO_URI" := "mongodb://a";
                   "DEST_MONGO_URI" := "mongodb://b" ]};
     now := {| GoTime.unix := 1588431600; GoTime.loc := TzData.Chicago |} |}.

(** A reading of 2020-05-01 01:05 local whose humidity is a string. *)
Definition r_text : doc :=
  {[ "_id" := VNum 6; "updatedAt" := VDate 1588313100000;
     "temperature" := VNum 11; "humidity" := VStr "n/a" ]}.

(** The sample world with that reading added to the first deployment. *)
Definition world_with_text : World :=
  {| w_dotenv := w_dotenv world;
     w_store := {[ "mongodb://a" := [r3; r1; r_text; r2]; "mongodb://b" := [] ]};
     w_fs := ∅; w_nocreate := ∅; w_writer := ∅;
     w_stdout := []; w_log := []; w_calls := [] |}.

(** The sample world in which the CSV file of 2020-05-02 cannot be
    created, and a file of an earlier run exists. *)
Definition world_read_only : World :=
  {| w_dotenv := w_dotenv world;
     w_store := w_store world;
     w_fs := {[ "measurements_2020-05-01.csv" := "kept" ]};
     w_nocreate := {[ "measurements_2020-05-02.csv" ]};
     w_writer := ∅; w_stdout := []; w_log := []; w_calls := [] |}.

(** Started at the same time with connection strings in the environment
    of the process: no deployment answers at [mongodb://down]. *)
Definition process_unreachable : Process :=
  {| environ := {[ "MONGO_URI" := "mongodb://down";
                   "SOURCE_MONGO_URI" := "mongodb://a";
                   "DEST_MONGO_URI" := "mongodb://down" ]};
     now := {| GoTime.unix := 1588431600; GoTime.loc := TzData.Chicago |} |}.

(** Two readings of 2023 (UTC), and one of 2024. *)
Definition r_2023a : doc :=
  {[ "_id" := VNum 7; "updatedAt" := VDate 1672531200000;
     "temperature" := VNum 20; "humidity" := VNum 30 ]}.
Definition r_2023b : doc :=
  {[ "_id" := VNum 8; "updatedAt" := VDate 1700000000000;
     "temperature" := VNum 21; "humidity" := VNum 31 ]}.
Definition r_2024 : doc :=
  {[ "_id" := VNum 9; "updatedAt" := VDate 1704067200000;
     "temperature" := VNum 22; "humidity" := VNum 32 ]}.

(** A source holding them and a destination holding one other record. *)
Definition world_2023 : World :=
  {| w_dotenv := w_dotenv world;
     w_store := {[ "mongodb://a" := [r_2023a; r_2024; r_2023b];
                   "mongodb://b" := [r1] ]};
     w_fs := ∅; w_nocreate := ∅; w_writer := ∅;
     w_stdout := []; w_log := []; w_calls := [] |}.

(** The same, with the second reading of 2023 already in the
    destination. *)
Definition world_2023_partial : World :=
  {| w_dotenv := w_dotenv world;
     w_store := {[ "mongodb://a" := [r_2023a; r_2024; r_2023b];
                   "mongodb://b" := [r_2023b] ]};
     w_fs := ∅; w_nocreate := ∅; w_writer := ∅;
     w_stdout := []; w_log := []; w_calls := [] |}.

(** A document of a destination with the identifier of [r1], an old
    temperature and a note the source does not know. *)
Definition r1_note : doc :=
  {[ "_id" := VNum 1; "note" := VStr "calibrated"; "temperature" := VNum 0 ]}.

(** A reading of 2020-05-01 03:00 local without a humidity. *)
Definition r_dry : doc :=
  {[ "_id" := VNum 10; "updatedAt" := VDate 1588320000000;
     "temperature" := VNum 12 ]}.

(** The row the aggregation of the day after yields for it. *)
Definition row_03 : doc :=
  {[ "_id" := VStr "2020-05-01 03:00:00";
     "avgHumidity" := VNull; "avgTemperature" := VNum 12 ]}.

(** Started at the same instant on a machine set to UTC: 15:00 on
    2020-05-02. *)
Definition now_utc : GoTime.Time :=
  {| GoTime.unix := 1588431600; GoTime.loc := GoTime.UTC |}.

(** Started at the same time with source and destination set to the
    same deployment. *)
Definition process_onto_itself : Process :=
  {| environ := {[ "SOURCE_MONGO_URI" := "mongodb://a";
                   "DEST_MONGO_URI" := "mongodb://a" ]};
     now := {| GoTime.unix := 1588431600; GoTime.loc := TzData.Chicago |} |}.

(** Dotenv files that set nothing, and one deployment holding readings of
    2020 and of 2023. *)
Definition world_one_deployment : World :=
  {| w_dotenv := {[ ".env" := ∅; ".env.local" := ∅ ]};
     w_store := {[ "mongodb://a" := [r1; r_2023a; r2] ]};
     w_fs := ∅; w_nocreate := ∅; w_writer := ∅;
     w_stdout := []; w_log := []; w_calls := [] |}.

End Sample.

(* ===================================================================== *)
(** * Properties: configuration loading                                   *)
(* ===================================================================== *)

(** Closed equations are decided by evaluating both sides. *)
Ltac by_computation :=
  lazymatch goal with
  | |- @eq ?T _ ?b => vm_cast_no_check (@eq_refl T b)
  end.

(** Closed disequations between strings likewise. *)
Ltac by_computation_neq :=
  lazymatch goal with
  | |- ?a <> ?b =>
      apply String.eqb_neq; vm_cast_no_check (@eq_refl bool false)
  end.

(** A closed equation between strings that evaluates to false. *)
Ltac by_computation_false :=
  lazymatch goal with
  | |- ?a = ?b -> _ =>
      let H := fresh in
      intros H; apply String.eqb_eq in H; revert H;
      vm_compute; discriminate
  end.

Section Config.
Import Env Sys.
Implicit Types env envMap : gmap string string.

(** What [loadFile] leaves in the environment, key by key. *)
Lemma loadFile_lookup overload envMap env k :
  loadFile overload envMap env !! k =
  if overload then (envMap ∪ env) !! k else (env ∪ envMap) !! k.
Proof.
  unfold loadFile.
  apply (map_fold_weak_ind
    (fun r (m : gmap string string) =>
       r !! k = if overload then (m ∪ env) !! k else (env ∪ m) !! k)).
  - destruct overload; rewrite lookup_union, lookup_empty;
      [by rewrite (left_id_L None (∪)) | by rewrite (right_id_L None (∪))].
  - intros i x m r Hi IH.
    destruct overload; simpl.
    + rewrite orb_true_r. destruct (decide (i = k)) as [->|Hne].
      * rewrite lookup_insert_eq. symmetry.
        apply lookup_union_Some_l, lookup_insert_eq.
      * rewrite lookup_insert_ne by done. rewrite IH.
        rewrite !lookup_union, lookup_insert_ne; done.
    + rewrite orb_false_r. case_bool_decide as Hs; simpl.
      * rewrite IH, !lookup_union.
        destruct (decide (i = k)) as [->|Hne].
        -- destruct Hs as [v Hv]. rewrite Hv, Hi. simpl.
           by rewrite lookup_insert_eq.
        -- by rewrite lookup_insert_ne.
      * destruct (decide (i = k)) as [->|Hne].
        -- rewrite lookup_insert_eq, lookup_union, lookup_insert_eq.
           destruct (env !! k) eqn:E; [exfalso; apply Hs; eauto | done].
        -- rewrite lookup_insert_ne by done.
           rewrite IH, !lookup_union, lookup_insert_ne; done.
Qed.

Lemma load_config_lookup files base local env env' k :
  files !! ".env"%string = Some base ->
  files !! ".env.local"%string = Some local ->
  load_config files env = Some env' ->
  env' !! k = (local ∪ (env ∪ base)) !! k.
Proof.
  unfold load_config, Load, Overload. intros -> ->. simpl.
  intros [= <-]. rewrite loadFile_lookup, !lookup_union.
  by rewrite loadFile_lookup, lookup_union.
Qed.

(** The configuration prefix common to the four utilities. *)
Lemma config_loaded {A} (K : gmap string string -> Prog A) f g env0 env w :
  load_config (w_dotenv w) env0 = Some env ->
  (e1 ← godotenv_Load ".env" env0 ≫= check f;
   e2 ← godotenv_Overload ".env.local" e1 ≫= check g;
   K e2) w = K env w.
Proof.
  unfold load_config, mbind, prog_bind, godotenv_Load, godotenv_Overload.
  destruct (Load (w_dotenv w) ".env" env0) as [e1|]; [|done]. simpl.
  intros ->. done.
Qed.

Lemma getenv_absent env key : env !! key = None -> Getenv env key = EmptyString.
Proof. unfold Getenv. by intros ->. Qed.

End Config.

(** C8, as stated, fails: it is not true that every variable already set
    in the process environment keeps its value through configuration
    loading. A variable that also appears in the local override file is
    replaced, because that file is loaded with [Overload]. *)
Lemma overload_replaces_process_value :
  ~ (forall (files : gmap string (gmap string string))
            (env env' : gmap string string) (k v : string),
       load_config files env = Some env' ->
       env !! k = Some v -> env' !! k = Some v).
Proof.
  intros H.
  pose (local := {[ "MONGO_URI" := "mongodb://local" ]}%string
                 : gmap string string).
  pose (files := {[ ".env" := ∅; ".env.local" := local ]}%string
                 : gmap string (gmap string string)).
  pose (env := {[ "MONGO_URI" := "mongodb://from-shell" ]}%string
               : gmap string string).
  pose (env' := Env.loadFile true local (Env.loadFile false ∅ env)).
  assert (Hc : load_config files env = Some env') by by_computation.
  assert (He : env !! "MONGO_URI"%string = Some "mongodb://from-shell"%string)
    by by_computation.
  assert (Hl : env' !! "MONGO_URI"%string = Some "mongodb://local"%string)
    by by_computation.
  pose proof (H files env env' _ _ Hc He) as Hk.
  rewrite Hl in Hk. discriminate Hk.
Qed.

(** C8 (amended): after configuration loading a variable has the value of
    the local override file when that file defines it; otherwise the value
    it already had in the process environment; otherwise the value of the
    base file. The override file thus takes precedence over the base file
    and over the pre-existing environment, and a pre-existing variable is
    protected against the base file only. *)
Theorem config_precedence files base local env env' (k : string) :
  files !! ".env"%string = Some base ->
  files !! ".env.local"%string = Some local ->
  load_config files env = Some env' ->
  env' !! k =
    match local !! k with
    | Some v => Some v
    | None => match env !! k with
              | Some v => Some v
              | None => base !! k
              end
    end.
Proof.
  intros Hb Hl Hc. rewrite (load_config_lookup _ _ _ _ _ k Hb Hl Hc).
  rewrite !lookup_union.
  destruct (local !! k), (env !! k), (base !! k); reflexivity.
Qed.

Lemma config_precedence_witness :
  let base : gmap string string :=
    {[ "MONGO_URI" := "mongodb://base"; "TZ" := "UTC" ]}%string in
  let local : gmap string string :=
    {[ "MONGO_URI" := "mongodb://local" ]}%string in
  let files : gmap string (gmap string string) :=
    {[ ".env" := base; ".env.local" := local ]}%string in
  let env : gmap string string := {[ "TZ" := "America/Chicago" ]}%string in
  let env' := Env.loadFile true local (Env.loadFile false base env) in
  env' !! "MONGO_URI"%string = Some "mongodb://local"%string /\
  env' !! "TZ"%string = Some "America/Chicago"%string.
Proof.
  intros base local files env env'.
  assert (Hb : files !! ".env"%string = Some base) by (by_computation).
  assert (Hl : files !! ".env.local"%string = Some local) by (by_computation).
  assert (Hc : load_config files env = Some env') by (by_computation).
  split.
  - rewrite (config_precedence files base local env env' "MONGO_URI"%string Hb Hl Hc).
    by_computation.
  - rewrite (config_precedence files base local env env' "TZ"%string Hb Hl Hc).
    by_computation.
Defined.

(* ===================================================================== *)
(** * Properties: missing connection strings                              *)
(* ===================================================================== *)

Section MissingUri.
Import Env Sys.
Variable tzdb : string -> option (Z -> Z).
Variable parse_date : string -> option Z.

Lemma csv_export_no_uri p w env :
  load_config (w_dotenv w) (environ p) = Some env ->
  Getenv env "MONGO_URI" = EmptyString ->
  run (CsvExport.main tzdb parse_date p) w =
    (add_log "MONGO_URI not set in environment" w, 1).
Proof.
  intros Hc Hu. unfold run, CsvExport.main.
  rewrite (config_loaded _ _ _ _ _ _ Hc). by rewrite Hu.
Qed.

Lemma console_report_no_uri p w env :
  load_config (w_dotenv w) (environ p) = Some env ->
  Getenv env "MONGO_URI" = EmptyString ->
  run (ConsoleReport.main tzdb parse_date p) w =
    (add_log "MONGO_URI not set in environment" w, 1).
Proof.
  intros Hc Hu. unfold run, ConsoleReport.main.
  rewrite (config_loaded _ _ _ _ _ _ Hc). by rewrite Hu.
Qed.

Lemma transfer_recs_no_source p w env :
  load_config (w_dotenv w) (environ p) = Some env ->
  Getenv env "SOURCE_MONGO_URI" = EmptyString ->
  run (transfer_recs.TransferRecs p) w =
    (add_log "SOURCE_MONGO_URI not set in environment" w, 1).
Proof.
  intros Hc Hu. unfold run, transfer_recs.TransferRecs.
  rewrite (config_loaded _ _ _ _ _ _ Hc). by rewrite Hu.
Qed.

Lemma transfer_recs_no_dest p w env :
  load_config (w_dotenv w) (environ p) = Some env ->
  Getenv env "SOURCE_MONGO_URI" <> EmptyString ->
  Getenv env "DEST_MONGO_URI" = EmptyString ->
  run (transfer_recs.TransferRecs p) w =
    (add_log "DEST_MONGO_URI not set in environment" w, 1).
Proof.
  intros Hc Hs Hu. unfold run, transfer_recs.TransferRecs.
  rewrite (config_loaded _ _ _ _ _ _ Hc).
  apply String.eqb_neq in Hs. by rewrite Hs, Hu.
Qed.

Lemma upsert_no_source p w env :
  load_config (w_dotenv w) (environ p) = Some env ->
  Getenv env "SOURCE_MONGO_URI" = EmptyString ->
  run (Upsert.TransferRecords p) w =
    (add_log "SOURCE_MONGO_URI not set in environment" w, 1).
Proof.
  intros Hc Hu. unfold run, Upsert.TransferRecords.
  rewrite (config_loaded _ _ _ _ _ _ Hc). by rewrite Hu.
Qed.

Lemma upsert_no_dest p w env :
  load_config (w_dotenv w) (environ p) = Some env ->
  Getenv env "SOURCE_MONGO_URI" <> EmptyString ->
  Getenv env "DEST_MONGO_URI" = EmptyString ->
  run (Upsert.TransferRecords p) w =
    (add_log "DEST_MONGO_URI not set in environment" w, 1).
Proof.
  intros Hc Hs Hu. unfold run, Upsert.TransferRecords.
  rewrite (config_loaded _ _ _ _ _ _ Hc).
  apply String.eqb_neq in Hs. by rewrite Hs, Hu.
Qed.

End MissingUri.

Lemma fatal_before_io_intro w msg : fatal_before_io w (Sys.add_log msg w, 1).
Proof. repeat split; eauto. Qed.

(** C9: when the required connection string is absent from the environment
    after configuration loading, each utility exits with status 1 after
    logging one diagnostic line, having issued no database call and
    changed neither the store nor any file: [MONGO_URI] for the CSV
    export and the console report, [SOURCE_MONGO_URI] or
    [DEST_MONGO_URI] for the two transfers. *)
Theorem missing_uri_is_fatal tzdb parse_date p w env :
  load_config (Sys.w_dotenv w) (Sys.environ p) = Some env ->
  (env !! "MONGO_URI"%string = None ->
     fatal_before_io w (Sys.run (CsvExport.main tzdb parse_date p) w) /\
     fatal_before_io w (Sys.run (ConsoleReport.main tzdb parse_date p) w)) /\
  (env !! "SOURCE_MONGO_URI"%string = None \/
   env !! "DEST_MONGO_URI"%string = None ->
     fatal_before_io w (Sys.run (transfer_recs.TransferRecs p) w) /\
     fatal_before_io w (Sys.run (Upsert.TransferRecords p) w)).
Proof.
  intros Hc. split.
  - intros Hu%getenv_absent. split.
    + rewrite (csv_export_no_uri _ _ _ _ _ Hc Hu). apply fatal_before_io_intro.
    + rewrite (console_report_no_uri _ _ _ _ _ Hc Hu). apply fatal_before_io_intro.
  - intros Habs.
    destruct (String.eqb_spec (Env.Getenv env "SOURCE_MONGO_URI") EmptyString)
      as [Hs|Hs].
    + rewrite (transfer_recs_no_source _ _ _ Hc Hs), (upsert_no_source _ _ _ Hc Hs).
      split; apply fatal_before_io_intro.
    + destruct Habs as [Hn|Hn]; apply getenv_absent in Hn; [congruence|].
      rewrite (transfer_recs_no_dest _ _ _ Hc Hs Hn), (upsert_no_dest _ _ _ Hc Hs Hn).
      split; apply fatal_before_io_intro.
Qed.

Lemma missing_uri_is_fatal_witness :
  let w := Sample.world_without_uri in
  let p := Sample.process in
  fatal_before_io w (Sys.run (CsvExport.main TzData.tzdb TzData.parse_date p) w) /\
  fatal_before_io w (Sys.run (Upsert.TransferRecords p) w).
Proof.
  intros w p.
  assert (Hc : load_config (Sys.w_dotenv w) (Sys.environ p)
               = Some {[ "LOG_LEVEL" := "debug" ]}%string)
    by (by_computation).
  destruct (missing_uri_is_fatal TzData.tzdb TzData.parse_date p w _ Hc)
    as [Hagg Htr].
  split.
  - apply Hagg. by_computation.
  - apply Htr. left. by_computation.
Defined.

(* ===================================================================== *)
(** * Properties: the range filter                                        *)
(* ===================================================================== *)

Section RangeFilter.
Import Mongo.

Lemma date_leb lo t : Bson.leb (VDate lo) (VDate t) = (lo <=? t).
Proof.
  unfold Bson.leb, Bson.compare, Z.leb. by destruct (lo ?= t).
Qed.

(** A date operand matches dates only. *)
Lemma op_holds_date o lo v :
  op_holds o (VDate lo) v = true ->
  exists t, v = VDate t.
Proof.
  unfold op_holds. destruct v; simpl; try discriminate. eauto.
Qed.

Lemma range_filter_matches startDate endDate (d : doc) :
  matches (range_filter startDate endDate) d = true <->
  updated_in (GoTime.unix startDate * 1000) (GoTime.unix endDate * 1000) d.
Proof.
  unfold matches, range_filter, updated_in, GoTime.to_bson. simpl.
  rewrite !andb_true_r. unfold Bson.get. split.
  - intros [Hge Hlt]%andb_true_iff.
    destruct (op_holds_date _ _ _ Hge) as [t Ht].
    destruct (d !! "updatedAt"%string) as [v|] eqn:E; simpl in *; [|discriminate].
    subst v. exists t. split; [done|].
    unfold op_holds in Hge, Hlt. simpl in Hge, Hlt. rewrite date_leb in Hge, Hlt.
    lia.
  - intros (t & -> & Hlo & Hhi). simpl. unfold op_holds. simpl.
    rewrite !date_leb. apply andb_true_iff. split; lia.
Qed.

End RangeFilter.

(* ===================================================================== *)
(** * Properties: identifiers and upserts                                 *)
(* ===================================================================== *)

Section Identifiers.

Lemma string_compare_refl s : String.compare s s = Eq.
Proof.
  pose proof (String.compare_antisym s s) as H.
  destruct (String.compare s s); simpl in H; congruence.
Qed.

Lemma compare_eq_iff_same a b :
  Bson.compare a b = Eq ->
  forall c, Bson.compare a c = Bson.compare b c.
Proof.
  destruct a, b; simpl; try discriminate; intros H c.
  - reflexivity.
  - apply Qeq_alt in H. destruct c; simpl; try reflexivity.
    by rewrite H.
  - apply String.compare_eq_iff in H. by subst.
  - apply Z.compare_eq_iff in H. by subst.
Qed.

Lemma compare_refl a : Bson.compare a a = Eq.
Proof.
  destruct a; simpl; [done | by apply Qeq_alt | apply string_compare_refl
                     | apply Z.compare_refl].
Qed.

Lemma compare_antisym a b : Bson.compare a b = CompOpp (Bson.compare b a).
Proof.
  destruct a, b; simpl; try reflexivity.
  - by rewrite Qcompare_antisym.
  - apply String.compare_antisym.
  - apply Z.compare_antisym.
Qed.

Lemma eqb_refl a : Bson.eqb a a = true.
Proof. unfold Bson.eqb. by rewrite compare_refl. Qed.

Lemma eqb_sym a b : Bson.eqb a b = Bson.eqb b a.
Proof.
  unfold Bson.eqb. rewrite (compare_antisym a b).
  by destruct (Bson.compare b a).
Qed.

Lemma eqb_same a b c : Bson.eqb a b = true -> Bson.eqb a c = Bson.eqb b c.
Proof.
  unfold Bson.eqb. intros H.
  destruct (Bson.compare a b) eqn:E; try discriminate.
  by rewrite (compare_eq_iff_same _ _ E c).
Qed.

End Identifiers.

Section Upserts.
Import Mongo.
Implicit Types r d : doc.
Implicit Types coll : list doc.
#[local] Arguments matches : simpl never.
#[local] Arguments has_id : simpl never.
#[local] Arguments Bson.set_fields : simpl never.

Lemma matches_id v d : matches [("_id"%string, CEq v)] d = has_id v d.
Proof. unfold matches, has_id. simpl. by rewrite andb_true_r. Qed.

(** The identifier of an updated document is that of the document it
    replaces. *)
Lemma has_id_set_fields r d v :
  has_id (doc_id r) d = true ->
  has_id v (Bson.set_fields r d) = has_id v d.
Proof.
  unfold has_id, doc_id, Bson.set_fields, Bson.get. intros H.
  rewrite lookup_union.
  destruct (r !! "_id"%string) as [x|] eqn:E; simpl in *.
  - destruct (d !! "_id"%string) as [y|]; simpl in *.
    + symmetry. by apply eqb_same.
    + symmetry. by apply eqb_same.
  - by rewrite (left_id_L None (∪)).
Qed.

Lemma upsert_unfold r coll :
  upsert r coll =
  match update_first [("_id"%string, CEq (doc_id r))] [set r] coll with
  | Some coll' => coll'
  | None => coll ++ [Bson.set_fields r {[ "_id"%string := doc_id r ]}]
  end.
Proof. reflexivity. Qed.

Lemma update_first_find r coll :
  update_first [("_id"%string, CEq (doc_id r))] [set r] coll = None <->
  find (has_id (doc_id r)) coll = None.
Proof.
  induction coll as [|d coll IH]; simpl; [done|].
  rewrite matches_id. destruct (has_id (doc_id r) d); [done|].
  destruct (update_first _ _ coll); simpl.
  - split; [done|]. intros H. by apply IH in H.
  - split; [|done]. intros _. by apply IH.
Qed.

(** A record is stored when the first document carrying its identifier
    has all its fields. *)
Lemma stored_upsert_id r coll : stored r coll -> upsert r coll = coll.
Proof.
  unfold stored. rewrite upsert_unfold. intros (d & Hf & Hsub).
  induction coll as [|d' coll IH]; simpl in *; [done|].
  rewrite matches_id. destruct (has_id (doc_id r) d') eqn:E.
  - injection Hf as ->. simpl. unfold Bson.set_fields.
    by rewrite (map_subseteq_union _ _ Hsub).
  - specialize (IH Hf).
    destruct (update_first _ _ coll) as [c'|] eqn:U; simpl.
    + by rewrite IH.
    + apply update_first_find in U. congruence.
Qed.

Lemma new_doc_id r :
  has_id (doc_id r) (Bson.set_fields r {[ "_id"%string := doc_id r ]}) = true.
Proof.
  unfold has_id, Bson.set_fields, Bson.get, doc_id at 2.
  rewrite lookup_union.
  destruct (r !! "_id"%string) as [x|] eqn:E; simpl.
  - unfold doc_id, Bson.get. rewrite E. simpl.
    rewrite lookup_singleton_eq. simpl. apply eqb_refl.
  - rewrite lookup_singleton_eq. simpl. apply eqb_refl.
Qed.

Lemma find_app_none {A} (f : A -> bool) l x :
  find f l = None -> find f (l ++ [x]) = if f x then Some x else None.
Proof.
  induction l as [|a l IH]; simpl; [done|].
  destruct (f a); [done|]. apply IH.
Qed.

Lemma upsert_stored r coll : stored r (upsert r coll).
Proof.
  unfold stored. rewrite upsert_unfold.
  induction coll as [|d coll IH]; simpl.
  - rewrite new_doc_id. eexists. split; [done|]. apply map_union_subseteq_l.
  - rewrite matches_id. destruct (has_id (doc_id r) d) eqn:E.
    + simpl. rewrite has_id_set_fields, E by done.
      eexists. split; [done|]. apply map_union_subseteq_l.
    + destruct (update_first _ _ coll) as [c'|] eqn:U; simpl in *.
      * by rewrite E.
      * rewrite E. destruct IH as (d' & Hf & Hsub).
        exists d'. split; [|done]. exact Hf.
Qed.

(** Upserting a record with another identifier leaves a stored record
    stored. *)
Lemma upsert_other_stored r r' coll :
  Bson.eqb (doc_id r') (doc_id r) = false ->
  stored r coll -> stored r (upsert r' coll).
Proof.
  intros Hne. unfold stored. rewrite upsert_unfold.
  intros (d & Hf & Hsub). exists d. split; [|done].
  assert (Hnew : forall x, has_id (doc_id r') x = true -> has_id (doc_id r) x = false).
  { intros x Hx. unfold has_id in Hx |- *.
    by rewrite (eqb_same _ _ (doc_id r) Hx). }
  revert Hf. induction coll as [|d' coll IH]; simpl; [done|].
  rewrite matches_id. destruct (has_id (doc_id r') d') eqn:E; simpl.
  - rewrite has_id_set_fields by done. rewrite (Hnew _ E). done.
  - destruct (has_id (doc_id r) d') eqn:E2.
    + destruct (update_first _ _ coll); simpl; by rewrite E2.
    + intros Hf. specialize (IH Hf).
      destruct (update_first _ _ coll) as [c'|] eqn:U; simpl in *.
      * by rewrite E2.
      * rewrite E2. exact IH.
Qed.

Lemma bulk_upsert_fold (recs : list doc) coll :
  BulkWrite (Upsert.updateModel <$> recs) coll
  = fold_left (fun c r => upsert r c) recs coll.
Proof.
  unfold BulkWrite. revert coll.
  induction recs as [|r recs IH]; intros coll; simpl; [done|].
  apply IH.
Qed.

Lemma unique_ids_cons r recs :
  unique_ids (r :: recs) = true ->
  Forall (fun r' => Bson.eqb (doc_id r') (doc_id r) = false) recs /\
  unique_ids recs = true.
Proof.
  simpl. intros [Hn Hu]%andb_true_iff. split; [|done].
  apply negb_true_iff in Hn. apply Forall_forall. intros r' Hin.
  apply list_elem_of_In in Hin.
  destruct (Bson.eqb (doc_id r') (doc_id r)) eqn:E; [|done].
  assert (existsb (has_id (doc_id r)) recs = true); [|congruence].
  apply existsb_exists. exists r'. done.
Qed.

Lemma fold_upsert_keeps_stored r recs coll :
  Forall (fun r' => Bson.eqb (doc_id r') (doc_id r) = false) recs ->
  stored r coll ->
  stored r (fold_left (fun c r => upsert r c) recs coll).
Proof.
  intros HF. revert coll. induction HF as [|r' recs Hne HF IH]; intros coll Hs; simpl.
  - done.
  - apply IH. by apply upsert_other_stored.
Qed.

(** After a bulk upsert of records with distinct identifiers, every
    record is stored. *)
Lemma bulk_upsert_stores recs coll :
  unique_ids recs = true ->
  Forall (fun r => stored r (fold_left (fun c r => upsert r c) recs coll)) recs.
Proof.
  revert coll. induction recs as [|r recs IH]; intros coll Hu; [constructor|].
  destruct (unique_ids_cons _ _ Hu) as [Hne Hu'].
  constructor; simpl.
  - apply fold_upsert_keeps_stored; [done|]. apply upsert_stored.
  - by apply IH.
Qed.

(** Upserting records that are all stored changes nothing. *)
Lemma bulk_upsert_stored_id recs coll :
  Forall (fun r => stored r coll) recs ->
  fold_left (fun c r => upsert r c) recs coll = coll.
Proof.
  induction 1 as [|r recs Hs HF IH]; simpl; [done|].
  by rewrite stored_upsert_id.
Qed.

Lemma bulk_upsert_idempotent recs coll :
  unique_ids recs = true ->
  let ms := Upsert.updateModel <$> recs in
  BulkWrite ms (BulkWrite ms coll) = BulkWrite ms coll.
Proof.
  intros Hu ms. unfold ms. rewrite !bulk_upsert_fold.
  apply bulk_upsert_stored_id. by apply bulk_upsert_stores.
Qed.

End Upserts.
(* ===================================================================== *)
(** * Properties: running the utilities step by step                      *)
(* ===================================================================== *)

Section Steps.
Import Env Sys Mongo.

Lemma bind_return {A B} (m : Prog A) (K : A -> Prog B) w w' a :
  m w = (w', Return a) -> (m ≫= K) w = K a w'.
Proof. unfold mbind, prog_bind. by intros ->. Qed.

Lemma bind_exited {A B} (m : Prog A) (K : A -> Prog B) w w' s :
  m w = (w', Exited s) -> (m ≫= K) w = (w', Exited s).
Proof. unfold mbind, prog_bind. by intros ->. Qed.

Lemma config_failed {A} (K : gmap string string -> Prog A) f g env0 w :
  load_config (w_dotenv w) env0 = None ->
  exists msg,
    (e1 ← godotenv_Load ".env" env0 ≫= check f;
     e2 ← godotenv_Overload ".env.local" e1 ≫= check g;
     K e2) w = (add_log msg w, Exited 1).
Proof.
  unfold load_config, mbind, prog_bind, godotenv_Load, godotenv_Overload.
  destruct (Load (w_dotenv w) ".env" env0) as [e1|]; simpl; [|eauto].
  intros ->. simpl. eauto.
Qed.

Lemma connect_ok uri w :
  is_Some (w_store w !! uri) ->
  (mongo_Connect uri ≫= check id) w = (add_call (CallConnect uri) w, Return uri).
Proof.
  intros H. unfold mbind, prog_bind, mongo_Connect.
  by rewrite (bool_decide_eq_true_2 _ H).
Qed.

Lemma connect_failed uri w :
  w_store w !! uri = None ->
  (mongo_Connect uri ≫= check id) w
  = (add_log "server selection error" (add_call (CallConnect uri) w), Exited 1).
Proof.
  intros H. unfold mbind, prog_bind, mongo_Connect.
  rewrite bool_decide_eq_false_2; [done|]. rewrite H. by intros [? ?].
Qed.

Lemma find_ok client q w :
  (coll_Find client q ≫= check id) w
  = (add_call (CallFind client q) w, Return (Find q (collection client w))).
Proof. reflexivity. Qed.

Lemma foldM_collect {A B} (f : A -> B) (l : list A) (acc : list B) w :
  foldM (fun records record => mret (records ++ [f record])) acc l w
  = (w, Return (acc ++ (f <$> l))).
Proof.
  revert acc. induction l as [|a l IH]; intros acc; simpl.
  - by rewrite app_nil_r.
  - unfold mbind, prog_bind, mret, prog_ret. simpl.
    rewrite IH. by rewrite <- app_assoc.
Qed.

Lemma run_upsert_store p w :
  let r := run (Upsert.TransferRecords p) w in
  w_store (fst r) = store_after_upsert (w_dotenv w) (environ p) (w_store w) /\
  w_dotenv (fst r) = w_dotenv w.
Proof.
  unfold run, Upsert.TransferRecords, store_after_upsert.
  destruct (load_config (w_dotenv w) (environ p)) as [env|] eqn:Hc.
  2: { edestruct (config_failed (A:=unit)) as [msg ->]; [exact Hc|]. done. }
  rewrite (config_loaded _ _ _ _ _ _ Hc).
  destruct (String.eqb (Getenv env "SOURCE_MONGO_URI") "") eqn:Es; simpl; [done|].
  destruct (String.eqb (Getenv env "DEST_MONGO_URI") "") eqn:Ed; simpl; [done|].
  destruct (w_store w !! Getenv env "SOURCE_MONGO_URI") as [c_src|] eqn:Hs.
  2: { by rewrite (bind_exited _ _ _ _ _ (connect_failed _ _ Hs)). }
  rewrite (bind_return _ _ _ _ _ (connect_ok _ w (mk_is_Some _ _ Hs))).
  destruct (w_store w !! Getenv env "DEST_MONGO_URI") as [c_dst|] eqn:Hd.
  2: { by rewrite (bind_exited _ _ _ _ _ (connect_failed _ (add_call _ w) Hd)). }
  rewrite (bind_return _ _ _ _ _ (connect_ok _ (add_call _ w) (mk_is_Some _ _ Hd))).
  rewrite (bind_return _ _ _ _ _ (find_ok _ _ _)).
  rewrite (bind_return _ _ _ _ _ (foldM_collect _ _ _ _)).
  unfold collection. simpl. rewrite Hs. simpl. rewrite length_fmap.
  destruct (0 <? length _)%nat eqn:E; simpl; [|done].
  unfold mbind, prog_bind, coll_BulkWrite, collection. simpl. by rewrite Hd.
Qed.

End Steps.

Section UpsertTwice.
Import Env Sys Mongo.

Lemma unique_ids_filter (P : doc -> bool) coll :
  unique_ids coll = true -> unique_ids (List.filter P coll) = true.
Proof.
  induction coll as [|d coll IH]; simpl; [done|].
  intros [Hn Hu]%andb_true_iff. destruct (P d); simpl; [|by apply IH].
  rewrite IH by done. rewrite andb_true_r.
  apply negb_true_iff in Hn. apply negb_true_iff.
  destruct (existsb _ (List.filter P coll)) eqn:E; [|done].
  apply existsb_exists in E as (x & [Hin _]%filter_In & Hx).
  rewrite <- Hn. symmetry. apply existsb_exists. eauto.
Qed.

(** In a collection keyed by [_id], every document is stored. *)
Lemma keyed_self_stored coll :
  unique_ids coll = true -> Forall (fun r => stored r coll) coll.
Proof.
  induction coll as [|d coll IH]; [constructor|].
  intros Hu. destruct (unique_ids_cons _ _ Hu) as [Hne Hu'].
  constructor.
  - exists d. simpl. unfold has_id at 1. fold (doc_id d). by rewrite eqb_refl.
  - specialize (IH Hu'). rewrite Forall_forall in IH, Hne. apply Forall_forall.
    intros r Hin. destruct (IH r Hin) as (d' & Hf & Hsub).
    exists d'. split; [|done]. simpl. unfold has_id at 1. fold (doc_id d).
    rewrite eqb_sym, (Hne r Hin). done.
Qed.

Lemma bulk_upsert_self coll (P : doc -> bool) :
  unique_ids coll = true ->
  BulkWrite (Upsert.updateModel <$> List.filter P coll) coll = coll.
Proof.
  intros Hu. rewrite bulk_upsert_fold. apply bulk_upsert_stored_id.
  apply Forall_forall. intros r [Hin _]%list_elem_of_In%filter_In.
  pose proof (keyed_self_stored _ Hu) as H. rewrite Forall_forall in H.
  apply H. by apply list_elem_of_In.
Qed.

Lemma store_after_upsert_idempotent files env0 store :
  all_keyed store ->
  store_after_upsert files env0 (store_after_upsert files env0 store)
  = store_after_upsert files env0 store.
Proof.
  intros Hk. unfold store_after_upsert.
  destruct (load_config files env0) as [env|]; [|done].
  set (src := Getenv env "SOURCE_MONGO_URI").
  set (dst := Getenv env "DEST_MONGO_URI").
  destruct (String.eqb src "" || String.eqb dst "") eqn:E0; [done|].
  destruct (store !! src) as [c_src|] eqn:Hs; [|by rewrite Hs].
  destruct (store !! dst) as [c_dst|] eqn:Hd; [|by rewrite Hs, Hd].
  destruct (0 <? length (Find Upsert.filter c_src))%nat eqn:En;
    [|by rewrite Hs, Hd, En].
  pose proof (Hk _ _ Hs) as Hu. simpl in Hu.
  destruct (decide (src = dst)) as [Heq|Hne].
  - assert (c_src = c_dst) as -> by congruence.
    unfold Find. rewrite (bulk_upsert_self _ _ Hu).
    rewrite (insert_id _ _ _ Hd). rewrite Hs, Hd. fold (Find Upsert.filter c_dst).
    rewrite En. unfold Find. rewrite (bulk_upsert_self _ _ Hu).
    by rewrite (insert_id _ _ _ Hd).
  - rewrite lookup_insert_ne by done. rewrite Hs, lookup_insert_eq, En.
    rewrite bulk_upsert_idempotent by (by apply unique_ids_filter).
    by rewrite insert_insert_eq.
Qed.

End UpsertTwice.

(** C4: running the upsert transfer a second time, from the world the
    first run left and with the same process inputs, leaves every
    collection as the first run left it. The collections of the store
    are keyed by [_id] (no two documents of a collection share an
    identifier), as the store guarantees. *)
Theorem upsert_transfer_idempotent (p : Sys.Process) (w : Sys.World) :
  all_keyed (Sys.w_store w) ->
  let w1 := fst (Sys.run (Upsert.TransferRecords p) w) in
  let w2 := fst (Sys.run (Upsert.TransferRecords p) w1) in
  Sys.w_store w2 = Sys.w_store w1.
Proof.
  intros Hk w1 w2.
  destruct (run_upsert_store p w) as [Hs1 Hd1].
  destruct (run_upsert_store p w1) as [Hs2 Hd2].
  fold w1 in Hs1, Hd1. fold w2 in Hs2.
  rewrite Hs2, Hd1, Hs1.
  by apply store_after_upsert_idempotent.
Qed.

Lemma upsert_transfer_idempotent_witness :
  let w1 := fst (Sys.run (Upsert.TransferRecords Sample.process) Sample.world) in
  let w2 := fst (Sys.run (Upsert.TransferRecords Sample.process) w1) in
  Sys.w_store w1 !! "mongodb://b"%string = Some [Sample.r3; Sample.r1; Sample.r2] /\
  Sys.w_store w2 = Sys.w_store w1.
Proof.
  split.
  - by_computation.
  - apply (upsert_transfer_idempotent Sample.process Sample.world).
    apply map_Forall_lookup. intros uri coll H.
    assert (Hc : coll = [Sample.r3; Sample.r1; Sample.r2] \/ coll = []).
    { change (Sys.w_store Sample.world) with
        ({[ "mongodb://a" := [Sample.r3; Sample.r1; Sample.r2];
            "mongodb://b" := [] ]} : gmap string (list doc))%string in H.
      apply lookup_insert_Some in H as [[_ <-]|[_ H]]; [by left|].
      apply lookup_singleton_Some in H as [_ <-]. by right. }
    destruct Hc as [-> | ->]; by_computation.
Defined.

(* ===================================================================== *)
(** * Properties: a transfer that matches nothing                         *)
(* ===================================================================== *)

Section ZeroMatches.
Import Env Sys Mongo.

Lemma transfers_nothing_intro w src dst q msg :
  transfers_nothing w src dst q msg
    (add_call (CallDisconnect src)
       (add_call (CallDisconnect dst)
          (add_log msg
             (add_call (CallFind src q)
                (add_call (CallConnect dst) (add_call (CallConnect src) w))))),
     0).
Proof.
  unfold transfers_nothing. simpl. repeat split.
  - by rewrite <- !app_assoc.
  - rewrite <- !app_assoc. simpl. rewrite List.filter_app. simpl.
    by rewrite app_nil_r.
Qed.

Lemma transfer_recs_zero p w env :
  let src := Getenv env "SOURCE_MONGO_URI" in
  let dst := Getenv env "DEST_MONGO_URI" in
  load_config (w_dotenv w) (environ p) = Some env ->
  src <> EmptyString -> dst <> EmptyString ->
  is_Some (w_store w !! src) -> is_Some (w_store w !! dst) ->
  Find transfer_recs.filter (collection src w) = [] ->
  transfers_nothing w src dst transfer_recs.filter
    "No records found for the year 2023"
    (run (transfer_recs.TransferRecs p) w).
Proof.
  intros src dst Hc Hs Hd Hsrc Hdst Hz.
  unfold run, transfer_recs.TransferRecs.
  rewrite (config_loaded _ _ _ _ _ _ Hc).
  apply String.eqb_neq in Hs, Hd. fold src dst. rewrite Hs, Hd.
  rewrite (bind_return _ _ _ _ _ (connect_ok _ w Hsrc)).
  rewrite (bind_return _ _ _ _ _ (connect_ok _ (add_call _ w) Hdst)).
  rewrite (bind_return _ _ _ _ _ (find_ok _ _ _)).
  rewrite (bind_return _ _ _ _ _ (foldM_collect id _ _ _)).
  change (collection src (add_call _ (add_call _ w))) with (collection src w).
  rewrite Hz. simpl. apply transfers_nothing_intro.
Qed.

Lemma upsert_zero p w env :
  let src := Getenv env "SOURCE_MONGO_URI" in
  let dst := Getenv env "DEST_MONGO_URI" in
  load_config (w_dotenv w) (environ p) = Some env ->
  src <> EmptyString -> dst <> EmptyString ->
  is_Some (w_store w !! src) -> is_Some (w_store w !! dst) ->
  Find Upsert.filter (collection src w) = [] ->
  transfers_nothing w src dst Upsert.filter
    "No records found for the year 2021"
    (run (Upsert.TransferRecords p) w).
Proof.
  intros src dst Hc Hs Hd Hsrc Hdst Hz.
  unfold run, Upsert.TransferRecords.
  rewrite (config_loaded _ _ _ _ _ _ Hc).
  apply String.eqb_neq in Hs, Hd. fold src dst. rewrite Hs, Hd.
  rewrite (bind_return _ _ _ _ _ (connect_ok _ w Hsrc)).
  rewrite (bind_return _ _ _ _ _ (connect_ok _ (add_call _ w) Hdst)).
  rewrite (bind_return _ _ _ _ _ (find_ok _ _ _)).
  rewrite (bind_return _ _ _ _ _ (foldM_collect _ _ _ _)).
  change (collection src (add_call _ (add_call _ w))) with (collection src w).
  rewrite Hz. simpl. apply transfers_nothing_intro.
Qed.

End ZeroMatches.

(** C7: when the range filter matches no record of the source, either
    transfer returns normally (status 0) having issued no write call: the
    only calls are the two connections, the query and the two
    disconnections; the store is unchanged, and one line reporting that no
    records were found is logged. *)
Theorem zero_matches_no_write (p : Sys.Process) (w : Sys.World)
    (env : gmap string string) :
  let src := Env.Getenv env "SOURCE_MONGO_URI" in
  let dst := Env.Getenv env "DEST_MONGO_URI" in
  load_config (Sys.w_dotenv w) (Sys.environ p) = Some env ->
  src <> EmptyString -> dst <> EmptyString ->
  is_Some (Sys.w_store w !! src) -> is_Some (Sys.w_store w !! dst) ->
  (Mongo.Find transfer_recs.filter (Sys.collection src w) = [] ->
   transfers_nothing w src dst transfer_recs.filter
     "No records found for the year 2023"
     (Sys.run (transfer_recs.TransferRecs p) w)) /\
  (Mongo.Find Upsert.filter (Sys.collection src w) = [] ->
   transfers_nothing w src dst Upsert.filter
     "No records found for the year 2021"
     (Sys.run (Upsert.TransferRecords p) w)).
Proof.
  intros src dst Hc Hs Hd Hsrc Hdst. split; intros Hz.
  - by apply transfer_recs_zero.
  - by apply upsert_zero.
Qed.

Lemma zero_matches_no_write_witness :
  transfers_nothing Sample.world "mongodb://a" "mongodb://b" transfer_recs.filter
    "No records found for the year 2023"
    (Sys.run (transfer_recs.TransferRecs Sample.process) Sample.world).
Proof.
  assert (Hc : load_config (Sys.w_dotenv Sample.world) (Sys.environ Sample.process)
               = Some {[ "MONGO_URI" := "mongodb://a";
                         "SOURCE_MONGO_URI" := "mongodb://a";
                         "DEST_MONGO_URI" := "mongodb://b" ]}%string)
    by by_computation.
  refine (proj1 (zero_matches_no_write Sample.process Sample.world _ Hc _ _ _ _) _).
  - by_computation_neq.
  - by_computation_neq.
  - exists [Sample.r3; Sample.r1; Sample.r2]. by_computation.
  - exists []. by_computation.
  - by_computation.
Defined.
(* ===================================================================== *)
(** * Properties: the aggregation pipeline                                *)
(* ===================================================================== *)

Section PipelineTheory.
Import Mongo.
Variable tzdb : string -> option (Z -> Z).
Variable parse_date : string -> option Z.

Lemma mapM_Ok {A B} (f : A -> result B) (l : list A) (k : list B) :
  mapM f l = Ok k <-> Forall2 (fun x y => f x = Ok y) l k.
Proof.
  revert k. induction l as [|x l IH]; intros k; simpl.
  - split.
    + intros [= <-]. constructor.
    + by inversion 1.
  - unfold mbind, result_bind, mret, result_ret.
    destruct (f x) as [y|e] eqn:Ef.
    + destruct (mapM f l) as [k'|e] eqn:El; simpl.
      * split.
        -- intros [= <-]. constructor; [done|]. by apply IH.
        -- inversion 1 as [|? ? ? ? Hy Hk]; subst. apply IH in Hk. congruence.
      * split; [done|]. inversion 1 as [|? ? ? ? Hy Hk]; subst.
        apply IH in Hk. congruence.
    + split; [done|]. inversion 1; congruence.
Qed.

Lemma add_localHour_Ok d d' :
  add_fields tzdb parse_date
    [("localHour"%string,
      EDateToString "%Y-%m-%d %H:00:00" (EToDate (EString "$updatedAt"))
        "America/Chicago")] d = Ok d' ->
  exists k, hour_bucket tzdb parse_date d = Ok k /\ d' = <["localHour"%string := k]> d.
Proof.
  unfold add_fields, hour_bucket. cbn [mapM].
  unfold mbind, result_bind, mret, result_ret.
  destruct (eval tzdb parse_date (EDateToString _ _ _) d) as [k|e]; [|done].
  cbn [fold_left]. intros [= <-]. eauto.
Qed.

Lemma Forall2_compose {A B C} (P : A -> B -> Prop) (Q : B -> C -> Prop)
    (R : A -> C -> Prop) l1 l2 l3 :
  (forall a b c, P a b -> Q b c -> R a c) ->
  Forall2 P l1 l2 -> Forall2 Q l2 l3 -> Forall2 R l1 l3.
Proof.
  intros H H1. revert l3. induction H1; intros l3 H2; inversion H2; subst;
    constructor; eauto.
Qed.

Lemma group_input_localHour d k kv :
  group_input tzdb parse_date (EString "$localHour")
    [ ("avgHumidity"%string, Avg (ERound (EString "$humidity") 2));
      ("avgTemperature"%string, Avg (ERound (EString "$temperature") 2)) ]
    (<["localHour"%string := k]> d) = Ok kv ->
  hour_bucket tzdb parse_date d = Ok k ->
  reading tzdb parse_date d = Ok kv.
Proof.
  unfold group_input, reading. intros H ->. revert H.
  cbn [mapM acc_input eval]. unfold Bson.get.
  rewrite lookup_insert_eq, !lookup_insert_ne by done.
  unfold mbind, result_bind, mret, result_ret. cbn [default].
  destruct (round 2 (default VNull (d !! "humidity"%string))) as [h|e]; [|done].
  destruct (round 2 (default VNull (d !! "temperature"%string))) as [t|e]; [|done].
  done.
Qed.

Lemma group_row_eq keyed k :
  group_row
    [ ("avgHumidity"%string, Avg (ERound (EString "$humidity") 2));
      ("avgTemperature"%string, Avg (ERound (EString "$temperature") 2)) ]
    keyed k = row_of keyed k.
Proof. reflexivity. Qed.

(** The result of the pipeline, in terms of the readings of the records
    in range. *)
Lemma aggregate_inv now coll rows :
  Aggregate tzdb parse_date (Aggregation.pipeline now) coll = Ok rows ->
  exists keyed,
    Forall2 (fun d kv => reading tzdb parse_date d = Ok kv)
      (Find (range_filter (Aggregation.yesterdayStart now)
                          (Aggregation.yesterdayEnd now)) coll) keyed /\
    rows = sort [("_id"%string, 1)] (row_of keyed <$> distinct (fst <$> keyed)).
Proof.
  unfold Aggregation.pipeline. cbn [Aggregate run_stage].
  unfold mbind at 1 2 3 4, result_bind at 1 2 3 4.
  change (List.filter (matches _) coll) with
    (Find (range_filter (Aggregation.yesterdayStart now)
                        (Aggregation.yesterdayEnd now)) coll).
  destruct (mapM (add_fields _ _ _) _) as [docs2|e] eqn:E2; [|done].
  unfold group. unfold mbind at 1, result_bind at 1.
  destruct (mapM (group_input _ _ _ _) docs2) as [keyed|e] eqn:E3; [|done].
  intros [= <-]. exists keyed. split; [|done].
  apply mapM_Ok in E2, E3.
  eapply Forall2_compose; [|exact E2|exact E3].
  intros d d' kv Hd Hkv. cbv beta in Hd, Hkv.
  apply add_localHour_Ok in Hd as (k & Hk & ->).
  by eapply group_input_localHour.
Qed.

End PipelineTheory.
Section Buckets.
Import Mongo Calendar.
Variable tzdb : string -> option (Z -> Z).
Variable parse_date : string -> option Z.

Lemma format_bucket c ms :
  format_date "%Y-%m-%d %H:00:00" c ms =
  if (0 <=? c_year c) && (c_year c <=? 9999)
  then Ok (bucket_string (hour_of c))
  else Err "date component was outside the supported range of 0-9999".
Proof.
  unfold bucket_string, hour_of. cbn [format_date Ascii.eqb Bool.eqb].
  unfold format_spec. cbn [Ascii.eqb Bool.eqb].
  destruct ((0 <=? c_year c) && (c_year c <=? 9999)); reflexivity.
Qed.

Lemma hour_bucket_date d t offset :
  d !! "updatedAt"%string = Some (VDate t) ->
  tzdb "America/Chicago" = Some offset ->
  hour_bucket tzdb parse_date d =
  if (0 <=? c_year (local_civil offset t)) && (c_year (local_civil offset t) <=? 9999)
  then Ok (VStr (bucket_string (local_hour offset t)))
  else Err "date component was outside the supported range of 0-9999".
Proof.
  intros Hd Htz. unfold hour_bucket. cbn [eval].
  unfold Bson.get. rewrite Hd. cbn [default].
  unfold mbind, result_bind. cbn [to_date].
  unfold date_to_string. rewrite Htz. unfold id. cbn [to_date]. cbv beta iota.
  rewrite format_bucket.
  unfold local_hour, mbind, result_bind.
  destruct ((0 <=? _) && (_ <=? 9999)); reflexivity.
Qed.

Lemma hour_bucket_unknown_zone d :
  tzdb "America/Chicago" = None ->
  forall k, hour_bucket tzdb parse_date d <> Ok k.
Proof.
  intros Htz k. unfold hour_bucket. cbn [eval].
  unfold mbind, result_bind.
  destruct (to_date _ _) as [v|e]; [|done].
  unfold date_to_string. by rewrite Htz.
Qed.

(** A record in range that the pipeline could read has a printable date,
    and its key is the bucket string of its local hour. *)
Lemma reading_in_range now d kv :
  matches (range_filter (Aggregation.yesterdayStart now)
                        (Aggregation.yesterdayEnd now)) d = true ->
  reading tzdb parse_date d = Ok kv ->
  exists offset t,
    tzdb "America/Chicago" = Some offset /\
    d !! "updatedAt"%string = Some (VDate t) /\
    printable offset t /\
    fst kv = VStr (bucket_string (local_hour offset t)).
Proof.
  intros (t & Hd & _)%range_filter_matches Hr.
  unfold reading in Hr. unfold mbind, result_bind in Hr.
  destruct (hour_bucket tzdb parse_date d) as [k|e] eqn:Hk; [|done].
  destruct (tzdb "America/Chicago") as [offset|] eqn:Htz.
  2: { exfalso. by eapply hour_bucket_unknown_zone. }
  exists offset, t. split; [done|]. split; [done|].
  rewrite (hour_bucket_date _ _ _ Hd Htz) in Hk.
  destruct ((0 <=? _) && (_ <=? 9999)) eqn:Ey; [|done].
  injection Hk as <-. split.
  - unfold printable. lia.
  - destruct (round 2 _) as [h|]; [|done].
    destruct (round 2 _) as [tt|]; [|done].
    by injection Hr as <-.
Qed.

End Buckets.
(* ===================================================================== *)
(** * Properties: fixed-width fields and the calendar                     *)
(* ===================================================================== *)

Section Digits.
Import Text.

Lemma digit_code d : d <= 9 -> N_of_ascii (digit d) = (48 + Z.to_N d)%N.
Proof.
  intros H. unfold digit. apply N_ascii_embedding. lia.
Qed.

Lemma digit_compare x y :
  0 <= x <= 9 -> 0 <= y <= 9 ->
  Ascii.compare (digit x) (digit y) = (x ?= y).
Proof.
  intros Hx Hy. unfold Ascii.compare. rewrite !digit_code by lia.
  rewrite <- N2Z.inj_compare, !N2Z.inj_add, !Z2N.id by lia.
  destruct (Z.compare_spec x y), (Z.compare_spec (Z.of_N 48 + x) (Z.of_N 48 + y));
    try reflexivity; lia.
Qed.

Lemma ascii_compare_refl c : Ascii.compare c c = Eq.
Proof. unfold Ascii.compare. apply N.compare_refl. Qed.

Lemma string_app_cons c s t : (String c s ++ t)%string = String c (s ++ t)%string.
Proof. reflexivity. Qed.

Lemma string_app_nil t : (EmptyString ++ t)%string = t.
Proof. reflexivity. Qed.

Lemma string_app_nil_r s : (s ++ EmptyString)%string = s.
Proof. induction s as [|c s IH]; [done|]. rewrite string_app_cons. by f_equal. Qed.

Lemma compare_cons_same c s t :
  String.compare (String c s) (String c t) = String.compare s t.
Proof. simpl. by rewrite ascii_compare_refl. Qed.

(** Comparing two strings that start with a two-digit field. *)
Lemma compare_pad2 a b s t :
  0 <= a < 100 -> 0 <= b < 100 ->
  String.compare (pad2 a ++ s) (pad2 b ++ t) =
  match a ?= b with
  | Eq => String.compare s t
  | c => c
  end.
Proof.
  intros Ha Hb. unfold pad2. rewrite !string_app_cons, !string_app_nil. cbn [String.compare].
  rewrite !digit_compare by (Z.div_mod_to_equations; lia).
  destruct (Z.compare_spec (a / 10 mod 10) (b / 10 mod 10)) as [E1|E1|E1];
  destruct (Z.compare_spec (a mod 10) (b mod 10)) as [E2|E2|E2];
  destruct (Z.compare_spec a b) as [E|E|E];
  try reflexivity; exfalso; Z.div_mod_to_equations; lia.
Qed.

Lemma pad4_split a :
  0 <= a <= 9999 -> pad4 a = (pad2 (a / 100) ++ pad2 (a mod 100))%string.
Proof.
  intros Ha. unfold pad4, pad2. rewrite !string_app_cons, !string_app_nil.
  replace (a / 100 / 10 mod 10) with (a / 1000 mod 10)
    by (Z.div_mod_to_equations; lia).
  replace (a mod 100 / 10 mod 10) with (a / 10 mod 10)
    by (Z.div_mod_to_equations; lia).
  replace (a mod 100 mod 10) with (a mod 10)
    by (Z.div_mod_to_equations; lia).
  reflexivity.
Qed.

Lemma string_app_assoc (s t u : string) :
  ((s ++ t) ++ u)%string = (s ++ (t ++ u))%string.
Proof. induction s as [|c s IH]; [done|]. rewrite !string_app_cons. by f_equal. Qed.

Lemma compare_pad4 a b s t :
  0 <= a <= 9999 -> 0 <= b <= 9999 ->
  String.compare (pad4 a ++ s) (pad4 b ++ t) =
  match a ?= b with
  | Eq => String.compare s t
  | c => c
  end.
Proof.
  intros Ha Hb. rewrite !pad4_split, !string_app_assoc by done.
  rewrite !compare_pad2 by (Z.div_mod_to_equations; lia).
  destruct (Z.compare_spec (a / 100) (b / 100)) as [E1|E1|E1];
  destruct (Z.compare_spec (a mod 100) (b mod 100)) as [E2|E2|E2];
  destruct (Z.compare_spec a b) as [E|E|E];
  try reflexivity; exfalso; Z.div_mod_to_equations; lia.
Qed.

End Digits.
Section CalendarFacts.
Import Calendar Text.

Lemma civil_of_doe_bounds doe :
  0 <= doe < 146097 ->
  let '(y, m, d) := civil_of_doe doe in
  0 <= y <= 400 /\ 1 <= m <= 12 /\ 1 <= d <= 31.
Proof.
  intros H. unfold civil_of_doe.
  set (yoe := (doe - doe / 1460 + doe / 36524 - doe / 146096) / 365).
  set (doy := doe - (365 * yoe + yoe / 4 - yoe / 100)).
  assert (Hy : 0 <= yoe <= 399 /\ 0 <= doy <= 365).
  { subst doy yoe. Z.div_mod_to_equations. lia. }
  clearbody doy yoe. destruct Hy as [Hy Hd].
  set (mp := (5 * doy + 2) / 153).
  assert (Hm : 0 <= mp <= 11 /\ 1 <= doy - (153 * mp + 2) / 5 + 1 <= 31).
  { subst mp. Z.div_mod_to_equations. lia. }
  clearbody mp. destruct Hm as [Hm Hdd].
  destruct (mp <? 10) eqn:E1.
  - apply Z.ltb_lt in E1. destruct (mp + 3 <=? 2) eqn:E2; lia.
  - apply Z.ltb_ge in E1. destruct (mp - 9 <=? 2) eqn:E2; lia.
Qed.

Lemma civil_from_days_bounds z :
  let '(y, m, d) := civil_from_days z in
  1 <= m <= 12 /\ 1 <= d <= 31.
Proof.
  unfold civil_from_days.
  pose proof (civil_of_doe_bounds ((z + 719468) mod 146097)
                ltac:(apply Z.mod_pos_bound; lia)) as H.
  destruct (civil_of_doe _) as [[y m] d]. tauto.
Qed.

(** The wall clock hour of any instant is an hour of the calendar. *)
Lemma hour_of_seconds_valid s :
  0 <= c_year (civil_of_seconds s) <= 9999 ->
  valid_hour (hour_of (civil_of_seconds s)).
Proof.
  unfold civil_of_seconds, hour_of, valid_hour.
  pose proof (civil_from_days_bounds (s / 86400)) as H.
  destruct (civil_from_days _) as [[y m] d]. simpl.
  intros Hy. repeat split; try tauto; try lia; Z.div_mod_to_equations; lia.
Qed.

Lemma local_hour_valid offset t :
  printable offset t -> valid_hour (local_hour offset t).
Proof. intros H. apply hour_of_seconds_valid, H. Qed.

(** Lexicographic order of bucket strings is chronological order of the
    hours they denote. *)
Lemma bucket_compare h1 h2 :
  valid_hour h1 -> valid_hour h2 ->
  String.compare (bucket_string h1) (bucket_string h2) = hour_compare h1 h2.
Proof.
  destruct h1 as [[[y1 m1] d1] hh1], h2 as [[[y2 m2] d2] hh2].
  unfold valid_hour, bucket_string, hour_compare.
  intros (Hy1 & Hm1 & Hd1 & Hh1) (Hy2 & Hm2 & Hd2 & Hh2).
  rewrite compare_pad4 by done. destruct (y1 ?= y2); try reflexivity.
  rewrite ?string_app_cons, ?string_app_nil, compare_cons_same.
  rewrite compare_pad2 by lia. destruct (m1 ?= m2); try reflexivity.
  rewrite ?string_app_cons, ?string_app_nil, compare_cons_same.
  rewrite compare_pad2 by lia. destruct (d1 ?= d2); try reflexivity.
  rewrite ?string_app_cons, ?string_app_nil, compare_cons_same.
  rewrite compare_pad2 by lia. destruct (hh1 ?= hh2); reflexivity.
Qed.

Lemma hour_compare_eq h1 h2 : hour_compare h1 h2 = Eq <-> h1 = h2.
Proof.
  destruct h1 as [[[y1 m1] d1] hh1], h2 as [[[y2 m2] d2] hh2].
  unfold hour_compare.
  destruct (Z.compare_spec y1 y2), (Z.compare_spec m1 m2),
    (Z.compare_spec d1 d2), (Z.compare_spec hh1 hh2);
    split; intros Heq; try discriminate; try congruence;
    injection Heq; lia.
Qed.

(** Distinct hours have distinct bucket strings. *)
Lemma bucket_string_inj h1 h2 :
  valid_hour h1 -> valid_hour h2 ->
  bucket_string h1 = bucket_string h2 -> h1 = h2.
Proof.
  intros V1 V2 H. apply hour_compare_eq.
  rewrite <- bucket_compare by done. rewrite H. apply string_compare_refl.
Qed.

End CalendarFacts.
Section Grouping.
Import Mongo.
Variable tzdb : string -> option (Z -> Z).
Variable parse_date : string -> option Z.

Lemma eqb_str a v : Bson.eqb (VStr a) v = true <-> v = VStr a.
Proof.
  unfold Bson.eqb. split.
  - destruct v; simpl; try discriminate.
    destruct (String.compare a s) eqn:E; try discriminate.
    apply String.compare_eq_iff in E. by subst.
  - intros ->. simpl. by rewrite string_compare_refl.
Qed.

Lemma distinct_sub ks k : k ∈ distinct ks -> k ∈ ks.
Proof.
  revert k. induction ks as [|a ks IH]; intros k; simpl; [done|].
  rewrite !elem_of_cons, list_elem_of_In, filter_In, <- list_elem_of_In.
  intros [->|[H _]]; eauto.
Qed.

Lemma distinct_complete ks k :
  k ∈ ks -> exists k', k' ∈ distinct ks /\ Bson.eqb k' k = true.
Proof.
  induction ks as [|a ks IH]; simpl; [by intros ?%elem_of_nil|].
  intros [->|Hin]%elem_of_cons.
  - exists a. split; [left|apply eqb_refl].
  - destruct (IH Hin) as (k' & Hk' & He).
    destruct (Bson.eqb a k') eqn:Ea.
    + exists a. split; [left|]. by rewrite (eqb_same _ _ k Ea).
    + exists k'. split; [|done]. right.
      apply list_elem_of_In, filter_In. split; [by apply list_elem_of_In|].
      by rewrite Ea.
Qed.

Lemma row_of_id keyed k : Bson.get (row_of keyed k) "_id" = k.
Proof.
  unfold row_of, Bson.get.
  by rewrite !lookup_insert_ne, lookup_singleton_eq by done.
Qed.

Lemma row_of_humidity keyed k :
  Bson.get (row_of keyed k) "avgHumidity" = avg (column 0 (members k keyed)).
Proof.
  unfold row_of, Bson.get.
  by rewrite lookup_insert_ne, lookup_insert_eq by done.
Qed.

Lemma row_of_temperature keyed k :
  Bson.get (row_of keyed k) "avgTemperature" = avg (column 1 (members k keyed)).
Proof. unfold row_of, Bson.get. by rewrite lookup_insert_eq. Qed.

Lemma elem_of_sort keys (docs : list doc) d : d ∈ sort keys docs <-> d ∈ docs.
Proof. unfold sort. by rewrite merge_sort_Permutation. Qed.

(** The rows of a successful aggregation are the rows of the distinct
    keys read from the records in range. *)
Lemma aggregate_rows now coll rows row :
  Aggregate tzdb parse_date (Aggregation.pipeline now) coll = Ok rows ->
  row ∈ rows ->
  exists keyed k,
    Forall2 (fun d kv => reading tzdb parse_date d = Ok kv)
      (Find (range_filter (Aggregation.yesterdayStart now)
                          (Aggregation.yesterdayEnd now)) coll) keyed /\
    k ∈ fst <$> keyed /\ row = row_of keyed k.
Proof.
  intros (keyed & HF & ->)%aggregate_inv Hin.
  apply elem_of_sort, list_elem_of_fmap in Hin as (k & -> & Hk).
  exists keyed, k. split; [done|]. split; [|done]. by apply distinct_sub.
Qed.

(** Every record in range is counted in the row of its key. *)
Lemma aggregate_covers now coll rows d :
  Aggregate tzdb parse_date (Aggregation.pipeline now) coll = Ok rows ->
  d ∈ Find (range_filter (Aggregation.yesterdayStart now)
                         (Aggregation.yesterdayEnd now)) coll ->
  exists offset t row,
    tzdb "America/Chicago" = Some offset /\
    d !! "updatedAt"%string = Some (VDate t) /\
    printable offset t /\
    row ∈ rows /\
    Bson.get row "_id" = VStr (bucket_string (local_hour offset t)).
Proof.
  intros (keyed & HF & ->)%aggregate_inv Hin.
  destruct (proj1 (list_elem_of_lookup _ _) Hin) as [i Hi].
  destruct (Forall2_lookup_l _ _ _ _ _ HF Hi) as (kv & Hkv & Hr).
  assert (Hm : matches (range_filter (Aggregation.yesterdayStart now)
                          (Aggregation.yesterdayEnd now)) d = true).
  { unfold Find in Hin. by apply list_elem_of_In, filter_In in Hin as [_ ?]. }
  destruct (reading_in_range _ _ _ _ _ Hm Hr) as (offset & t & Htz & Hd & Hp & Hk).
  destruct (distinct_complete (fst <$> keyed) (fst kv)) as (k' & Hk' & He).
  { apply list_elem_of_fmap. exists kv. split; [done|].
    by eapply list_elem_of_lookup_2. }
  assert (k' = fst kv) as ->.
  { rewrite Hk in He |- *. rewrite eqb_sym in He. by apply eqb_str in He. }
  exists offset, t, (row_of keyed (fst kv)).
  split; [done|]. split; [done|]. split; [done|]. split.
  - apply elem_of_sort, list_elem_of_fmap. eauto.
  - by rewrite row_of_id.
Qed.

End Grouping.

(** C2: every record the hourly aggregation processes is keyed by the
    string [YYYY-MM-DD HH:00:00] of its [updatedAt] instant read on the
    wall clock of America/Chicago, and it is counted in the row of that
    key; two records have the same key exactly when their instants fall
    in the same wall-clock hour of that zone. The stored date is the
    instant alone: the zone a timestamp was written in does not matter. *)
Theorem hour_bucket_follows_local_hour
    (tzdb : string -> option (Z -> Z)) (parse_date : string -> option Z)
    (offset : Z -> Z) (now : GoTime.Time) (coll rows : list doc)
    (d1 d2 : doc) (t1 t2 : Z) :
  let range := range_filter (Aggregation.yesterdayStart now)
                            (Aggregation.yesterdayEnd now) in
  let k1 := bucket_string (local_hour offset t1) in
  let k2 := bucket_string (local_hour offset t2) in
  tzdb "America/Chicago"%string = Some offset ->
  Mongo.Aggregate tzdb parse_date (Aggregation.pipeline now) coll = Mongo.Ok rows ->
  d1 ∈ Mongo.Find range coll -> d1 !! "updatedAt"%string = Some (VDate t1) ->
  d2 ∈ Mongo.Find range coll -> d2 !! "updatedAt"%string = Some (VDate t2) ->
  hour_bucket tzdb parse_date d1 = Mongo.Ok (VStr k1) /\
  hour_bucket tzdb parse_date d2 = Mongo.Ok (VStr k2) /\
  (exists row, row ∈ rows /\ Bson.get row "_id" = VStr k1) /\
  (exists row, row ∈ rows /\ Bson.get row "_id" = VStr k2) /\
  (k1 = k2 <-> local_hour offset t1 = local_hour offset t2) /\
  (forall u l1 l2,
     GoTime.to_bson {| GoTime.unix := u; GoTime.loc := l1 |} =
     GoTime.to_bson {| GoTime.unix := u; GoTime.loc := l2 |}).
Proof.
  intros range k1 k2 Htz Hagg Hin1 Hd1 Hin2 Hd2.
  destruct (aggregate_covers _ _ _ _ _ _ Hagg Hin1)
    as (o1 & t1' & row1 & Ho1 & Hd1' & Hp1 & Hr1 & Hk1).
  destruct (aggregate_covers _ _ _ _ _ _ Hagg Hin2)
    as (o2 & t2' & row2 & Ho2 & Hd2' & Hp2 & Hr2 & Hk2).
  assert (o1 = offset) as -> by congruence.
  assert (o2 = offset) as -> by congruence.
  assert (t1' = t1) as -> by congruence.
  assert (t2' = t2) as -> by congruence.
  assert (Hb : forall d t, d !! "updatedAt"%string = Some (VDate t) ->
                 printable offset t ->
                 hour_bucket tzdb parse_date d
                 = Mongo.Ok (VStr (bucket_string (local_hour offset t)))).
  { intros d t Hd Hp. rewrite (hour_bucket_date _ _ _ _ _ Hd Htz).
    unfold printable in Hp.
    destruct (Z.leb_spec 0 (Calendar.c_year (Mongo.local_civil offset t)));
      destruct (Z.leb_spec (Calendar.c_year (Mongo.local_civil offset t)) 9999);
      simpl; try reflexivity; lia. }
  split; [by apply Hb|]. split; [by apply Hb|].
  split; [by exists row1|]. split; [by exists row2|].
  split; [|reflexivity].
  subst k1 k2. split; [|by intros Heq; rewrite Heq].
  apply bucket_string_inj; by apply local_hour_valid.
Qed.

Lemma hour_bucket_follows_local_hour_witness :
  let now := Sys.now Sample.process in
  let coll := [Sample.r3; Sample.r1; Sample.r2] in
  hour_bucket TzData.tzdb TzData.parse_date Sample.r1
    = Mongo.Ok (VStr "2020-05-01 00:00:00") /\
  hour_bucket TzData.tzdb TzData.parse_date Sample.r2
    = Mongo.Ok (VStr "2020-05-01 01:00:00") /\
  local_hour TzData.us_central 1588312740000 <>
  local_hour TzData.us_central 1588312860000.
Proof.
  intros now coll.
  pose (rows := match Mongo.Aggregate TzData.tzdb TzData.parse_date
                        (Aggregation.pipeline now) coll with
                | Mongo.Ok r => r
                | Mongo.Err _ => []
                end).
  assert (Htz : TzData.tzdb "America/Chicago" = Some TzData.us_central)
    by reflexivity.
  assert (Hagg : Mongo.Aggregate TzData.tzdb TzData.parse_date
                   (Aggregation.pipeline now) coll = Mongo.Ok rows)
    by by_computation.
  assert (Hf : Mongo.Find (range_filter (Aggregation.yesterdayStart now)
                             (Aggregation.yesterdayEnd now)) coll = coll)
    by by_computation.
  assert (Hd1 : Sample.r1 !! "updatedAt"%string = Some (VDate 1588312740000))
    by by_computation.
  assert (Hd2 : Sample.r2 !! "updatedAt"%string = Some (VDate 1588312860000))
    by by_computation.
  assert (Hin1 : Sample.r1 ∈ Mongo.Find
                    (range_filter (Aggregation.yesterdayStart now)
                       (Aggregation.yesterdayEnd now)) coll).
  { rewrite Hf. apply elem_of_cons. right. apply elem_of_cons. by left. }
  assert (Hin2 : Sample.r2 ∈ Mongo.Find
                    (range_filter (Aggregation.yesterdayStart now)
                       (Aggregation.yesterdayEnd now)) coll).
  { rewrite Hf. do 2 (apply elem_of_cons; right). apply elem_of_cons. by left. }
  destruct (hour_bucket_follows_local_hour TzData.tzdb TzData.parse_date
              TzData.us_central now coll rows Sample.r1 Sample.r2
              1588312740000 1588312860000 Htz Hagg Hin1 Hd1 Hin2 Hd2)
    as (H1 & H2 & _ & _ & Hiff & _).
  split; [|split].
  - etransitivity; [exact H1|]. by_computation.
  - etransitivity; [exact H2|]. by_computation.
  - intros Heq. apply Hiff in Heq. revert Heq. by_computation_false.
Defined.
Section Sorting.
Import Mongo.

Lemma sort_compare_antisym keys a b :
  sort_compare keys a b = CompOpp (sort_compare keys b a).
Proof.
  induction keys as [|[k dir] keys IH]; simpl; [done|].
  rewrite (compare_antisym (Bson.get a k) (Bson.get b k)).
  destruct (Bson.compare (Bson.get b k) (Bson.get a k)); simpl; [done| |];
    destruct (0 <=? dir); done.
Qed.

Lemma sort_le_total keys : Total (sort_le keys).
Proof.
  intros a b. unfold sort_le. rewrite (sort_compare_antisym keys a b).
  destruct (sort_compare keys b a); simpl; [left|right|left]; done.
Qed.

Lemma sort_sorted keys docs : Sorted (sort_le keys) (sort keys docs).
Proof. unfold sort. apply Sorted_merge_sort, sort_le_total. Qed.

Lemma sort_le_id_strings (a b : doc) s t :
  Bson.get a "_id" = VStr s -> Bson.get b "_id" = VStr t ->
  sort_le [("_id"%string, 1)] a b -> string_le s t.
Proof.
  unfold sort_le, string_le, String.leb. simpl. intros -> ->. simpl.
  by destruct (String.compare s t).
Qed.

Lemma sorted_row_keys rows :
  Forall (fun row => exists s, Bson.get row "_id" = VStr s) rows ->
  Sorted (sort_le [("_id"%string, 1)]) rows ->
  Sorted string_le (row_key <$> rows).
Proof.
  intros HF HS. induction HS as [|a l HS IH Hhd]; simpl; [constructor|].
  inversion HF as [|? ? [s Hs] HF']; subst.
  constructor; [by apply IH|].
  destruct Hhd as [|b l Hab]; simpl; constructor.
  inversion HF' as [|? ? [t Ht] _]; subst.
  unfold row_key. rewrite Hs, Ht. by eapply sort_le_id_strings.
Qed.

End Sorting.

Section SortedOutput.
Import Mongo.
Variable tzdb : string -> option (Z -> Z).
Variable parse_date : string -> option Z.

(** Every row of a successful aggregation is keyed by the bucket string
    of a valid hour. *)
Lemma aggregate_row_keys now coll rows :
  Aggregate tzdb parse_date (Aggregation.pipeline now) coll = Ok rows ->
  Forall (fun row => exists h, valid_hour h /\
                       Bson.get row "_id" = VStr (bucket_string h)) rows.
Proof.
  intros Hagg. apply Forall_forall. intros row Hin.
  destruct (aggregate_rows _ _ _ _ _ _ Hagg Hin) as (keyed & k & HF & Hk & ->).
  apply list_elem_of_fmap in Hk as (kv & -> & Hkv).
  destruct (proj1 (list_elem_of_lookup _ _) Hkv) as [i Hi].
  destruct (Forall2_lookup_r _ _ _ _ _ HF Hi) as (d & Hd & Hr).
  assert (Hm : matches (range_filter (Aggregation.yesterdayStart now)
                          (Aggregation.yesterdayEnd now)) d = true).
  { apply list_elem_of_lookup_2 in Hd. unfold Find in Hd.
    by apply list_elem_of_In, filter_In in Hd as [_ ?]. }
  destruct (reading_in_range _ _ _ _ _ Hm Hr) as (offset & t & _ & _ & Hp & Hk).
  exists (local_hour offset t). split; [by apply local_hour_valid|].
  by rewrite row_of_id.
Qed.

Lemma aggregate_sorted now coll rows :
  Aggregate tzdb parse_date (Aggregation.pipeline now) coll = Ok rows ->
  Sorted string_le (row_key <$> rows).
Proof.
  intros Hagg. apply sorted_row_keys.
  - eapply Forall_impl; [by eapply aggregate_row_keys|].
    intros row (h & _ & Hh). eauto.
  - apply aggregate_inv in Hagg as (keyed & _ & ->). apply sort_sorted.
Qed.

End SortedOutput.
Section Averages.
Import Mongo.

Lemma fold_avg_step vs s n :
  fold_left avg_step vs (s, n) =
  (fold_left Qplus (nums_of vs) s, n + Z.of_nat (length (nums_of vs))).
Proof.
  revert s n. induction vs as [|v vs IH]; intros s n; simpl.
  - f_equal. lia.
  - destruct v; simpl; rewrite IH; try reflexivity.
    f_equal. lia.
Qed.

Lemma fold_left_Qplus l s : (fold_left Qplus l s == s + Num.sum l)%Q.
Proof.
  revert s. induction l as [|q l IH]; intros s; simpl.
  - ring.
  - rewrite IH. ring.
Qed.

(** [$avg] is the mean of the numbers it is fed, null when there are
    none. *)
Lemma avg_mean vs :
  avg vs = match nums_of vs with
           | [] => VNull
           | qs => VNum (Qred (Num.mean qs))
           end.
Proof.
  unfold avg. rewrite fold_avg_step.
  destruct (nums_of vs) as [|q qs] eqn:E; [reflexivity|].
  destruct (Z.eqb_spec (0 + Z.of_nat (length (q :: qs))) 0) as [H0|_].
  { simpl in H0. lia. }
  f_equal. apply Qred_complete. unfold Num.mean.
  rewrite Z.add_0_l, fold_left_Qplus, Qplus_0_l. reflexivity.
Qed.

End Averages.

Section RoundThenAverage.
Import Mongo.
Variable tzdb : string -> option (Z -> Z).
Variable parse_date : string -> option Z.

Lemma nums_of_cons v vs : nums_of (v :: vs) = nums_of [v] ++ nums_of vs.
Proof. by destruct v. Qed.

Lemma round_Ok v t :
  round 2 v = Ok t ->
  nums_of [t] = (fun q => Num.round_places q 2) <$>
                match v with VNum q => [q] | _ => [] end.
Proof. destruct v; simpl; intros [= <-]; reflexivity. Qed.

Lemma reading_Ok d kv :
  reading tzdb parse_date d = Ok kv ->
  exists key h t,
    kv = (key, [h; t]) /\
    hour_bucket tzdb parse_date d = Ok key /\
    round 2 (Bson.get d "humidity") = Ok h /\
    round 2 (Bson.get d "temperature") = Ok t.
Proof.
  unfold reading, mbind, result_bind.
  destruct (hour_bucket tzdb parse_date d) as [key|]; [|done].
  destruct (round 2 (Bson.get d "humidity")) as [h|]; [|done].
  destruct (round 2 (Bson.get d "temperature")) as [t|]; [|done].
  intros [= <-]. eauto 10.
Qed.

Lemma in_bucket_eqb d k key :
  hour_bucket tzdb parse_date d = Ok key ->
  Bson.eqb (VStr k) key = in_bucket tzdb parse_date k d.
Proof.
  intros H. unfold in_bucket. rewrite H.
  destruct (Bson.eqb (VStr k) key) eqn:E.
  - apply eqb_str in E as ->. symmetry. apply String.eqb_refl.
  - destruct key; try reflexivity.
    destruct (String.eqb_spec k s) as [->|]; [|done].
    by rewrite eqb_refl in E.
Qed.

(** The numbers fed to the two averages of bucket [k]: the rounded
    humidities and temperatures of the records of that bucket. *)
Lemma bucket_columns docs keyed k :
  Forall2 (fun d kv => reading tzdb parse_date d = Ok kv) docs keyed ->
  let grp := List.filter (in_bucket tzdb parse_date k) docs in
  nums_of (column 0 (members (VStr k) keyed))
    = (fun q => Num.round_places q 2) <$> numbers "humidity" grp /\
  nums_of (column 1 (members (VStr k) keyed))
    = (fun q => Num.round_places q 2) <$> numbers "temperature" grp.
Proof.
  induction 1 as [|d kv docs keyed Hr HF IH]; [done|].
  destruct (reading_Ok _ _ Hr) as (key & h & t & -> & Hk & Hh & Ht).
  destruct IH as [IH0 IH1].
  unfold members in *. cbn [List.filter fst].
  rewrite (in_bucket_eqb _ _ _ Hk).
  destruct (in_bucket tzdb parse_date k d); [|done].
  cbn [fmap list_fmap snd column nth].
  rewrite (nums_of_cons h), (nums_of_cons t).
  unfold column in IH0, IH1. rewrite IH0, IH1.
  rewrite (round_Ok _ _ Hh), (round_Ok _ _ Ht).
  unfold numbers. cbn [omap list_omap].
  split.
  - destruct (Bson.get d "humidity"); reflexivity.
  - destruct (Bson.get d "temperature"); reflexivity.
Qed.

Lemma avg_round_then_average vs qs :
  nums_of vs = (fun q => Num.round_places q 2) <$> qs ->
  avg vs = round_then_average qs.
Proof.
  intros H. rewrite avg_mean, H. unfold round_then_average.
  by destruct qs.
Qed.

End RoundThenAverage.

(** C1: in every row of the hourly aggregation, the reported average
    temperature and average humidity are the mean of the values of the
    records of that bucket after each value has been rounded to 2
    decimals (null when the bucket holds no number in that field). This
    is not the rounded mean of the raw values: on 10.004 and 10.006 the
    two differ. *)
Theorem averages_round_then_average
    (tzdb : string -> option (Z -> Z)) (parse_date : string -> option Z)
    (now : GoTime.Time) (coll rows : list doc) (row : doc) (k : string) :
  Mongo.Aggregate tzdb parse_date (Aggregation.pipeline now) coll = Mongo.Ok rows ->
  row ∈ rows ->
  Bson.get row "_id" = VStr k ->
  let grp := bucket_members tzdb parse_date now coll k in
  Bson.get row "avgTemperature" = round_then_average (numbers "temperature" grp) /\
  Bson.get row "avgHumidity" = round_then_average (numbers "humidity" grp) /\
  round_then_average [10004 # 1000; 10006 # 1000]%Q
    <> average_then_round [10004 # 1000; 10006 # 1000]%Q.
Proof.
  intros Hagg Hin Hid grp.
  destruct (aggregate_rows _ _ _ _ _ _ Hagg Hin) as (keyed & k' & HF & Hk' & ->).
  rewrite row_of_id in Hid. subst k'.
  destruct (bucket_columns tzdb parse_date _ _ k HF) as [H0 H1].
  rewrite row_of_temperature, row_of_humidity.
  split; [by apply avg_round_then_average|].
  split; [by apply avg_round_then_average|].
  vm_compute. discriminate.
Qed.

Lemma averages_round_then_average_witness :
  let now := Sys.now Sample.process in
  let coll := [Sample.r3; Sample.r1; Sample.r2] in
  Mongo.Aggregate TzData.tzdb TzData.parse_date (Aggregation.pipeline now) coll
    = Mongo.Ok [Sample.row_00; Sample.row_01] /\
  numbers "temperature"
    (bucket_members TzData.tzdb TzData.parse_date now coll "2020-05-01 01:00:00")
    = [10004 # 1000; 10006 # 1000]%Q /\
  Bson.get Sample.row_01 "avgTemperature"
    = round_then_average [10004 # 1000; 10006 # 1000]%Q /\
  Bson.get Sample.row_01 "avgTemperature"
    <> average_then_round [10004 # 1000; 10006 # 1000]%Q.
Proof.
  intros now coll.
  assert (Hagg : Mongo.Aggregate TzData.tzdb TzData.parse_date
                   (Aggregation.pipeline now) coll
                 = Mongo.Ok [Sample.row_00; Sample.row_01]) by by_computation.
  assert (Hin : Sample.row_01 ∈ [Sample.row_00; Sample.row_01]).
  { apply elem_of_cons. right. apply elem_of_cons. by left. }
  assert (Hid : Bson.get Sample.row_01 "_id" = VStr "2020-05-01 01:00:00")
    by by_computation.
  assert (Hn : numbers "temperature"
                 (bucket_members TzData.tzdb TzData.parse_date now coll
                    "2020-05-01 01:00:00")
               = [10004 # 1000; 10006 # 1000]%Q) by by_computation.
  destruct (averages_round_then_average TzData.tzdb TzData.parse_date now coll
              [Sample.row_00; Sample.row_01] Sample.row_01
              "2020-05-01 01:00:00" Hagg Hin Hid) as (Ht & _ & Hne).
  split; [exact Hagg|]. split; [exact Hn|].
  rewrite Hn in Ht. split; [exact Ht|].
  rewrite Ht. exact Hne.
Defined.
(* ===================================================================== *)
(** * Properties: the CSV writer                                          *)
(* ===================================================================== *)

Section PlainFields.
Import Text Csv.

Lemma all_plain_app s t : all_plain (s ++ t) = all_plain s && all_plain t.
Proof.
  induction s as [|c s IH]; [done|].
  rewrite string_app_cons. simpl. rewrite IH. by rewrite andb_assoc.
Qed.

Lemma plain_not (c x : ascii) :
  plain x = false -> plain c = true -> Ascii.eqb c x = false.
Proof.
  intros Hx Hc. destruct (Ascii.eqb_spec c x) as [->|]; [congruence|done].
Qed.

Lemma contains_char_plain x s :
  plain x = false -> all_plain s = true -> contains_char x s = false.
Proof.
  intros Hx. induction s as [|c s IH]; simpl; [done|].
  intros [Hc Hs]%andb_true_iff. rewrite (plain_not _ _ Hx Hc). by apply IH.
Qed.

Lemma starts_with_space_head c rest :
  is_digit c || Ascii.eqb c "-" = true ->
  starts_with_space (String c rest) = false.
Proof.
  destruct c as [[] [] [] [] [] [] [] []]; try discriminate; intros _;
    destruct rest as [|b [|b' r]]; reflexivity.
Qed.

Lemma not_backslash_dot c rest :
  is_digit c || Ascii.eqb c "-" = true ->
  String.eqb (String c rest) "\." = false.
Proof.
  destruct c as [[] [] [] [] [] [] [] []]; try discriminate; reflexivity.
Qed.

(** A field made of plain characters that starts with a digit or a minus
    sign is written as it is. *)
Lemma plain_field_unquoted s :
  all_plain s = true -> head_ok s = true -> write_field s = s.
Proof.
  intros Hp Hh. unfold write_field, fieldNeedsQuotes.
  destruct s as [|c rest]; [done|]. simpl in Hh.
  rewrite (not_backslash_dot _ _ Hh).
  rewrite !contains_char_plain by done.
  by rewrite (starts_with_space_head _ _ Hh).
Qed.

Lemma digit_is_digit d : d <= 9 -> is_digit (digit d) = true.
Proof.
  intros H. unfold is_digit. rewrite digit_code by done.
  apply andb_true_iff. split; apply N.leb_le; lia.
Qed.

Lemma digit_plain d : d <= 9 -> plain (digit d) = true.
Proof. intros H. unfold plain. by rewrite digit_is_digit. Qed.

Lemma pad2_plain n : all_plain (pad2 n) = true.
Proof.
  unfold pad2. simpl.
  rewrite !digit_plain by (Z.div_mod_to_equations; lia). done.
Qed.

Lemma pad4_plain n : all_plain (pad4 n) = true.
Proof.
  unfold pad4. cbn [all_plain]. rewrite pad2_plain.
  rewrite !digit_plain by (Z.div_mod_to_equations; lia). done.
Qed.

Lemma bucket_string_plain h :
  all_plain (bucket_string h) = true /\ head_ok (bucket_string h) = true.
Proof.
  destruct h as [[[y m] d] hh]. unfold bucket_string. split.
  - rewrite !all_plain_app, pad4_plain, !pad2_plain. reflexivity.
  - unfold pad4. rewrite !string_app_cons. simpl.
    rewrite digit_is_digit by (Z.div_mod_to_equations; lia). done.
Qed.

Lemma digits_plain fuel u acc :
  all_plain acc = true -> all_plain (digits fuel u acc) = true.
Proof.
  revert u acc. induction fuel as [|fuel IH]; intros u acc Hacc; simpl; [done|].
  destruct (Z.ltb_spec u 10).
  - simpl. by rewrite digit_plain, Hacc by lia.
  - apply IH. simpl.
    by rewrite digit_plain, Hacc by (Z.div_mod_to_equations; lia).
Qed.

Lemma digits_head fuel u acc :
  head_ok acc = true -> head_ok (digits fuel u acc) = true.
Proof.
  revert u acc. induction fuel as [|fuel IH]; intros u acc Hacc; simpl; [done|].
  destruct (Z.ltb_spec u 10).
  - simpl. by rewrite digit_is_digit by lia.
  - apply IH. simpl. by rewrite digit_is_digit by (Z.div_mod_to_equations; lia).
Qed.

Lemma decimal_plain n :
  all_plain (decimal n) = true /\ head_ok (decimal n) = true.
Proof.
  unfold decimal. split; [by apply digits_plain|].
  cbn [digits]. destruct (Z.ltb_spec n 10).
  - simpl. by rewrite digit_is_digit by lia.
  - apply digits_head. simpl.
    by rewrite digit_is_digit by (Z.div_mod_to_equations; lia).
Qed.

(** The digit loop prints the number it is given: the fuel suffices. *)
Lemma digits_value fuel u acc :
  0 <= u < 2 ^ Z.of_nat fuel ->
  numeral_from 0 (digits fuel u acc) = numeral_from u acc.
Proof.
  revert u acc. induction fuel as [|fuel IH]; intros u acc Hu.
  - simpl in *. by replace u with 0 by lia.
  - cbn [digits]. rewrite Nat2Z.inj_succ, Z.pow_succ_r in Hu by lia.
    destruct (Z.ltb_spec u 10).
    + cbn [numeral_from]. rewrite digit_code, N2Z.inj_add, Z2N.id by lia.
      f_equal. lia.
    + rewrite IH by (Z.div_mod_to_equations; lia).
      cbn [numeral_from].
      rewrite digit_code, N2Z.inj_add, Z2N.id by (Z.div_mod_to_equations; lia).
      f_equal. Z.div_mod_to_equations; lia.
Qed.

Lemma decimal_value n : 0 <= n -> numeral_value (decimal n) = n.
Proof.
  intros Hn. unfold numeral_value, decimal. rewrite digits_value; [done|].
  rewrite Nat2Z.inj_succ, Z2Nat.id by apply Z.log2_nonneg.
  destruct (Z.eq_dec n 0) as [->|Hne]; [done|].
  pose proof (Z.log2_spec n ltac:(lia)). lia.
Qed.

Lemma zeros_plain k : all_plain (zeros k) = true.
Proof. induction k; simpl; done. Qed.

Lemma format_fixed_plain q :
  all_plain (Num.format_fixed 2 q) = true /\
  head_ok (Num.format_fixed 2 q) = true.
Proof.
  unfold Num.format_fixed.
  set (n := Num.round_half_even _).
  destruct (decimal_plain (n / Num.pow10 2)) as [Hp Hh].
  destruct (decimal_plain (n mod Num.pow10 2)) as [Hp' _].
  destruct (Qlt_le_dec q 0).
  - split; [|reflexivity].
    rewrite !all_plain_app, Hp, Hp', zeros_plain. reflexivity.
  - rewrite string_app_nil. split.
    + rewrite !all_plain_app, Hp, Hp', zeros_plain. reflexivity.
    + destruct (decimal (n / Num.pow10 2)); [done|]. by rewrite string_app_cons.
Qed.

End PlainFields.
Section CsvRows.
Import Mongo Sys Aggregation.
Variable tzdb : string -> option (Z -> Z).
Variable parse_date : string -> option Z.

Lemma avg_shape vs : avg vs = VNull \/ exists q, avg vs = VNum q.
Proof. rewrite avg_mean. destruct (nums_of vs); eauto. Qed.

(** The rows of a successful aggregation decode without error. *)
Lemma aggregate_rows_decode now coll rows :
  Aggregate tzdb parse_date (pipeline now) coll = Ok rows ->
  Forall (fun row => Decode row = inl (decode_row row) /\
                     exists h, ID (decode_row row) = bucket_string h) rows.
Proof.
  intros Hagg. apply Forall_forall. intros row Hin.
  pose proof (aggregate_row_keys _ _ _ _ _ Hagg) as Hk.
  rewrite Forall_forall in Hk. destruct (Hk row Hin) as (h & _ & Hid).
  destruct (aggregate_rows _ _ _ _ _ _ Hagg Hin) as (keyed & k & _ & _ & ->).
  split.
  - unfold Decode, decode_row, row_key. rewrite Hid.
    rewrite row_of_humidity, row_of_temperature. cbn [decode_string].
    destruct (avg_shape (column 0 (members k keyed))) as [->|[q ->]];
      destruct (avg_shape (column 1 (members k keyed))) as [->|[q' ->]];
      reflexivity.
  - exists h. unfold decode_row, row_key. cbn [ID]. by rewrite Hid.
Qed.

Lemma header_written : Csv.Write CsvExport.header = header_line.
Proof. reflexivity. Qed.

(** The record of a row keyed by a bucket string is written without
    quoting. *)
Lemma record_written r h :
  ID r = bucket_string h ->
  Csv.Write (CsvExport.record r) = row_line r.
Proof.
  intros Hid. unfold Csv.Write, CsvExport.record, row_line. cbn [Csv.join_fields].
  destruct (bucket_string_plain h) as [Hp Hh].
  destruct (format_fixed_plain (AvgTemperature r)) as [Hpt Hht].
  destruct (format_fixed_plain (AvgHumidity r)) as [Hph Hhh].
  rewrite !plain_field_unquoted by (rewrite ?Hid; done).
  by rewrite !string_app_assoc.
Qed.

Lemma writing_writing file c s c' s' w :
  writing file c' s' (writing file c s w) = writing file c' s' w.
Proof.
  unfold writing, with_fs, with_writer. simpl.
  by rewrite !insert_insert_eq.
Qed.

Lemma csv_Write_writing file c s record w :
  (csv_Write file record ≫= check (fun err => "Failed to write record to CSV file: " ++ err)%string)
    (writing file c s w)
  = (writing file (Csv.committed (s ++ Csv.Write record)) (s ++ Csv.Write record) w,
     Return ()).
Proof.
  unfold mbind, prog_bind, csv_Write. simpl.
  rewrite lookup_insert_eq. simpl.
  change (with_fs ?f (with_writer ?g (writing file c s w)))
    with (writing file (Csv.committed (s ++ Csv.Write record))
            (s ++ Csv.Write record) (writing file c s w)).
  by rewrite writing_writing.
Qed.

(** The loop over the cursor hands the line of every row to the writer. *)
Lemma write_rows file rows c s w :
  Forall (fun row => Decode row = inl (decode_row row) /\
                     exists h, ID (decode_row row) = bucket_string h) rows ->
  exists c',
    foldM
      (fun _ d =>
         result ← check id (Decode d);
         csv_Write file (CsvExport.record result)
         ≫= check (fun err => "Failed to write record to CSV file: " ++ err)%string)
      () rows (writing file c s w)
    = (writing file c'
         (s ++ Text.concat_all (row_line <$> (decode_row <$> rows))) w,
       Return ()).
Proof.
  intros HF. revert c s. induction HF as [|row rows [Hd [h Hid]] HF IH]; intros c s.
  - exists c. simpl. unfold mret, prog_ret. by rewrite string_app_nil_r.
  - cbn [foldM]. rewrite Hd.
    erewrite bind_return; [|exact (csv_Write_writing file c s _ w)].
    destruct (IH (Csv.committed (s ++ Csv.Write (CsvExport.record (decode_row row))))
                 (s ++ Csv.Write (CsvExport.record (decode_row row)))%string) as [c' ->].
    exists c'. rewrite (record_written _ _ Hid).
    cbn [fmap list_fmap Text.concat_all]. by rewrite string_app_assoc.
Qed.

End CsvRows.
Section CsvExportRun.
Import Env Mongo Sys Aggregation.
Variable tzdb : string -> option (Z -> Z).
Variable parse_date : string -> option Z.

Lemma aggregate_ok client p rows w :
  Aggregate tzdb parse_date p (collection client w) = Ok rows ->
  (coll_Aggregate tzdb parse_date client p ≫= check id) w
  = (add_call (CallAggregate client p) w, Return rows).
Proof.
  intros H. unfold mbind, prog_bind, coll_Aggregate. by rewrite H.
Qed.

Lemma create_ok name w :
  name ∉ w_nocreate w ->
  (os_Create name ≫= check (fun err => "Failed to create CSV file: " ++ err)%string) w
  = (writing name EmptyString EmptyString w, Return name).
Proof.
  intros H. unfold mbind, prog_bind, os_Create.
  by rewrite (bool_decide_eq_false_2 _ H).
Qed.

Lemma header_ok file c s w :
  (csv_Write file CsvExport.header
   ≫= check (fun err => "Failed to write header to CSV file: " ++ err)%string)
    (writing file c s w)
  = (writing file (Csv.committed (s ++ header_line)) (s ++ header_line) w,
     Return ()).
Proof. apply csv_Write_writing. Qed.

(** The world a successful run of the CSV export leaves. *)
Lemma csv_export_run p w env rows :
  let uri := Getenv env "MONGO_URI" in
  let file := CsvExport.csvFileName (now p) in
  load_config (w_dotenv w) (environ p) = Some env ->
  uri <> EmptyString ->
  is_Some (w_store w !! uri) ->
  Aggregate tzdb parse_date (pipeline (now p)) (collection uri w) = Ok rows ->
  file ∉ w_nocreate w ->
  exists c,
    run (CsvExport.main tzdb parse_date p) w =
    (add_call (CallDisconnect uri)
       (with_fs <[file := csv_content rows]>
          (add_stdout ("Data successfully written to " ++ file
                       ++ String Text.newline "")%string
             (writing file c (csv_content rows)
                (add_call (CallAggregate uri (pipeline (now p)))
                   (add_call (CallConnect uri) w))))),
     0).
Proof.
  intros uri file Hc Hu Hs Hagg Hf.
  pose proof (aggregate_rows_decode _ _ _ _ _ Hagg) as Hdec.
  unfold run, CsvExport.main.
  rewrite (config_loaded _ _ _ _ _ _ Hc).
  apply String.eqb_neq in Hu. fold uri. rewrite Hu.
  rewrite (bind_return _ _ _ _ _ (connect_ok _ w Hs)).
  rewrite (bind_return _ _ _ _ _
             (aggregate_ok uri _ rows (add_call _ w) Hagg)).
  fold file.
  rewrite (bind_return _ _ _ _ _ (create_ok file (add_call _ (add_call _ w)) Hf)).
  rewrite (bind_return _ _ _ _ _ (header_ok file _ _ _)).
  destruct (write_rows file rows
              (Csv.committed (EmptyString ++ header_line))
              (EmptyString ++ header_line)%string
              (add_call (CallAggregate uri (pipeline (now p)))
                 (add_call (CallConnect uri) w)) Hdec) as [c Hloop].
  rewrite (bind_return _ _ _ _ _ Hloop).
  exists c. unfold mbind, prog_bind, fmt_Print, csv_Flush, Disconnect.
  cbn [w_writer add_stdout writing with_fs with_writer].
  rewrite lookup_insert_eq. reflexivity.
Qed.

End CsvExportRun.
Section DateStrings.
Import Text Calendar.

Lemma digit_0 : digit 0 = "0"%char.
Proof. reflexivity. Qed.

Lemma fuel_at_least n k :
  2 ^ Z.of_nat k <= n ->
  exists f, Z.to_nat (Z.log2 n) = (k + f)%nat.
Proof.
  intros H.
  assert (0 < n) by (pose proof (Z.pow_pos_nonneg 2 (Z.of_nat k)); lia).
  assert (Z.of_nat k <= Z.log2 n) by (apply Z.log2_le_pow2; lia).
  exists (Z.to_nat (Z.log2 n) - k)%nat. lia.
Qed.

(** Two-digit fields. *)
Lemma appendInt_pad2 n : 0 <= n <= 99 -> appendInt n 2 = pad2 n.
Proof.
  intros H. unfold appendInt, pad2, decimal.
  rewrite Z.abs_eq by lia. destruct (Z.ltb_spec n 0); [lia|].
  rewrite string_app_nil.
  destruct (Z.ltb_spec n 10) as [Hs|Hl].
  - cbn [digits]. destruct (Z.ltb_spec n 10); [|lia].
    cbn. replace (n / 10 mod 10) with 0 by (Z.div_mod_to_equations; lia).
    replace (n mod 10) with n by (Z.div_mod_to_equations; lia). reflexivity.
  - destruct (fuel_at_least n 1 ltac:(simpl; lia)) as [f ->].
    cbn [digits Nat.add]. destruct (Z.ltb_spec n 10); [lia|].
    destruct (Z.ltb_spec (n / 10) 10); [|Z.div_mod_to_equations; lia].
    cbn. replace (n / 10 mod 10) with (n / 10) by (Z.div_mod_to_equations; lia).
    reflexivity.
Qed.

(** Four-digit years. *)
Lemma appendInt_pad4 n : 0 <= n <= 9999 -> appendInt n 4 = pad4 n.
Proof.
  intros H. unfold appendInt, pad4, pad2, decimal.
  rewrite Z.abs_eq by lia. destruct (Z.ltb_spec n 0); [lia|].
  rewrite string_app_nil.
  destruct (Z.ltb_spec n 10) as [H1|H1].
  { cbn [digits]. destruct (Z.ltb_spec n 10); [|lia]. cbn.
    replace (n / 1000 mod 10) with 0 by (Z.div_mod_to_equations; lia).
    replace (n / 100 mod 10) with 0 by (Z.div_mod_to_equations; lia).
    replace (n / 10 mod 10) with 0 by (Z.div_mod_to_equations; lia).
    replace (n mod 10) with n by (Z.div_mod_to_equations; lia). reflexivity. }
  destruct (Z.ltb_spec n 100) as [H2|H2].
  { destruct (fuel_at_least n 1 ltac:(simpl; lia)) as [f ->].
    cbn [digits Nat.add]. destruct (Z.ltb_spec n 10); [lia|].
    destruct (Z.ltb_spec (n / 10) 10); [|Z.div_mod_to_equations; lia]. cbn.
    replace (n / 1000 mod 10) with 0 by (Z.div_mod_to_equations; lia).
    replace (n / 100 mod 10) with 0 by (Z.div_mod_to_equations; lia).
    replace (n / 10 mod 10) with (n / 10) by (Z.div_mod_to_equations; lia).
    reflexivity. }
  destruct (Z.ltb_spec n 1000) as [H3|H3].
  { destruct (fuel_at_least n 2 ltac:(simpl; lia)) as [f ->].
    cbn [digits Nat.add]. destruct (Z.ltb_spec n 10); [lia|].
    destruct (Z.ltb_spec (n / 10) 10); [Z.div_mod_to_equations; lia|].
    destruct (Z.ltb_spec (n / 10 / 10) 10); [|Z.div_mod_to_equations; lia]. cbn.
    replace (n / 1000 mod 10) with 0 by (Z.div_mod_to_equations; lia).
    replace (n / 100 mod 10) with (n / 10 / 10) by (Z.div_mod_to_equations; lia).
    reflexivity. }
  destruct (fuel_at_least n 3 ltac:(simpl; lia)) as [f ->].
  cbn [digits Nat.add]. destruct (Z.ltb_spec n 10); [lia|].
  destruct (Z.ltb_spec (n / 10) 10); [Z.div_mod_to_equations; lia|].
  destruct (Z.ltb_spec (n / 10 / 10) 10); [Z.div_mod_to_equations; lia|].
  destruct (Z.ltb_spec (n / 10 / 10 / 10) 10); [|Z.div_mod_to_equations; lia]. cbn.
  replace (n / 1000 mod 10) with (n / 10 / 10 / 10) by (Z.div_mod_to_equations; lia).
  replace (n / 100 mod 10) with (n / 10 / 10 mod 10) by (Z.div_mod_to_equations; lia).
  reflexivity.
Qed.

(** With a four-digit year, the date Go prints for the layout
    [2006-01-02] is [YYYY-MM-DD]. *)
Lemma date_string_padded now :
  0 <= GoTime.Year now <= 9999 ->
  date_string (GoTime.Year now) (GoTime.Month now) (GoTime.Day now)
  = (pad4 (GoTime.Year now) ++ "-" ++ pad2 (GoTime.Month now) ++ "-"
     ++ pad2 (GoTime.Day now))%string.
Proof.
  intros Hy. unfold date_string.
  assert (Hmd : 1 <= GoTime.Month now <= 12 /\ 1 <= GoTime.Day now <= 31).
  { unfold GoTime.Month, GoTime.Day, GoTime.wall, civil_of_seconds.
    pose proof (civil_from_days_bounds
                  ((GoTime.unix now
                    + GoTime.offset_at (GoTime.loc now) (GoTime.unix now)) / 86400)) as B.
    destruct (civil_from_days _) as [[y m] d]. exact B. }
  by rewrite appendInt_pad4, !appendInt_pad2 by lia.
Qed.

End DateStrings.

Section CsvExportProperties.
Import Env Mongo Sys Aggregation.
Variable tzdb : string -> option (Z -> Z).
Variable parse_date : string -> option Z.

Lemma csvFileName_date now :
  CsvExport.csvFileName now =
  ("measurements_"
   ++ date_string (GoTime.Year now) (GoTime.Month now) (GoTime.Day now)
   ++ ".csv")%string.
Proof.
  unfold CsvExport.csvFileName, GoTime.Format, date_string,
    GoTime.Year, GoTime.Month, GoTime.Day.
  cbn [GoTime.format_civil].
  repeat first [ rewrite string_app_assoc | rewrite string_app_cons
               | rewrite string_app_nil | rewrite string_app_nil_r ].
  reflexivity.
Qed.

Lemma csvFileName_padded now :
  0 <= GoTime.Year now <= 9999 ->
  CsvExport.csvFileName now
  = ("measurements_" ++ Text.pad4 (GoTime.Year now) ++ "-"
     ++ Text.pad2 (GoTime.Month now) ++ "-"
     ++ Text.pad2 (GoTime.Day now) ++ ".csv")%string.
Proof.
  intros Hy. rewrite csvFileName_date, (date_string_padded _ Hy).
  repeat first [ rewrite string_app_assoc | rewrite string_app_cons
               | rewrite string_app_nil ].
  reflexivity.
Qed.

Lemma csv_export_exported p w env rows :
  let uri := Getenv env "MONGO_URI" in
  let file := CsvExport.csvFileName (now p) in
  load_config (w_dotenv w) (environ p) = Some env ->
  uri <> EmptyString ->
  is_Some (w_store w !! uri) ->
  Aggregate tzdb parse_date (pipeline (now p)) (collection uri w) = Ok rows ->
  file ∉ w_nocreate w ->
  exported w file (csv_content rows) (run (CsvExport.main tzdb parse_date p) w).
Proof.
  intros uri file Hc Hu Hs Hagg Hf.
  destruct (csv_export_run tzdb parse_date p w env rows Hc Hu Hs Hagg Hf)
    as [c ->].
  unfold exported. cbn [fst snd]. split; [done|].
  split; [apply lookup_insert_eq|]. split; [|done].
  intros other Hne. cbn. by rewrite !lookup_insert_ne.
Qed.

End CsvExportProperties.

(** C5: a successful run of the CSV export creates the file
    [measurements_<YYYY-MM-DD>.csv] named after the run date (the date of
    [now] in its own zone) and leaves in it the header line
    [measurement_date_time,temperature_F,humidity_percent] followed by one
    line per row of the aggregation, in order: the bucket string, the
    average temperature and the average humidity, each average printed
    with 2 decimals. Every row decodes without error and is keyed by a
    bucket string, so no field is quoted. *)
Theorem csv_export_writes_rows
    (tzdb : string -> option (Z -> Z)) (parse_date : string -> option Z)
    (p : Sys.Process) (w : Sys.World) (env : gmap string string)
    (rows : list doc) :
  let uri := Env.Getenv env "MONGO_URI" in
  let now := Sys.now p in
  let file := CsvExport.csvFileName now in
  load_config (Sys.w_dotenv w) (Sys.environ p) = Some env ->
  uri <> EmptyString ->
  is_Some (Sys.w_store w !! uri) ->
  Mongo.Aggregate tzdb parse_date (Aggregation.pipeline now) (Sys.collection uri w)
    = Mongo.Ok rows ->
  file ∉ Sys.w_nocreate w ->
  file = ("measurements_"
          ++ date_string (GoTime.Year now) (GoTime.Month now) (GoTime.Day now)
          ++ ".csv")%string /\
  (0 <= GoTime.Year now <= 9999 ->
   file = ("measurements_" ++ Text.pad4 (GoTime.Year now) ++ "-"
           ++ Text.pad2 (GoTime.Month now) ++ "-"
           ++ Text.pad2 (GoTime.Day now) ++ ".csv")%string) /\
  exported w file
    (header_line ++ Text.concat_all (row_line <$> (decode_row <$> rows)))
    (Sys.run (CsvExport.main tzdb parse_date p) w) /\
  Forall (fun row => Aggregation.Decode row = inl (decode_row row) /\
                     exists h, valid_hour h /\
                       Aggregation.ID (decode_row row) = bucket_string h) rows.
Proof.
  intros uri now file Hc Hu Hs Hagg Hf.
  split; [apply csvFileName_date|].
  split; [by apply csvFileName_padded|].
  split; [by eapply csv_export_exported|].
  pose proof (aggregate_rows_decode _ _ _ _ _ Hagg) as Hd.
  pose proof (aggregate_row_keys _ _ _ _ _ Hagg) as Hk.
  rewrite Forall_forall in Hd, Hk. apply Forall_forall. intros row Hin.
  destruct (Hd row Hin) as [Hdec _]. destruct (Hk row Hin) as (h & Hv & Hid).
  split; [done|]. exists h. split; [done|].
  unfold decode_row, row_key. cbn [Aggregation.ID]. by rewrite Hid.
Qed.

(** C10: when the aggregation of the day yields no row, the CSV export
    still creates [measurements_<run date>.csv], writes the header line to
    it and nothing else, prints the success message and returns with
    status 0, without logging an error. *)
Theorem csv_export_empty_result
    (tzdb : string -> option (Z -> Z)) (parse_date : string -> option Z)
    (p : Sys.Process) (w : Sys.World) (env : gmap string string) :
  let uri := Env.Getenv env "MONGO_URI" in
  let now := Sys.now p in
  let file := CsvExport.csvFileName now in
  load_config (Sys.w_dotenv w) (Sys.environ p) = Some env ->
  uri <> EmptyString ->
  is_Some (Sys.w_store w !! uri) ->
  Mongo.Aggregate tzdb parse_date (Aggregation.pipeline now) (Sys.collection uri w)
    = Mongo.Ok [] ->
  file ∉ Sys.w_nocreate w ->
  file = ("measurements_"
          ++ date_string (GoTime.Year now) (GoTime.Month now) (GoTime.Day now)
          ++ ".csv")%string /\
  (0 <= GoTime.Year now <= 9999 ->
   file = ("measurements_" ++ Text.pad4 (GoTime.Year now) ++ "-"
           ++ Text.pad2 (GoTime.Month now) ++ "-"
           ++ Text.pad2 (GoTime.Day now) ++ ".csv")%string) /\
  exported w file header_line (Sys.run (CsvExport.main tzdb parse_date p) w).
Proof.
  intros uri now file Hc Hu Hs Hagg Hf.
  split; [apply csvFileName_date|].
  split; [by apply csvFileName_padded|].
  pose proof (csv_export_exported tzdb parse_date p w env [] Hc Hu Hs Hagg Hf) as H.
  unfold csv_content in H. cbn [fmap list_fmap Text.concat_all] in H.
  by rewrite string_app_nil_r in H.
Qed.

Lemma csv_export_writes_rows_witness :
  exported Sample.world "measurements_2020-05-02.csv"
    ("measurement_date_time,temperature_F,humidity_percent" ++ String Text.newline
       ("2020-05-01 00:00:00,10.00,40.00" ++ String Text.newline
          ("2020-05-01 01:00:00,10.00,42.00" ++ String Text.newline "")))%string
    (Sys.run (CsvExport.main TzData.tzdb TzData.parse_date Sample.process)
       Sample.world).
Proof.
  assert (Hc : load_config (Sys.w_dotenv Sample.world) (Sys.environ Sample.process)
               = Some {[ "MONGO_URI" := "mongodb://a";
                         "SOURCE_MONGO_URI" := "mongodb://a";
                         "DEST_MONGO_URI" := "mongodb://b" ]}%string)
    by by_computation.
  assert (Hagg : Mongo.Aggregate TzData.tzdb TzData.parse_date
                   (Aggregation.pipeline (Sys.now Sample.process))
                   (Sys.collection
                      (Env.Getenv {[ "MONGO_URI" := "mongodb://a";
                                     "SOURCE_MONGO_URI" := "mongodb://a";
                                     "DEST_MONGO_URI" := "mongodb://b" ]}
                         "MONGO_URI") Sample.world)
                 = Mongo.Ok [Sample.row_00; Sample.row_01]) by by_computation.
  assert (Hu : Env.Getenv ({[ "MONGO_URI" := "mongodb://a";
                              "SOURCE_MONGO_URI" := "mongodb://a";
                              "DEST_MONGO_URI" := "mongodb://b" ]}
                             : gmap string string) "MONGO_URI" <> EmptyString)
    by by_computation_neq.
  assert (Hs : is_Some (Sys.w_store Sample.world !!
                 Env.Getenv ({[ "MONGO_URI" := "mongodb://a";
                                "SOURCE_MONGO_URI" := "mongodb://a";
                                "DEST_MONGO_URI" := "mongodb://b" ]}
                               : gmap string string) "MONGO_URI")).
  { exists [Sample.r3; Sample.r1; Sample.r2]. by_computation. }
  assert (Hf : CsvExport.csvFileName (Sys.now Sample.process)
               ∉ Sys.w_nocreate Sample.world) by apply not_elem_of_empty.
  pose proof (csv_export_writes_rows TzData.tzdb TzData.parse_date
                Sample.process Sample.world _ _ Hc Hu Hs Hagg Hf) as (_ & _ & H & _).
  vm_cast_no_check H.
Defined.

Lemma csv_export_empty_result_witness :
  exported Sample.world "measurements_2020-05-03.csv"
    ("measurement_date_time,temperature_F,humidity_percent"
     ++ String Text.newline "")%string
    (Sys.run (CsvExport.main TzData.tzdb TzData.parse_date Sample.process_next_day)
       Sample.world).
Proof.
  assert (Hc : load_config (Sys.w_dotenv Sample.world)
                 (Sys.environ Sample.process_next_day)
               = Some {[ "MONGO_URI" := "mongodb://a";
                         "SOURCE_MONGO_URI" := "mongodb://a";
                         "DEST_MONGO_URI" := "mongodb://b" ]}%string)
    by by_computation.
  assert (Hagg : Mongo.Aggregate TzData.tzdb TzData.parse_date
                   (Aggregation.pipeline (Sys.now Sample.process_next_day))
                   (Sys.collection
                      (Env.Getenv {[ "MONGO_URI" := "mongodb://a";
                                     "SOURCE_MONGO_URI" := "mongodb://a";
                                     "DEST_MONGO_URI" := "mongodb://b" ]}
                         "MONGO_URI") Sample.world)
                 = Mongo.Ok []) by by_computation.
  assert (Hu : Env.Getenv ({[ "MONGO_URI" := "mongodb://a";
                              "SOURCE_MONGO_URI" := "mongodb://a";
                              "DEST_MONGO_URI" := "mongodb://b" ]}
                             : gmap string string) "MONGO_URI" <> EmptyString)
    by by_computation_neq.
  assert (Hs : is_Some (Sys.w_store Sample.world !!
                 Env.Getenv ({[ "MONGO_URI" := "mongodb://a";
                                "SOURCE_MONGO_URI" := "mongodb://a";
                                "DEST_MONGO_URI" := "mongodb://b" ]}
                               : gmap string string) "MONGO_URI")).
  { exists [Sample.r3; Sample.r1; Sample.r2]. by_computation. }
  assert (Hf : CsvExport.csvFileName (Sys.now Sample.process_next_day)
               ∉ Sys.w_nocreate Sample.world) by apply not_elem_of_empty.
  pose proof (csv_export_empty_result TzData.tzdb TzData.parse_date
                Sample.process_next_day Sample.world _ Hc Hu Hs Hagg Hf)
    as (_ & _ & H).
  vm_cast_no_check H.
Defined.
Section StringOrder.

Lemma string_le_cons x a y b :
  string_le (String x a) (String y b) <->
  (N_of_ascii x < N_of_ascii y)%N \/ (x = y /\ string_le a b).
Proof.
  unfold string_le, String.leb. cbn [String.compare]. unfold Ascii.compare.
  destruct (N.compare_spec (N_of_ascii x) (N_of_ascii y)) as [E|E|E].
  - assert (x = y) as ->.
    { rewrite <- (ascii_N_embedding x), <- (ascii_N_embedding y). by rewrite E. }
    split; [by right|]. intros [H|[_ H]]; [lia|done].
  - split; [by left|done].
  - split; [done|]. intros [H|[-> _]]; lia.
Qed.

Lemma string_le_trans : Transitive string_le.
Proof.
  intros a. induction a as [|x a IH]; intros b c Hab Hbc.
  - unfold string_le, String.leb. by destruct c.
  - destruct b as [|y b]; [done|]. destruct c as [|z c]; [done|].
    apply string_le_cons in Hab, Hbc. apply string_le_cons.
    destruct Hab as [Hab|[-> Hab]], Hbc as [Hbc|[-> Hbc]].
    + left. lia.
    + by left.
    + by left.
    + right. split; [done|]. by eapply IH.
Qed.

Lemma string_le_antisym : AntiSymm eq string_le.
Proof. intros a b. apply String.leb_antisym. Qed.

End StringOrder.
Section Permutations.
Import Mongo.

Lemma filter_Permutation_bool {A} (f : A -> bool) l l' :
  l ≡ₚ l' -> List.filter f l ≡ₚ List.filter f l'.
Proof.
  induction 1 as [|x l l' _ IH|x y l|l l' l'' _ IH1 _ IH2]; simpl.
  - done.
  - destruct (f x); by rewrite IH.
  - destruct (f x), (f y); try done. apply perm_swap.
  - by etrans.
Qed.

Lemma nums_of_Permutation vs vs' : vs ≡ₚ vs' -> nums_of vs ≡ₚ nums_of vs'.
Proof.
  induction 1 as [|x l l' _ IH|x y l|l l' l'' _ IH1 _ IH2].
  - done.
  - rewrite (nums_of_cons x l), (nums_of_cons x l'). by rewrite IH.
  - rewrite (nums_of_cons y), (nums_of_cons x), (nums_of_cons x (y :: l)),
      (nums_of_cons y l).
    destruct x, y; simpl; try done. apply perm_swap.
  - by etrans.
Qed.

Lemma sum_Permutation l l' : l ≡ₚ l' -> (Num.sum l == Num.sum l')%Q.
Proof.
  induction 1 as [|x l l' _ IH|x y l|l l' l'' _ IH1 _ IH2]; simpl.
  - reflexivity.
  - by rewrite IH.
  - ring.
  - by rewrite IH1.
Qed.

(** [$avg] does not depend on the order of its input. *)
Lemma avg_Permutation vs vs' : vs ≡ₚ vs' -> avg vs = avg vs'.
Proof.
  intros H%nums_of_Permutation. rewrite !avg_mean.
  destruct (nums_of vs) as [|q qs] eqn:E, (nums_of vs') as [|q' qs'] eqn:E'.
  - done.
  - by apply Permutation_nil_cons in H.
  - symmetry in H. by apply Permutation_nil_cons in H.
  - f_equal. apply Qred_complete. unfold Num.mean.
    rewrite (sum_Permutation _ _ H), (Permutation_length H). reflexivity.
Qed.

Lemma row_of_Permutation keyed keyed' k :
  keyed ≡ₚ keyed' -> row_of keyed k = row_of keyed' k.
Proof.
  intros H. unfold row_of.
  assert (Hm : members k keyed ≡ₚ members k keyed').
  { unfold members. apply fmap_Permutation. by apply filter_Permutation_bool. }
  rewrite (avg_Permutation (column 1 (members k keyed)) (column 1 (members k keyed'))),
    (avg_Permutation (column 0 (members k keyed)) (column 0 (members k keyed')));
    [done| |]; unfold column; by apply fmap_Permutation.
Qed.

(** A pointwise relation is carried along a permutation of its left
    list. *)
Lemma Forall2_Permutation_l {A B} (R : A -> B -> Prop) l l' k :
  l ≡ₚ l' -> Forall2 R l k -> exists k', Forall2 R l' k' /\ k ≡ₚ k'.
Proof.
  intros H. revert k.
  induction H as [|x l l' _ IH|x y l|l l' l'' _ IH1 _ IH2]; intros k HF.
  - inversion HF; subst. exists []. by split.
  - inversion HF as [|? b ? k0 Hb HF']; subst.
    destruct (IH _ HF') as (k' & ? & ?).
    exists (b :: k'). split; [by constructor|by constructor].
  - inversion HF as [|? b ? k0 Hb HF']; subst.
    inversion HF' as [|? c ? k1 Hc HF'']; subst.
    exists (c :: b :: k1). split; [by repeat constructor|apply perm_swap].
  - destruct (IH1 _ HF) as (k' & HF' & ?).
    destruct (IH2 _ HF') as (k'' & ? & ?).
    exists k''. split; [done|by etrans].
Qed.

Lemma distinct_NoDup ks : NoDup (distinct ks).
Proof.
  induction ks as [|k ks IH]; simpl; constructor.
  - rewrite list_elem_of_In, filter_In. intros [_ H].
    by rewrite eqb_refl in H.
  - apply NoDup_ListNoDup, List.NoDup_filter, NoDup_ListNoDup, IH.
Qed.

End Permutations.
Section PipelineTotal.
Import Mongo.
Variable tzdb : string -> option (Z -> Z).
Variable parse_date : string -> option Z.

Lemma add_localHour_intro d k :
  hour_bucket tzdb parse_date d = Ok k ->
  add_fields tzdb parse_date
    [("localHour"%string,
      EDateToString "%Y-%m-%d %H:00:00" (EToDate (EString "$updatedAt"))
        "America/Chicago")] d = Ok (<["localHour"%string := k]> d).
Proof.
  unfold add_fields, hour_bucket. cbn [mapM].
  unfold mbind, result_bind, mret, result_ret.
  by intros ->.
Qed.

Lemma group_input_intro d kv :
  reading tzdb parse_date d = Ok kv ->
  group_input tzdb parse_date (EString "$localHour")
    [ ("avgHumidity"%string, Avg (ERound (EString "$humidity") 2));
      ("avgTemperature"%string, Avg (ERound (EString "$temperature") 2)) ]
    (<["localHour"%string := fst kv]> d) = Ok kv.
Proof.
  intros (key & h & t & -> & Hk & Hh & Ht)%reading_Ok.
  unfold group_input. cbn [mapM acc_input eval fst]. unfold Bson.get in *.
  rewrite lookup_insert_eq, !lookup_insert_ne by done.
  unfold mbind, result_bind, mret, result_ret. cbn [default].
  by rewrite Hh, Ht.
Qed.

(** When every record in range can be read, the aggregation succeeds. *)
Lemma aggregate_complete now coll keyed :
  Forall2 (fun d kv => reading tzdb parse_date d = Ok kv)
    (Find (range_filter (Aggregation.yesterdayStart now)
                        (Aggregation.yesterdayEnd now)) coll) keyed ->
  Aggregate tzdb parse_date (Aggregation.pipeline now) coll
  = Ok (sort [("_id"%string, 1)] (row_of keyed <$> distinct (fst <$> keyed))).
Proof.
  intros HF. unfold Aggregation.pipeline. cbn [Aggregate run_stage].
  change (List.filter (matches _) coll) with
    (Find (range_filter (Aggregation.yesterdayStart now)
                        (Aggregation.yesterdayEnd now)) coll).
  set (docs := Find _ coll) in *. clearbody docs.
  assert (H2 : exists docs2,
    mapM (add_fields tzdb parse_date
            [("localHour"%string,
              EDateToString "%Y-%m-%d %H:00:00" (EToDate (EString "$updatedAt"))
                "America/Chicago")]) docs = Ok docs2 /\
    mapM (group_input tzdb parse_date (EString "$localHour")
            [ ("avgHumidity"%string, Avg (ERound (EString "$humidity") 2));
              ("avgTemperature"%string, Avg (ERound (EString "$temperature") 2)) ])
         docs2 = Ok keyed).
  { induction HF as [|d kv docs keyed Hr HF IH].
    - exists []. by split.
    - destruct IH as (docs2 & E2 & E3).
      exists (<["localHour"%string := fst kv]> d :: docs2). split.
      + destruct (reading_Ok _ _ _ _ Hr) as (key & h & t & -> & Hk & _ & _).
        cbn [mapM]. rewrite (add_localHour_intro _ _ Hk), E2. done.
      + cbn [mapM]. rewrite (group_input_intro _ _ Hr), E3. done. }
  destruct H2 as (docs2 & E2 & E3).
  unfold mbind at 1 2 3 4, result_bind at 1 2 3 4. rewrite E2.
  unfold group. unfold mbind at 1, result_bind at 1. rewrite E3.
  reflexivity.
Qed.

End PipelineTotal.
Section InputOrder.
Import Mongo.
Variable tzdb : string -> option (Z -> Z).
Variable parse_date : string -> option Z.

Lemma readings_keys now coll keyed :
  Forall2 (fun d kv => reading tzdb parse_date d = Ok kv)
    (Find (range_filter (Aggregation.yesterdayStart now)
                        (Aggregation.yesterdayEnd now)) coll) keyed ->
  Forall (fun k => exists s, k = VStr s) (fst <$> keyed).
Proof.
  intros HF. apply Forall_forall. intros k (kv & -> & Hkv)%list_elem_of_fmap.
  destruct (proj1 (list_elem_of_lookup _ _) Hkv) as [i Hi].
  destruct (Forall2_lookup_r _ _ _ _ _ HF Hi) as (d & Hd & Hr).
  assert (Hm : matches (range_filter (Aggregation.yesterdayStart now)
                          (Aggregation.yesterdayEnd now)) d = true).
  { apply list_elem_of_lookup_2 in Hd. unfold Find in Hd.
    by apply list_elem_of_In, filter_In in Hd as [_ ?]. }
  destruct (reading_in_range _ _ _ _ _ Hm Hr) as (offset & t & _ & _ & _ & Hk).
  eauto.
Qed.

Lemma distinct_Permutation ks ks' :
  Forall (fun k => exists s, k = VStr s) ks ->
  ks ≡ₚ ks' -> distinct ks ≡ₚ distinct ks'.
Proof.
  intros Hs Hp.
  assert (Hone : forall l l', Forall (fun k => exists s, k = VStr s) l ->
                   l ≡ₚ l' -> forall x, x ∈ distinct l -> x ∈ distinct l').
  { intros l l' Hl Hll x Hx.
    pose proof (distinct_sub _ _ Hx) as Hin.
    rewrite Forall_forall in Hl. destruct (Hl x Hin) as [s ->].
    rewrite Hll in Hin.
    destruct (distinct_complete _ _ Hin) as (x' & Hx' & He).
    rewrite eqb_sym in He. apply eqb_str in He. by subst. }
  apply NoDup_Permutation; try apply distinct_NoDup.
  intros x. split; intros Hx.
  - by apply (Hone ks ks').
  - apply (Hone ks' ks); [by rewrite <- Hp|done|done].
Qed.

(** The result of the aggregation does not depend on the order in which
    the collection presents its records. *)
Lemma aggregate_Permutation now coll coll' rows :
  coll ≡ₚ coll' ->
  Aggregate tzdb parse_date (Aggregation.pipeline now) coll = Ok rows ->
  Aggregate tzdb parse_date (Aggregation.pipeline now) coll' = Ok rows.
Proof.
  intros Hp Hagg.
  pose proof (aggregate_sorted _ _ _ _ _ Hagg) as Hsorted.
  destruct (aggregate_inv _ _ _ _ _ Hagg) as (keyed & HF & Hrows).
  destruct (Forall2_Permutation_l _ _ _ _
              (filter_Permutation_bool _ _ _ Hp) HF) as (keyed' & HF' & Hk).
  pose proof (aggregate_complete _ _ _ _ _ HF') as Hagg'.
  rewrite Hagg'. f_equal.
  pose proof (aggregate_sorted _ _ _ _ _ Hagg') as Hsorted'.
  pose proof (readings_keys _ _ _ HF) as Hs.
  pose proof (readings_keys _ _ _ HF') as Hs'.
  set (L := row_of keyed <$> distinct (fst <$> keyed)) in *.
  set (L' := row_of keyed' <$> distinct (fst <$> keyed')) in *.
  assert (HLL : L ≡ₚ L').
  { unfold L, L'.
    rewrite (list_fmap_ext (row_of keyed') (row_of keyed) (distinct (fst <$> keyed')))
      by (intros; symmetry; by apply row_of_Permutation).
    apply fmap_Permutation, distinct_Permutation; [done|].
    by apply fmap_Permutation. }
  assert (Hkeys : row_key <$> sort [("_id"%string, 1)] L'
                  = row_key <$> rows).
  { apply (@Sorted_unique _ string_le string_le_trans string_le_antisym);
      [done|done|].
    rewrite Hrows. apply fmap_Permutation. unfold sort.
      by rewrite !merge_sort_Permutation. }
  assert (Hshape : forall keyed0 ks,
            Forall (fun k => exists s, k = VStr s) ks ->
            sort [("_id"%string, 1)] (row_of keyed0 <$> ks)
            = (fun s => row_of keyed0 (VStr s)) <$>
              (row_key <$> sort [("_id"%string, 1)] (row_of keyed0 <$> ks))).
  { intros keyed0 ks Hks.
    assert (Hall : Forall (fun row => row = row_of keyed0 (VStr (row_key row)))
                     (sort [("_id"%string, 1)] (row_of keyed0 <$> ks))).
    { apply Forall_forall. intros row Hin.
      apply elem_of_sort, list_elem_of_fmap in Hin as (k & -> & Hin).
      rewrite Forall_forall in Hks. destruct (Hks k Hin) as [s ->].
      unfold row_key. by rewrite row_of_id. }
    induction Hall as [|row l Hrow _ IH]; [done|].
    cbn [fmap list_fmap]. by rewrite <- Hrow, <- IH. }
  subst L L'.
  rewrite (Hshape keyed' (distinct (fst <$> keyed'))).
  2: { apply Forall_forall. intros k Hin%distinct_sub.
       rewrite Forall_forall in Hs'. by apply Hs'. }
  rewrite Hkeys, Hrows.
  rewrite (Hshape keyed (distinct (fst <$> keyed))) at 2.
  2: { apply Forall_forall. intros k Hin%distinct_sub.
       rewrite Forall_forall in Hs. by apply Hs. }
  apply list_fmap_ext. intros i s _.
  symmetry. by apply row_of_Permutation.
Qed.

End InputOrder.
Section CalendarOrder.
Import Calendar.

Lemma year_of_doe_spec doe :
  0 <= doe < 146097 ->
  let yoe := year_of_doe doe in
  0 <= yoe <= 399 /\ days_before_year yoe <= doe < days_before_year (yoe + 1).
Proof.
  intros H yoe. subst yoe. unfold year_of_doe, days_before_year.
  Z.div_mod_to_equations; lia.
Qed.

Lemma dby_era yoe era : 0 <= yoe <= 399 -> days_before_year (yoe + era * 400) = days_before_year yoe + era * 146097.
Proof. intros H. unfold days_before_year. Z.div_mod_to_equations; lia. Qed.

Lemma dby_step Y : 365 <= days_before_year (Y + 1) - days_before_year Y <= 366.
Proof. unfold days_before_year. Z.div_mod_to_equations; lia. Qed.

Lemma dby_grows Y k : 0 <= k -> days_before_year Y + 365 * k <= days_before_year (Y + k).
Proof.
  intros Hk. pattern k. apply natlike_ind; [| |exact Hk].
  - replace (Y + 0) with Y by lia. lia.
  - intros x Hx IH. pose proof (dby_step (Y + x)).
    replace (Y + Z.succ x) with (Y + x + 1) by lia. lia.
Qed.

Lemma dby_mono Y1 Y2 : Y1 <= Y2 -> days_before_year Y1 + 365 * (Y2 - Y1) <= days_before_year Y2.
Proof.
  intros H. pose proof (dby_grows Y1 (Y2 - Y1) ltac:(lia)) as Hg.
  replace (Y1 + (Y2 - Y1)) with Y2 in Hg by lia. exact Hg.
Qed.

Lemma month_day_mono doy1 doy2 :
  0 <= doy1 < doy2 -> doy2 <= 365 ->
  let '(mp1, d1) := month_day doy1 in
  let '(mp2, d2) := month_day doy2 in
  0 <= mp1 <= 11 /\ 0 <= mp2 <= 11 /\ 1 <= d1 <= 31 /\ 1 <= d2 <= 31 /\
  (mp1 < mp2 \/ (mp1 = mp2 /\ d1 < d2)).
Proof.
  intros H1 H2. unfold month_day.
  Z.div_mod_to_equations; lia.
Qed.

Lemma civil_from_days_spec z :
  exists Y doy,
    z + 719468 = days_before_year Y + doy /\
    0 <= doy < days_before_year (Y + 1) - days_before_year Y /\
    civil_from_days z = of_march Y doy.
Proof.
  unfold civil_from_days, civil_of_doe.
  set (doe := (z + 719468) mod 146097).
  set (era := (z + 719468) / 146097).
  assert (Hdoe : 0 <= doe < 146097) by (apply Z.mod_pos_bound; lia).
  assert (Hz : z + 719468 = era * 146097 + doe).
  { subst doe era. pose proof (Z.div_mod (z + 719468) 146097). lia. }
  fold (year_of_doe doe).
  destruct (year_of_doe_spec doe Hdoe) as [Hy Hg].
  set (yoe := year_of_doe doe) in *. clearbody yoe doe era.
  exists (yoe + era * 400), (doe - days_before_year yoe).
  assert (HG : days_before_year yoe = 365 * yoe + yoe / 4 - yoe / 100).
  { unfold days_before_year. replace (yoe / 400) with 0; [lia|].
    symmetry. apply Z.div_small. lia. }
  split; [rewrite dby_era by assumption; lia|].
  split.
  { replace (yoe + era * 400 + 1) with (yoe + 1 + era * 400) by lia.
    destruct (Z.eq_dec yoe 399) as [->|Hne].
    - rewrite (dby_era 399) by lia.
      replace (399 + 1 + era * 400) with (0 + (era + 1) * 400) by lia.
      rewrite (dby_era 0) by lia.
      change (days_before_year 0) with 0.
      change (days_before_year (399 + 1)) with 146097 in Hg.
      change (days_before_year 399) with 145731 in *. lia.
    - rewrite !dby_era by lia. lia. }
  unfold of_march, month_day. rewrite <- HG.
  set (mp := (5 * (doe - days_before_year yoe) + 2) / 153).
  destruct (mp <? 10); [destruct (mp + 3 <=? 2)|destruct (mp - 9 <=? 2)];
    f_equal; f_equal; lia.
Qed.

Lemma month_day_bounds doy :
  0 <= doy <= 365 ->
  let '(mp, d) := month_day doy in 0 <= mp <= 11 /\ 1 <= d <= 31.
Proof. intros H. unfold month_day. Z.div_mod_to_equations. lia. Qed.

Lemma of_march_code Y doy :
  0 <= doy <= 365 ->
  let '(mp, d) := month_day doy in
  date_code (of_march Y doy) = (Y * 12 + mp + 2) * 31 + (d - 1) /\
  0 <= mp <= 11 /\ 1 <= d <= 31.
Proof.
  intros H. unfold of_march.
  pose proof (month_day_bounds doy H) as Hm.
  destruct (month_day doy) as [mp d].
  unfold date_code.
  destruct (Z.ltb_spec mp 10);
    [destruct (Z.leb_spec (mp + 3) 2)|destruct (Z.leb_spec (mp - 9) 2)]; lia.
Qed.

(** Later days have later dates. *)
Lemma civil_from_days_mono z1 z2 :
  z1 < z2 -> date_code (civil_from_days z1) < date_code (civil_from_days z2).
Proof.
  intros Hlt.
  destruct (civil_from_days_spec z1) as (Y1 & doy1 & Hz1 & Hd1 & ->).
  destruct (civil_from_days_spec z2) as (Y2 & doy2 & Hz2 & Hd2 & ->).
  pose proof (dby_step Y1) as Hs1. pose proof (dby_step Y2) as Hs2.
  pose proof (of_march_code Y1 doy1 ltac:(lia)) as Hc1.
  pose proof (of_march_code Y2 doy2 ltac:(lia)) as Hc2.
  destruct (Z.lt_trichotomy Y1 Y2) as [H|[H|H]].
  - destruct (month_day doy1) as [mp1 d1], (month_day doy2) as [mp2 d2]. lia.
  - subst Y2. pose proof (month_day_mono doy1 doy2 ltac:(lia) ltac:(lia)) as Hm.
    destruct (month_day doy1) as [mp1 d1], (month_day doy2) as [mp2 d2]. lia.
  - pose proof (dby_mono (Y2 + 1) Y1 ltac:(lia)). lia.
Qed.

End CalendarOrder.

Section CalendarRoundTrip.
Import Calendar.

Lemma days_before_year_split Y :
  let era := Y / 400 in
  let yoe := Y - era * 400 in
  days_before_year Y = era * 146097 + (yoe * 365 + yoe / 4 - yoe / 100).
Proof.
  intros era yoe.
  assert (Hy : 0 <= yoe <= 399) by (subst yoe era; Z.div_mod_to_equations; lia).
  replace Y with (yoe + era * 400) at 1 by (subst yoe; lia).
  rewrite dby_era by done. unfold days_before_year.
  replace (yoe / 400) with 0 by (symmetry; apply Z.div_small; lia). lia.
Qed.

(** The day number of the date of a day is that day. *)
Lemma days_from_civil_from_days z :
  let '(y, m, d) := civil_from_days z in days_from_civil y m d = z.
Proof.
  destruct (civil_from_days_spec z) as (Y & doy & Hz & Hd & ->).
  pose proof (dby_step Y) as Hs.
  unfold of_march.
  pose proof (month_day_bounds doy ltac:(lia)) as Hb.
  assert (Hdoy : let '(mp, d) := month_day doy in (153 * mp + 2) / 5 + d - 1 = doy).
  { unfold month_day. lia. }
  destruct (month_day doy) as [mp d]. unfold days_from_civil.
  pose proof (days_before_year_split Y) as HY. cbv zeta in HY.
  destruct (Z.ltb_spec mp 10).
  - destruct (Z.leb_spec (mp + 3) 2); [lia|].
    replace ((mp + 3 + 9) mod 12) with mp by (Z.div_mod_to_equations; lia).
    lia.
  - destruct (Z.leb_spec (mp - 9) 2); [|lia].
    replace (Y + 1 - 1) with Y by lia.
    replace ((mp - 9 + 9) mod 12) with mp by (Z.div_mod_to_equations; lia).
    lia.
Qed.

End CalendarRoundTrip.
Section HourOrder.
Import Calendar.

(** The order of two wall-clock hours is the order of their numbers. *)
Lemma hour_compare_seconds s1 s2 :
  hour_compare (hour_of (civil_of_seconds s1)) (hour_of (civil_of_seconds s2))
  = (s1 / 3600 ?= s2 / 3600).
Proof.
  unfold civil_of_seconds, hour_of.
  pose proof (civil_from_days_bounds (s1 / 86400)) as B1.
  pose proof (civil_from_days_bounds (s2 / 86400)) as B2.
  assert (Hmono : forall a b, a < b ->
            date_code (civil_from_days a) < date_code (civil_from_days b))
    by apply civil_from_days_mono.
  assert (H1 : s1 / 3600 = 24 * (s1 / 86400) + s1 mod 86400 / 3600)
    by (Z.div_mod_to_equations; lia).
  assert (H2 : s2 / 3600 = 24 * (s2 / 86400) + s2 mod 86400 / 3600)
    by (Z.div_mod_to_equations; lia).
  assert (Hh1 : 0 <= s1 mod 86400 / 3600 <= 23) by (Z.div_mod_to_equations; lia).
  assert (Hh2 : 0 <= s2 mod 86400 / 3600 <= 23) by (Z.div_mod_to_equations; lia).
  rewrite H1, H2.
  set (h1 := s1 mod 86400 / 3600) in *. set (h2 := s2 mod 86400 / 3600) in *.
  set (D1 := s1 / 86400) in *. set (D2 := s2 / 86400) in *.
  clearbody h1 h2 D1 D2. clear H1 H2.
  destruct (Z.lt_trichotomy D1 D2) as [Hlt|[->|Hgt]].
  - specialize (Hmono _ _ Hlt).
    destruct (civil_from_days D1) as [[y1 m1] d1],
             (civil_from_days D2) as [[y2 m2] d2].
    cbn [c_year c_month c_day c_hour hour_compare]. unfold date_code in Hmono.
    destruct (Z.compare_spec y1 y2), (Z.compare_spec m1 m2),
      (Z.compare_spec d1 d2), (Z.compare_spec h1 h2),
      (Z.compare_spec (24 * D1 + h1) (24 * D2 + h2)); try reflexivity; lia.
  - destruct (civil_from_days D2) as [[y2 m2] d2].
    cbn [c_year c_month c_day c_hour hour_compare].
    rewrite !Z.compare_refl.
    destruct (Z.compare_spec h1 h2),
      (Z.compare_spec (24 * D2 + h1) (24 * D2 + h2)); try reflexivity; lia.
  - specialize (Hmono _ _ Hgt).
    destruct (civil_from_days D1) as [[y1 m1] d1],
             (civil_from_days D2) as [[y2 m2] d2].
    cbn [c_year c_month c_day c_hour hour_compare]. unfold date_code in Hmono.
    destruct (Z.compare_spec y1 y2), (Z.compare_spec m1 m2),
      (Z.compare_spec d1 d2), (Z.compare_spec h1 h2),
      (Z.compare_spec (24 * D1 + h1) (24 * D2 + h2)); try reflexivity; lia.
Qed.

(** The order of bucket strings is the order in time of the wall-clock
    hours they stand for. *)
Lemma bucket_order_chronological offset t1 t2 :
  printable offset t1 -> printable offset t2 ->
  String.compare (bucket_string (local_hour offset t1))
                 (bucket_string (local_hour offset t2))
  = (local_hour_number offset t1 ?= local_hour_number offset t2).
Proof.
  intros P1 P2. rewrite bucket_compare by (by apply local_hour_valid).
  apply hour_compare_seconds.
Qed.

End HourOrder.

(** C6: whatever the order in which the collection presents its records,
    a successful aggregation returns the same rows, and their bucket
    strings are in non-decreasing lexicographic order. Every row is keyed
    by the bucket string of an hour of the calendar, and on those strings
    the lexicographic order is the chronological order: of the hours as
    dates, and of the wall-clock hours of any two instants. *)
Theorem aggregation_rows_sorted
    (tzdb : string -> option (Z -> Z)) (parse_date : string -> option Z)
    (now : GoTime.Time) (coll coll' rows : list doc) :
  coll ≡ₚ coll' ->
  Mongo.Aggregate tzdb parse_date (Aggregation.pipeline now) coll = Mongo.Ok rows ->
  Mongo.Aggregate tzdb parse_date (Aggregation.pipeline now) coll' = Mongo.Ok rows /\
  Sorted string_le (row_key <$> rows) /\
  Forall (fun row => exists h, valid_hour h /\ row_key row = bucket_string h) rows /\
  (forall h1 h2, valid_hour h1 -> valid_hour h2 ->
     String.compare (bucket_string h1) (bucket_string h2) = hour_compare h1 h2) /\
  (forall offset t1 t2, printable offset t1 -> printable offset t2 ->
     String.compare (bucket_string (local_hour offset t1))
                    (bucket_string (local_hour offset t2))
     = (local_hour_number offset t1 ?= local_hour_number offset t2)).
Proof.
  intros Hp Hagg.
  split; [by eapply aggregate_Permutation|].
  split; [by eapply aggregate_sorted|].
  split.
  - eapply Forall_impl; [by eapply aggregate_row_keys|].
    intros row (h & Hv & Hid). exists h. split; [done|].
    unfold row_key. by rewrite Hid.
  - split; [apply bucket_compare | apply bucket_order_chronological].
Qed.

Lemma aggregation_rows_sorted_witness :
  let now := Sys.now Sample.process in
  Mongo.Aggregate TzData.tzdb TzData.parse_date (Aggregation.pipeline now)
    [Sample.r2; Sample.r3; Sample.r1]
    = Mongo.Ok [Sample.row_00; Sample.row_01] /\
  Sorted string_le ["2020-05-01 00:00:00"; "2020-05-01 01:00:00"]%string.
Proof.
  intros now.
  assert (Hagg : Mongo.Aggregate TzData.tzdb TzData.parse_date
                   (Aggregation.pipeline now)
                   [Sample.r3; Sample.r1; Sample.r2]
                 = Mongo.Ok [Sample.row_00; Sample.row_01]) by by_computation.
  assert (Hp : [Sample.r3; Sample.r1; Sample.r2]
               ≡ₚ [Sample.r2; Sample.r3; Sample.r1]).
  { etrans; [apply perm_skip, perm_swap | apply perm_swap]. }
  destruct (aggregation_rows_sorted TzData.tzdb TzData.parse_date now
              [Sample.r3; Sample.r1; Sample.r2]
              [Sample.r2; Sample.r3; Sample.r1]
              [Sample.row_00; Sample.row_01] Hp Hagg) as (H1 & H2 & _).
  split; [exact H1|]. vm_cast_no_check H2.
Defined.

Section AggregationSucceeds.
Import Mongo.
Variable tzdb : string -> option (Z -> Z).
Variable parse_date : string -> option Z.

Lemma round_number_or_null v :
  number_or_null v -> exists t, round 2 v = Ok t.
Proof. intros [->|[q ->]]; simpl; eauto. Qed.

Lemma readable_reading offset d :
  tzdb "America/Chicago" = Some offset ->
  readable offset d ->
  exists kv, reading tzdb parse_date d = Ok kv.
Proof.
  intros Htz ((t & Hd & Hp) & Hh & Ht). unfold reading.
  rewrite (hour_bucket_date _ _ _ _ _ Hd Htz). unfold printable in Hp.
  destruct (Z.leb_spec 0 (Calendar.c_year (local_civil offset t))); [|lia].
  destruct (Z.leb_spec (Calendar.c_year (local_civil offset t)) 9999); [|lia].
  destruct (round_number_or_null _ Hh) as [h ->].
  destruct (round_number_or_null _ Ht) as [tt ->].
  simpl. eauto.
Qed.

(** The aggregation succeeds when the zone is known and every record in
    range is readable. *)
Lemma aggregate_succeeds offset now coll :
  tzdb "America/Chicago" = Some offset ->
  Forall (readable offset)
    (Find (range_filter (Aggregation.yesterdayStart now)
                        (Aggregation.yesterdayEnd now)) coll) ->
  exists rows,
    Aggregate tzdb parse_date (Aggregation.pipeline now) coll = Ok rows.
Proof.
  intros Htz HF.
  assert (Hk : exists keyed,
            Forall2 (fun d kv => reading tzdb parse_date d = Ok kv)
              (Find (range_filter (Aggregation.yesterdayStart now)
                                  (Aggregation.yesterdayEnd now)) coll) keyed).
  { induction HF as [|d docs Hd _ [keyed IH]]; [by exists []|].
    destruct (readable_reading _ _ Htz Hd) as [kv Hkv].
    exists (kv :: keyed). by constructor. }
  destruct Hk as [keyed Hk]. eexists. by apply aggregate_complete.
Qed.

End AggregationSucceeds.

(* ===================================================================== *)
(** * Properties: start-up failures                                       *)
(* ===================================================================== *)

Section StartUp.
Import Env Sys.

Lemma base_file_missing {A} (K : gmap string string -> Prog A) f g env0 w :
  w_dotenv w !! ".env"%string = None ->
  (e1 ← godotenv_Load ".env" env0 ≫= check f;
   e2 ← godotenv_Overload ".env.local" e1 ≫= check g;
   K e2) w
  = (add_log (f "open .env: no such file or directory"%string) w, Exited 1).
Proof.
  intros H. unfold mbind, prog_bind, godotenv_Load, Load. by rewrite H.
Qed.

Lemma local_file_missing {A} (K : gmap string string -> Prog A) f g env0 w :
  is_Some (w_dotenv w !! ".env"%string) ->
  w_dotenv w !! ".env.local"%string = None ->
  (e1 ← godotenv_Load ".env" env0 ≫= check f;
   e2 ← godotenv_Overload ".env.local" e1 ≫= check g;
   K e2) w
  = (add_log (g "open .env.local: no such file or directory"%string) w, Exited 1).
Proof.
  intros [base Hb] H.
  unfold mbind, prog_bind, godotenv_Load, godotenv_Overload, Load, Overload.
  rewrite Hb. simpl. by rewrite H.
Qed.

Lemma in_utilities tzdb parse_date (main : Process -> Prog unit) :
  main ∈ utilities tzdb parse_date ->
  main = CsvExport.main tzdb parse_date \/
  main = ConsoleReport.main tzdb parse_date \/
  main = transfer_recs.TransferRecs \/
  main = Upsert.TransferRecords.
Proof.
  unfold utilities, reports, transfers. simpl.
  rewrite !elem_of_cons, elem_of_nil. tauto.
Qed.

End StartUp.

(** Both dotenv files are required: when [.env] cannot be opened, or
    [.env] can and [.env.local] cannot, each of the four utilities logs
    the error of the file and exits with status 1, whatever the process
    environment holds; nothing else happens (no database call, no file,
    no output). *)
Theorem missing_dotenv_file_is_fatal tzdb parse_date
    (main : Sys.Process -> Sys.Prog unit) (p : Sys.Process) (w : Sys.World) :
  main ∈ utilities tzdb parse_date ->
  (Sys.w_dotenv w !! ".env"%string = None ->
   Sys.run (main p) w =
     (Sys.add_log
        "Error loading .env file: open .env: no such file or directory" w, 1)) /\
  (is_Some (Sys.w_dotenv w !! ".env"%string) ->
   Sys.w_dotenv w !! ".env.local"%string = None ->
   Sys.run (main p) w =
     (Sys.add_log
        "Error loading .env.local file: open .env.local: no such file or directory"
        w, 1)).
Proof.
  intros Hm. apply in_utilities in Hm.
  split.
  - intros H.
    destruct Hm as [-> | [-> | [-> | ->]]]; unfold Sys.run;
      [unfold CsvExport.main | unfold ConsoleReport.main
      | unfold transfer_recs.TransferRecs | unfold Upsert.TransferRecords];
      by rewrite (base_file_missing _ _ _ _ _ H).
  - intros Hb H.
    destruct Hm as [-> | [-> | [-> | ->]]]; unfold Sys.run;
      [unfold CsvExport.main | unfold ConsoleReport.main
      | unfold transfer_recs.TransferRecs | unfold Upsert.TransferRecords];
      by rewrite (local_file_missing _ _ _ _ _ Hb H).
Qed.

Lemma missing_dotenv_file_is_fatal_witness :
  Sys.run (Upsert.TransferRecords Sample.process_with_uri) Sample.world_without_local =
    (Sys.add_log
       "Error loading .env.local file: open .env.local: no such file or directory"
       Sample.world_without_local, 1).
Proof.
  refine (proj2 (missing_dotenv_file_is_fatal TzData.tzdb TzData.parse_date
                   Upsert.TransferRecords Sample.process_with_uri
                   Sample.world_without_local _) _ _).
  - unfold utilities, reports, transfers. simpl. do 3 apply list_elem_of_further.
    apply list_elem_of_here.
  - exists {[ "SOURCE_MONGO_URI" := "mongodb://a";
              "DEST_MONGO_URI" := "mongodb://b" ]}%string.
    by_computation.
  - by_computation.
Defined.

(* ===================================================================== *)
(** * Properties: failures of the reports                                 *)
(* ===================================================================== *)

Section ReportFailures.
Import Env Sys Mongo Aggregation.
Variable tzdb : string -> option (Z -> Z).
Variable parse_date : string -> option Z.

Lemma in_reports (main : Process -> Prog unit) :
  main ∈ reports tzdb parse_date ->
  main = CsvExport.main tzdb parse_date \/
  main = ConsoleReport.main tzdb parse_date.
Proof.
  unfold reports. rewrite !elem_of_cons, elem_of_nil. tauto.
Qed.

Lemma aggregate_failed client p e w :
  Aggregate tzdb parse_date p (collection client w) = Err e ->
  (coll_Aggregate tzdb parse_date client p ≫= check id) w
  = (add_log e (add_call (CallAggregate client p) w), Exited 1).
Proof.
  intros H. unfold mbind, prog_bind, coll_Aggregate. by rewrite H.
Qed.

Lemma create_failed name w :
  name ∈ w_nocreate w ->
  (os_Create name ≫= check (fun err => "Failed to create CSV file: " ++ err)%string) w
  = (add_log ("Failed to create CSV file: open " ++ name ++ ": permission denied")%string w,
     Exited 1).
Proof.
  intros H. unfold mbind, prog_bind, os_Create.
  by rewrite (bool_decide_eq_true_2 _ H).
Qed.

(** When the connection to the deployment named by [MONGO_URI] fails,
    either report logs the error and exits with status 1 right after the
    connection attempt: no aggregation is requested, no file is created
    and nothing is printed. *)
Theorem report_connect_error_is_fatal (main : Process -> Prog unit)
    (p : Process) (w : World) (env : gmap string string) :
  let uri := Getenv env "MONGO_URI" in
  main ∈ reports tzdb parse_date ->
  load_config (w_dotenv w) (environ p) = Some env ->
  uri <> EmptyString ->
  w_store w !! uri = None ->
  run (main p) w
  = (add_log "server selection error" (add_call (CallConnect uri) w), 1).
Proof.
  intros uri Hm Hc Hu Hs. apply String.eqb_neq in Hu.
  destruct (in_reports _ Hm) as [-> | ->]; unfold run;
    [unfold CsvExport.main | unfold ConsoleReport.main];
    rewrite (config_loaded _ _ _ _ _ _ Hc); fold uri; rewrite Hu;
    by rewrite (bind_exited _ _ _ _ _ (connect_failed _ w Hs)).
Qed.

(** When the aggregation fails on the server, either report logs the
    error and exits with status 1 with the client still connected: the
    CSV export has not yet created or truncated its file, and nothing is
    printed. *)
Theorem report_aggregation_error_is_fatal (main : Process -> Prog unit)
    (p : Process) (w : World) (env : gmap string string) (e : string) :
  let uri := Getenv env "MONGO_URI" in
  main ∈ reports tzdb parse_date ->
  load_config (w_dotenv w) (environ p) = Some env ->
  uri <> EmptyString ->
  is_Some (w_store w !! uri) ->
  Aggregate tzdb parse_date (pipeline (now p)) (collection uri w) = Err e ->
  run (main p) w
  = (add_log e
       (add_call (CallAggregate uri (pipeline (now p)))
          (add_call (CallConnect uri) w)), 1).
Proof.
  intros uri Hm Hc Hu Hs Hagg. apply String.eqb_neq in Hu.
  destruct (in_reports _ Hm) as [-> | ->]; unfold run;
    [unfold CsvExport.main | unfold ConsoleReport.main];
    rewrite (config_loaded _ _ _ _ _ _ Hc); fold uri; rewrite Hu;
    rewrite (bind_return _ _ _ _ _ (connect_ok _ w Hs));
    by rewrite (bind_exited _ _ _ _ _
                  (aggregate_failed uri _ e (add_call _ w) Hagg)).
Qed.

(** When the CSV file cannot be created, the export logs
    [Failed to create CSV file: ...] and exits with status 1 after the
    aggregation: the files on disk are as they were, the success message
    is not printed, and the client is left connected (the deferred
    disconnection does not run). *)
Theorem csv_create_failure_is_fatal (p : Process) (w : World)
    (env : gmap string string) (rows : list doc) :
  let uri := Getenv env "MONGO_URI" in
  let file := CsvExport.csvFileName (now p) in
  load_config (w_dotenv w) (environ p) = Some env ->
  uri <> EmptyString ->
  is_Some (w_store w !! uri) ->
  Aggregate tzdb parse_date (pipeline (now p)) (collection uri w) = Ok rows ->
  file ∈ w_nocreate w ->
  run (CsvExport.main tzdb parse_date p) w
  = (add_log ("Failed to create CSV file: open " ++ file
              ++ ": permission denied")%string
       (add_call (CallAggregate uri (pipeline (now p)))
          (add_call (CallConnect uri) w)), 1).
Proof.
  intros uri file Hc Hu Hs Hagg Hf. apply String.eqb_neq in Hu.
  unfold run, CsvExport.main.
  rewrite (config_loaded _ _ _ _ _ _ Hc). fold uri. rewrite Hu.
  rewrite (bind_return _ _ _ _ _ (connect_ok _ w Hs)).
  rewrite (bind_return _ _ _ _ _
             (aggregate_ok _ _ uri _ rows (add_call _ w) Hagg)).
  fold file.
  by rewrite (bind_exited _ _ _ _ _
                (create_failed file (add_call _ (add_call _ w)) Hf)).
Qed.

End ReportFailures.

Lemma report_connect_error_is_fatal_witness :
  Sys.run (CsvExport.main TzData.tzdb TzData.parse_date Sample.process_unreachable)
    Sample.world
  = (Sys.add_log "server selection error"
       (Sys.add_call (Sys.CallConnect "mongodb://down") Sample.world), 1).
Proof.
  refine (report_connect_error_is_fatal TzData.tzdb TzData.parse_date
            (CsvExport.main TzData.tzdb TzData.parse_date)
            Sample.process_unreachable Sample.world
            {[ "MONGO_URI" := "mongodb://down";
               "SOURCE_MONGO_URI" := "mongodb://a";
               "DEST_MONGO_URI" := "mongodb://down" ]}%string _ _ _ _).
  - apply list_elem_of_here.
  - by_computation.
  - by_computation_neq.
  - by_computation.
Defined.

Lemma report_aggregation_error_is_fatal_witness :
  let p := Sample.process in
  let w := Sample.world_with_text in
  Sys.run (CsvExport.main TzData.tzdb TzData.parse_date p) w
  = (Sys.add_log "$round only supports numeric types"
       (Sys.add_call
          (Sys.CallAggregate "mongodb://a" (Aggregation.pipeline (Sys.now p)))
          (Sys.add_call (Sys.CallConnect "mongodb://a") w)), 1).
Proof.
  intros p w.
  refine (report_aggregation_error_is_fatal TzData.tzdb TzData.parse_date
            (CsvExport.main TzData.tzdb TzData.parse_date) p w
            {[ "MONGO_URI" := "mongodb://a";
               "SOURCE_MONGO_URI" := "mongodb://a";
               "DEST_MONGO_URI" := "mongodb://b" ]}%string _ _ _ _ _ _).
  - apply list_elem_of_here.
  - by_computation.
  - by_computation_neq.
  - exists [Sample.r3; Sample.r1; Sample.r_text; Sample.r2]. by_computation.
  - by_computation.
Defined.

Lemma csv_create_failure_is_fatal_witness :
  let p := Sample.process in
  let w := Sample.world_read_only in
  Sys.run (CsvExport.main TzData.tzdb TzData.parse_date p) w
  = (Sys.add_log
       "Failed to create CSV file: open measurements_2020-05-02.csv: permission denied"
       (Sys.add_call
          (Sys.CallAggregate "mongodb://a" (Aggregation.pipeline (Sys.now p)))
          (Sys.add_call (Sys.CallConnect "mongodb://a") w)), 1).
Proof.
  intros p w.
  refine (csv_create_failure_is_fatal TzData.tzdb TzData.parse_date p w
            {[ "MONGO_URI" := "mongodb://a";
               "SOURCE_MONGO_URI" := "mongodb://a";
               "DEST_MONGO_URI" := "mongodb://b" ]}%string
            [Sample.row_00; Sample.row_01] _ _ _ _ _).
  - by_computation.
  - by_computation_neq.
  - exists [Sample.r3; Sample.r1; Sample.r2]. by_computation.
  - by_computation.
  - change (CsvExport.csvFileName (Sys.now p)
            ∈ ({[ "measurements_2020-05-02.csv"%string ]} : gset string)).
    apply elem_of_singleton_2. by_computation.
Defined.

(* ===================================================================== *)
(** * Properties: the plain transfer                                      *)
(* ===================================================================== *)

Section Inserts.
Import Mongo.
Implicit Types r d : doc.
Implicit Types coll : list doc.
#[local] Arguments has_id : simpl never.

Lemma doc_id_field r id : r !! "_id"%string = Some id -> doc_id r = id.
Proof. unfold doc_id, Bson.get. by intros ->. Qed.

Lemma has_id_sym r d : has_id (doc_id r) d = has_id (doc_id d) r.
Proof. unfold has_id. fold (doc_id d) (doc_id r). apply eqb_sym. Qed.

(** In a list without repeated identifiers, no document carries the
    identifier of a later one. *)
Lemma unique_ids_middle coll r rest :
  unique_ids (coll ++ r :: rest) = true ->
  existsb (has_id (doc_id r)) coll = false.
Proof.
  induction coll as [|d coll IH]; simpl; [done|].
  intros [Hn Hu]%andb_true_iff. apply negb_true_iff in Hn.
  rewrite existsb_app in Hn. simpl in Hn.
  apply orb_false_iff in Hn as [_ Hn]. apply orb_false_iff in Hn as [Hn _].
  rewrite has_id_sym, Hn. simpl. by apply IH.
Qed.

(** Documents whose identifiers are new and distinct are all inserted,
    in order, after the documents already there. *)
Lemma InsertMany_fresh recs coll :
  unique_ids (coll ++ recs) = true ->
  InsertMany recs coll = (coll ++ recs, None).
Proof.
  revert coll. induction recs as [|r recs IH]; intros coll Hu; simpl.
  - by rewrite app_nil_r.
  - assert (Hnext : InsertMany recs (coll ++ [r]) = (coll ++ r :: recs, None)).
    { rewrite IH; rewrite <- app_assoc; done. }
    destruct (r !! "_id"%string) as [id|] eqn:E; [|done].
    pose proof (unique_ids_middle _ _ _ Hu) as Hf.
    rewrite (doc_id_field _ _ E) in Hf. by rewrite Hf.
Qed.

(** The insertion stops at the first document whose identifier is
    taken; the documents before it stay inserted. *)
Lemma InsertMany_duplicate pre r post coll id :
  unique_ids (coll ++ pre) = true ->
  r !! "_id"%string = Some id ->
  existsb (has_id id) (coll ++ pre) = true ->
  InsertMany (pre ++ r :: post) coll
  = (coll ++ pre, Some "E11000 duplicate key error"%string).
Proof.
  revert coll. induction pre as [|r' pre IH]; intros coll Hu Hid Hex; simpl.
  - rewrite app_nil_r in Hex |- *. by rewrite Hid, Hex.
  - assert (Hnext : InsertMany (pre ++ r :: post) (coll ++ [r'])
                    = (coll ++ r' :: pre, Some "E11000 duplicate key error"%string)).
    { rewrite IH; rewrite <- ?app_assoc; done. }
    destruct (r' !! "_id"%string) as [id'|] eqn:E; [|done].
    pose proof (unique_ids_middle _ _ _ Hu) as Hf.
    rewrite (doc_id_field _ _ E) in Hf. by rewrite Hf.
Qed.

End Inserts.

Section TransferRuns.
Import Env Sys Mongo.

Lemma in_transfers (main : Process -> Prog unit) :
  main ∈ transfers ->
  main = transfer_recs.TransferRecs \/ main = Upsert.TransferRecords.
Proof.
  unfold transfers. rewrite !elem_of_cons, elem_of_nil. tauto.
Qed.

Lemma transfer_no_source main p w env :
  let src := Getenv env "SOURCE_MONGO_URI" in
  let dst := Getenv env "DEST_MONGO_URI" in
  main ∈ transfers ->
  load_config (w_dotenv w) (environ p) = Some env ->
  src <> EmptyString -> dst <> EmptyString ->
  w_store w !! src = None ->
  run (main p) w
  = (add_log "server selection error" (add_call (CallConnect src) w), 1).
Proof.
  intros src dst Hm Hc Hs Hd Hsrc. apply String.eqb_neq in Hs, Hd.
  destruct (in_transfers _ Hm) as [-> | ->]; unfold run;
    [unfold transfer_recs.TransferRecs | unfold Upsert.TransferRecords];
    rewrite (config_loaded _ _ _ _ _ _ Hc); fold src dst; rewrite Hs, Hd;
    by rewrite (bind_exited _ _ _ _ _ (connect_failed _ w Hsrc)).
Qed.

Lemma transfer_no_destination main p w env :
  let src := Getenv env "SOURCE_MONGO_URI" in
  let dst := Getenv env "DEST_MONGO_URI" in
  main ∈ transfers ->
  load_config (w_dotenv w) (environ p) = Some env ->
  src <> EmptyString -> dst <> EmptyString ->
  is_Some (w_store w !! src) ->
  w_store w !! dst = None ->
  run (main p) w
  = (add_log "server selection error"
       (add_call (CallConnect dst) (add_call (CallConnect src) w)), 1).
Proof.
  intros src dst Hm Hc Hs Hd Hsrc Hdst. apply String.eqb_neq in Hs, Hd.
  destruct (in_transfers _ Hm) as [-> | ->]; unfold run;
    [unfold transfer_recs.TransferRecs | unfold Upsert.TransferRecords];
    rewrite (config_loaded _ _ _ _ _ _ Hc); fold src dst; rewrite Hs, Hd;
    rewrite (bind_return _ _ _ _ _ (connect_ok _ w Hsrc));
    by rewrite (bind_exited _ _ _ _ _ (connect_failed _ (add_call _ w) Hdst)).
Qed.

Lemma insert_many_step client docs w :
  (coll_InsertMany client docs ≫= check id) w =
  match snd (InsertMany docs (collection client w)) with
  | None =>
      (add_call (CallInsertMany client docs)
         (with_store <[client := fst (InsertMany docs (collection client w))]> w),
       Return ())
  | Some e =>
      (add_log e
         (add_call (CallInsertMany client docs)
            (with_store <[client := fst (InsertMany docs (collection client w))]> w)),
       Exited 1)
  end.
Proof.
  unfold mbind, prog_bind, coll_InsertMany.
  destruct (InsertMany _ _) as [c [e|]]; reflexivity.
Qed.

(** The world a run of the plain transfer leaves when records match. *)
Lemma transfer_recs_run p w env c_src c_dst :
  let src := Getenv env "SOURCE_MONGO_URI" in
  let dst := Getenv env "DEST_MONGO_URI" in
  let recs := Find transfer_recs.filter c_src in
  let w3 := add_call (CallFind src transfer_recs.filter)
              (add_call (CallConnect dst) (add_call (CallConnect src) w)) in
  let w4 := add_call (CallInsertMany dst recs)
              (with_store <[dst := fst (InsertMany recs c_dst)]> w3) in
  load_config (w_dotenv w) (environ p) = Some env ->
  src <> EmptyString -> dst <> EmptyString ->
  w_store w !! src = Some c_src -> w_store w !! dst = Some c_dst ->
  recs <> [] ->
  run (transfer_recs.TransferRecs p) w =
    match snd (InsertMany recs c_dst) with
    | None =>
        (add_call (CallDisconnect src)
           (add_call (CallDisconnect dst)
              (add_log ("Successfully transferred "
                        ++ Text.decimal (Z.of_nat (length recs))
                        ++ " records from 2023")%string w4)), 0)
    | Some e => (add_log e w4, 1)
    end.
Proof.
  intros src dst recs w3 w4 Hc Hs Hd Hsrc Hdst Hne.
  apply String.eqb_neq in Hs, Hd.
  assert (Hcs : collection src w = c_src) by (unfold collection; by rewrite Hsrc).
  assert (Hcd : collection dst w3 = c_dst) by (unfold collection; simpl; by rewrite Hdst).
  unfold run, transfer_recs.TransferRecs.
  rewrite (config_loaded _ _ _ _ _ _ Hc). fold src dst. rewrite Hs, Hd.
  rewrite (bind_return _ _ _ _ _ (connect_ok _ w (mk_is_Some _ _ Hsrc))).
  rewrite (bind_return _ _ _ _ _
             (connect_ok _ (add_call _ w) (mk_is_Some _ _ Hdst))).
  rewrite (bind_return _ _ _ _ _ (find_ok _ _ _)).
  rewrite (bind_return _ _ _ _ _ (foldM_collect id _ _ _)).
  change (collection src (add_call _ (add_call _ w))) with (collection src w).
  rewrite Hcs, list_fmap_id. cbn [app]. fold recs. fold w3.
  assert (Hlen : (0 <? length recs)%nat = true).
  { destruct recs; [done|reflexivity]. }
  rewrite Hlen.
  pose proof (insert_many_step dst recs w3) as Hstep. rewrite Hcd in Hstep.
  fold w4 in Hstep.
  destruct (snd (InsertMany recs c_dst)) as [e|].
  - by rewrite (bind_exited _ _ _ _ _ (bind_exited _ _ _ _ _ Hstep)).
  - erewrite (bind_return _ _ w3); [reflexivity|].
    by rewrite (bind_return _ _ _ _ _ Hstep).
Qed.

End TransferRuns.

(** When a connection fails, either transfer logs the error and exits
    with status 1: after the attempt on the source when that one fails,
    after the attempt on the destination otherwise. In the second case
    the source client is left connected (the deferred disconnection does
    not run) and the source has not been queried. *)
Theorem transfer_connect_error_is_fatal
    (main : Sys.Process -> Sys.Prog unit) (p : Sys.Process) (w : Sys.World)
    (env : gmap string string) :
  let src := Env.Getenv env "SOURCE_MONGO_URI" in
  let dst := Env.Getenv env "DEST_MONGO_URI" in
  main ∈ transfers ->
  load_config (Sys.w_dotenv w) (Sys.environ p) = Some env ->
  src <> EmptyString -> dst <> EmptyString ->
  (Sys.w_store w !! src = None ->
   Sys.run (main p) w
   = (Sys.add_log "server selection error"
        (Sys.add_call (Sys.CallConnect src) w), 1)) /\
  (is_Some (Sys.w_store w !! src) -> Sys.w_store w !! dst = None ->
   Sys.run (main p) w
   = (Sys.add_log "server selection error"
        (Sys.add_call (Sys.CallConnect dst)
           (Sys.add_call (Sys.CallConnect src) w)), 1)).
Proof.
  intros src dst Hm Hc Hs Hd. split.
  - by apply transfer_no_source.
  - by apply transfer_no_destination.
Qed.

Lemma transfer_connect_error_is_fatal_witness :
  Sys.run (transfer_recs.TransferRecs Sample.process_unreachable) Sample.world
  = (Sys.add_log "server selection error"
       (Sys.add_call (Sys.CallConnect "mongodb://down")
          (Sys.add_call (Sys.CallConnect "mongodb://a") Sample.world)), 1).
Proof.
  refine (proj2 (transfer_connect_error_is_fatal transfer_recs.TransferRecs
                   Sample.process_unreachable Sample.world
                   {[ "MONGO_URI" := "mongodb://down";
                      "SOURCE_MONGO_URI" := "mongodb://a";
                      "DEST_MONGO_URI" := "mongodb://down" ]}%string _ _ _ _) _ _).
  - apply list_elem_of_here.
  - by_computation.
  - by_computation_neq.
  - by_computation_neq.
  - exists [Sample.r3; Sample.r1; Sample.r2]. by_computation.
  - by_computation.
Defined.

(** The plain transfer, when records of 2023 are found and neither the
    destination nor the records repeat an identifier: the records are
    appended to the destination in the order of the source, the count is
    logged, both clients are disconnected (destination first) and the run
    ends with status 0. Nothing else in the store changes. *)
Theorem plain_transfer_inserts (p : Sys.Process) (w : Sys.World)
    (env : gmap string string) (c_src c_dst : list doc) :
  let src := Env.Getenv env "SOURCE_MONGO_URI" in
  let dst := Env.Getenv env "DEST_MONGO_URI" in
  let recs := Mongo.Find transfer_recs.filter c_src in
  load_config (Sys.w_dotenv w) (Sys.environ p) = Some env ->
  src <> EmptyString -> dst <> EmptyString ->
  Sys.w_store w !! src = Some c_src -> Sys.w_store w !! dst = Some c_dst ->
  recs <> [] ->
  unique_ids (c_dst ++ recs) = true ->
  ran w 0
    ("Successfully transferred " ++ Text.decimal (Z.of_nat (length recs))
     ++ " records from 2023")%string
    [ Sys.CallConnect src; Sys.CallConnect dst;
      Sys.CallFind src transfer_recs.filter; Sys.CallInsertMany dst recs;
      Sys.CallDisconnect dst; Sys.CallDisconnect src ]
    (<[dst := c_dst ++ recs]> (Sys.w_store w))
    (Sys.run (transfer_recs.TransferRecs p) w).
Proof.
  intros src dst recs Hc Hs Hd Hsrc Hdst Hne Hu.
  rewrite (transfer_recs_run p w env c_src c_dst Hc Hs Hd Hsrc Hdst Hne).
  fold src dst recs. rewrite (InsertMany_fresh _ _ Hu).
  unfold ran. cbn. rewrite <- !app_assoc. done.
Qed.

Lemma plain_transfer_inserts_witness :
  ran Sample.world_2023 0 "Successfully transferred 2 records from 2023"
    [ Sys.CallConnect "mongodb://a"; Sys.CallConnect "mongodb://b";
      Sys.CallFind "mongodb://a" transfer_recs.filter;
      Sys.CallInsertMany "mongodb://b" [Sample.r_2023a; Sample.r_2023b];
      Sys.CallDisconnect "mongodb://b"; Sys.CallDisconnect "mongodb://a" ]
    (<["mongodb://b"%string := [Sample.r1; Sample.r_2023a; Sample.r_2023b]]>
       (Sys.w_store Sample.world_2023))
    (Sys.run (transfer_recs.TransferRecs Sample.process) Sample.world_2023).
Proof.
  pose (env := {[ "MONGO_URI" := "mongodb://a";
                  "SOURCE_MONGO_URI" := "mongodb://a";
                  "DEST_MONGO_URI" := "mongodb://b" ]}%string
               : gmap string string).
  assert (Es : Env.Getenv env "SOURCE_MONGO_URI" = "mongodb://a"%string)
    by by_computation.
  assert (Ed : Env.Getenv env "DEST_MONGO_URI" = "mongodb://b"%string)
    by by_computation.
  assert (Er : Mongo.Find transfer_recs.filter
                 [Sample.r_2023a; Sample.r_2024; Sample.r_2023b]
               = [Sample.r_2023a; Sample.r_2023b]) by by_computation.
  pose proof (plain_transfer_inserts Sample.process Sample.world_2023 env
                [Sample.r_2023a; Sample.r_2024; Sample.r_2023b] [Sample.r1]) as H.
  cbv zeta in H. rewrite Es, Ed, Er in H.
  apply H.
  - by_computation.
  - by_computation_neq.
  - by_computation_neq.
  - by_computation.
  - by_computation.
  - discriminate.
  - by_computation.
Defined.

Section PlainTransferFailures.
Import Env Sys Mongo.
#[local] Arguments has_id : simpl never.

Lemma transfer_recs_duplicate p w env c_src c_dst pre r post id :
  let src := Getenv env "SOURCE_MONGO_URI" in
  let dst := Getenv env "DEST_MONGO_URI" in
  load_config (w_dotenv w) (environ p) = Some env ->
  src <> EmptyString -> dst <> EmptyString ->
  w_store w !! src = Some c_src -> w_store w !! dst = Some c_dst ->
  Find transfer_recs.filter c_src = pre ++ r :: post ->
  unique_ids (c_dst ++ pre) = true ->
  r !! "_id"%string = Some id ->
  existsb (has_id id) (c_dst ++ pre) = true ->
  ran w 1 "E11000 duplicate key error"
    [ CallConnect src; CallConnect dst; CallFind src transfer_recs.filter;
      CallInsertMany dst (pre ++ r :: post) ]
    (<[dst := c_dst ++ pre]> (w_store w))
    (run (transfer_recs.TransferRecs p) w).
Proof.
  intros src dst Hc Hs Hd Hsrc Hdst Hrecs Hu Hid Hex.
  assert (Hne : Find transfer_recs.filter c_src <> []).
  { rewrite Hrecs. by destruct pre. }
  rewrite (transfer_recs_run p w env c_src c_dst Hc Hs Hd Hsrc Hdst Hne).
  fold src dst. rewrite Hrecs.
  rewrite (InsertMany_duplicate _ _ _ _ _ Hu Hid Hex).
  unfold ran. cbn. rewrite <- !app_assoc. done.
Qed.

Lemma find_head_identified q coll r rest :
  identified coll -> Find q coll = r :: rest ->
  exists id, r !! "_id"%string = Some id.
Proof.
  intros Hi HF.
  assert (Hin : In r (Find q coll)) by (rewrite HF; by left).
  unfold Find in Hin. apply filter_In in Hin as [Hin _].
  unfold identified in Hi. rewrite Forall_forall in Hi.
  apply Hi. by apply list_elem_of_In.
Qed.

(** The plain transfer cannot be repeated: after a run that inserted
    records, a second run from the world the first one left finds the
    same records, is refused the first of them as a duplicate, logs the
    error and exits with status 1, leaving every collection as the first
    run left it. *)
Theorem plain_transfer_not_repeatable (p : Process) (w : World)
    (env : gmap string string) (c_src c_dst : list doc) :
  let src := Getenv env "SOURCE_MONGO_URI" in
  let dst := Getenv env "DEST_MONGO_URI" in
  let recs := Find transfer_recs.filter c_src in
  let w1 := fst (run (transfer_recs.TransferRecs p) w) in
  load_config (w_dotenv w) (environ p) = Some env ->
  src <> EmptyString -> dst <> EmptyString -> src <> dst ->
  w_store w !! src = Some c_src -> w_store w !! dst = Some c_dst ->
  recs <> [] ->
  unique_ids (c_dst ++ recs) = true ->
  identified c_src ->
  w_store w1 = <[dst := c_dst ++ recs]> (w_store w) /\
  ran w1 1 "E11000 duplicate key error"
    [ CallConnect src; CallConnect dst; CallFind src transfer_recs.filter;
      CallInsertMany dst recs ]
    (w_store w1)
    (run (transfer_recs.TransferRecs p) w1).
Proof.
  intros src dst recs w1 Hc Hs Hd Hsd Hsrc Hdst Hne Hu Hi.
  assert (Hw1 : w_store w1 = <[dst := c_dst ++ recs]> (w_store w) /\
                w_dotenv w1 = w_dotenv w).
  { subst w1.
    rewrite (transfer_recs_run p w env c_src c_dst Hc Hs Hd Hsrc Hdst Hne).
    fold src dst recs. by rewrite (InsertMany_fresh _ _ Hu). }
  destruct Hw1 as [Hst Hdot]. split; [done|].
  destruct recs as [|r0 rest] eqn:Er; [done|].
  destruct (find_head_identified _ _ _ _ Hi Er) as [id0 Hid0].
  assert (Hc1 : load_config (w_dotenv w1) (environ p) = Some env)
    by (by rewrite Hdot).
  assert (Hsrc1 : w_store w1 !! src = Some c_src).
  { rewrite Hst, lookup_insert_ne; done. }
  assert (Hdst1 : w_store w1 !! dst = Some (c_dst ++ r0 :: rest)).
  { by rewrite Hst, lookup_insert_eq. }
  pose proof (transfer_recs_duplicate p w1 env c_src (c_dst ++ r0 :: rest)
                [] r0 rest id0 Hc1 Hs Hd Hsrc1 Hdst1 Er) as H.
  rewrite app_nil_r in H. fold src dst in H.
  replace (<[dst := c_dst ++ r0 :: rest]> (w_store w1)) with (w_store w1) in H
    by (by rewrite Hst, insert_insert_eq).
  apply H; [done|done|].
  apply existsb_exists. exists r0. split.
  - apply in_or_app. right. by left.
  - unfold has_id, Bson.get. rewrite Hid0. apply eqb_refl.
Qed.

End PlainTransferFailures.

(** The plain transfer inserts the found records in order until the
    first one whose identifier is already taken in the destination; it
    then logs the duplicate key error and exits with status 1. The
    records before that one stay inserted, the others are not inserted,
    and neither client is disconnected. *)
Theorem plain_transfer_stops_at_duplicate (p : Sys.Process) (w : Sys.World)
    (env : gmap string string) (c_src c_dst pre : list doc) (r : doc)
    (post : list doc) (id : value) :
  let src := Env.Getenv env "SOURCE_MONGO_URI" in
  let dst := Env.Getenv env "DEST_MONGO_URI" in
  load_config (Sys.w_dotenv w) (Sys.environ p) = Some env ->
  src <> EmptyString -> dst <> EmptyString ->
  Sys.w_store w !! src = Some c_src -> Sys.w_store w !! dst = Some c_dst ->
  Mongo.Find transfer_recs.filter c_src = pre ++ r :: post ->
  unique_ids (c_dst ++ pre) = true ->
  r !! "_id"%string = Some id ->
  existsb (Mongo.has_id id) (c_dst ++ pre) = true ->
  ran w 1 "E11000 duplicate key error"
    [ Sys.CallConnect src; Sys.CallConnect dst;
      Sys.CallFind src transfer_recs.filter;
      Sys.CallInsertMany dst (pre ++ r :: post) ]
    (<[dst := c_dst ++ pre]> (Sys.w_store w))
    (Sys.run (transfer_recs.TransferRecs p) w).
Proof. apply transfer_recs_duplicate. Qed.

Lemma plain_transfer_stops_at_duplicate_witness :
  ran Sample.world_2023_partial 1 "E11000 duplicate key error"
    [ Sys.CallConnect "mongodb://a"; Sys.CallConnect "mongodb://b";
      Sys.CallFind "mongodb://a" transfer_recs.filter;
      Sys.CallInsertMany "mongodb://b" [Sample.r_2023a; Sample.r_2023b] ]
    (<["mongodb://b"%string := [Sample.r_2023b; Sample.r_2023a]]>
       (Sys.w_store Sample.world_2023_partial))
    (Sys.run (transfer_recs.TransferRecs Sample.process) Sample.world_2023_partial).
Proof.
  pose (env := {[ "MONGO_URI" := "mongodb://a";
                  "SOURCE_MONGO_URI" := "mongodb://a";
                  "DEST_MONGO_URI" := "mongodb://b" ]}%string
               : gmap string string).
  assert (Es : Env.Getenv env "SOURCE_MONGO_URI" = "mongodb://a"%string)
    by by_computation.
  assert (Ed : Env.Getenv env "DEST_MONGO_URI" = "mongodb://b"%string)
    by by_computation.
  pose proof (plain_transfer_stops_at_duplicate Sample.process
                Sample.world_2023_partial env
                [Sample.r_2023a; Sample.r_2024; Sample.r_2023b] [Sample.r_2023b]
                [Sample.r_2023a] Sample.r_2023b [] (VNum 8)) as H.
  cbv zeta in H. rewrite Es, Ed in H.
  apply H.
  - by_computation.
  - by_computation_neq.
  - by_computation_neq.
  - by_computation.
  - by_computation.
  - by_computation.
  - by_computation.
  - by_computation.
  - by_computation.
Defined.

Lemma plain_transfer_not_repeatable_witness :
  let w1 := fst (Sys.run (transfer_recs.TransferRecs Sample.process)
                   Sample.world_2023) in
  Sys.w_store w1
  = <["mongodb://b"%string := [Sample.r1; Sample.r_2023a; Sample.r_2023b]]>
      (Sys.w_store Sample.world_2023) /\
  ran w1 1 "E11000 duplicate key error"
    [ Sys.CallConnect "mongodb://a"; Sys.CallConnect "mongodb://b";
      Sys.CallFind "mongodb://a" transfer_recs.filter;
      Sys.CallInsertMany "mongodb://b" [Sample.r_2023a; Sample.r_2023b] ]
    (Sys.w_store w1)
    (Sys.run (transfer_recs.TransferRecs Sample.process) w1).
Proof.
  pose (env := {[ "MONGO_URI" := "mongodb://a";
                  "SOURCE_MONGO_URI" := "mongodb://a";
                  "DEST_MONGO_URI" := "mongodb://b" ]}%string
               : gmap string string).
  assert (Es : Env.Getenv env "SOURCE_MONGO_URI" = "mongodb://a"%string)
    by by_computation.
  assert (Ed : Env.Getenv env "DEST_MONGO_URI" = "mongodb://b"%string)
    by by_computation.
  assert (Er : Mongo.Find transfer_recs.filter
                 [Sample.r_2023a; Sample.r_2024; Sample.r_2023b]
               = [Sample.r_2023a; Sample.r_2023b]) by by_computation.
  pose proof (plain_transfer_not_repeatable Sample.process Sample.world_2023 env
                [Sample.r_2023a; Sample.r_2024; Sample.r_2023b] [Sample.r1]) as H.
  cbv zeta in H. rewrite Es, Ed, Er in H.
  apply H.
  - by_computation.
  - by_computation_neq.
  - by_computation_neq.
  - by_computation_neq.
  - by_computation.
  - by_computation.
  - discriminate.
  - by_computation.
  - constructor; [exists (VNum 7); by_computation|].
    constructor; [exists (VNum 9); by_computation|].
    constructor; [exists (VNum 8); by_computation|]. constructor.
Defined.

(* ===================================================================== *)
(** * Properties: the upsert transfer                                     *)
(* ===================================================================== *)

Section UpsertRuns.
Import Env Sys Mongo.
Implicit Types r d : doc.
Implicit Types coll : list doc.
#[local] Arguments matches : simpl never.
#[local] Arguments has_id : simpl never.
#[local] Arguments Bson.set_fields : simpl never.

(** The world a run of the upsert transfer leaves when records match. *)
Lemma upsert_run p w env c_src c_dst :
  let src := Getenv env "SOURCE_MONGO_URI" in
  let dst := Getenv env "DEST_MONGO_URI" in
  let recs := Find Upsert.filter c_src in
  let models := Upsert.updateModel <$> recs in
  load_config (w_dotenv w) (environ p) = Some env ->
  src <> EmptyString -> dst <> EmptyString ->
  w_store w !! src = Some c_src -> w_store w !! dst = Some c_dst ->
  recs <> [] ->
  run (Upsert.TransferRecords p) w =
    (add_call (CallDisconnect src)
       (add_call (CallDisconnect dst)
          (add_log ("Successfully transferred "
                    ++ Text.decimal (Z.of_nat (length models))
                    ++ " records from 2024")%string
             (add_call (CallBulkWrite dst models)
                (with_store <[dst := BulkWrite models c_dst]>
                   (add_call (CallFind src Upsert.filter)
                      (add_call (CallConnect dst)
                         (add_call (CallConnect src) w))))))), 0).
Proof.
  intros src dst recs models Hc Hs Hd Hsrc Hdst Hne.
  apply String.eqb_neq in Hs, Hd.
  assert (Hcs : collection src w = c_src) by (unfold collection; by rewrite Hsrc).
  unfold run, Upsert.TransferRecords.
  rewrite (config_loaded _ _ _ _ _ _ Hc). fold src dst. rewrite Hs, Hd.
  rewrite (bind_return _ _ _ _ _ (connect_ok _ w (mk_is_Some _ _ Hsrc))).
  rewrite (bind_return _ _ _ _ _
             (connect_ok _ (add_call _ w) (mk_is_Some _ _ Hdst))).
  rewrite (bind_return _ _ _ _ _ (find_ok _ _ _)).
  rewrite (bind_return _ _ _ _ _ (foldM_collect _ _ _ _)).
  change (collection src (add_call _ (add_call _ w))) with (collection src w).
  rewrite Hcs. cbn [app]. fold recs. fold models.
  assert (Hlen : (0 <? length models)%nat = true).
  { unfold models. rewrite length_fmap. destruct recs; [done|reflexivity]. }
  rewrite Hlen.
  unfold mbind, prog_bind, coll_BulkWrite, collection. cbn [w_store add_call].
  by rewrite Hdst.
Qed.

Lemma update_first_length q u coll coll' :
  update_first q u coll = Some coll' -> length coll' = length coll.
Proof.
  revert coll'. induction coll as [|d coll IH]; intros coll'; simpl; [done|].
  destruct (matches q d); [by intros [= <-]|].
  destruct (update_first q u coll) as [c|]; simpl; [|done].
  intros [= <-]. simpl. by rewrite (IH c).
Qed.

Lemma upsert_length r coll :
  (length coll <= length (upsert r coll) <= S (length coll))%nat.
Proof.
  rewrite upsert_unfold.
  destruct (update_first _ _ coll) as [c|] eqn:E.
  - rewrite (update_first_length _ _ _ _ E). lia.
  - rewrite length_app. simpl. lia.
Qed.

(** One upsert leaves every document in place, unchanged or, when it
    carries the identifier of the record, with the fields of the record
    written over it. *)
Lemma upsert_keeps r coll i d :
  coll !! i = Some d ->
  exists d', upsert r coll !! i = Some d' /\
    (d' = d \/ (has_id (doc_id r) d = true /\ d' = Bson.set_fields r d)).
Proof.
  rewrite upsert_unfold. revert i.
  induction coll as [|d0 coll IH]; intros i Hi; [done|]. simpl.
  rewrite matches_id. destruct (has_id (doc_id r) d0) eqn:E.
  - destruct i as [|i]; simpl in *.
    + injection Hi as ->. eauto.
    + eauto.
  - destruct i as [|i]; simpl in *.
    + injection Hi as ->.
      destruct (update_first _ _ coll); simpl; eauto.
    + destruct (IH i Hi) as (d' & Hd' & Hor).
      destruct (update_first _ _ coll) as [c|] eqn:U; simpl in *; eauto.
Qed.

Lemma bulk_upsert_length recs coll :
  (length coll <= length (fold_left (fun c r => upsert r c) recs coll)
   <= length coll + length recs)%nat.
Proof.
  revert coll. induction recs as [|r recs IH]; intros coll; simpl; [lia|].
  pose proof (IH (upsert r coll)). pose proof (upsert_length r coll). lia.
Qed.

Lemma bulk_upsert_keeps recs coll i d :
  coll !! i = Some d ->
  exists d', fold_left (fun c r => upsert r c) recs coll !! i = Some d' /\
    dom d ⊆ dom d' /\
    (forall v, has_id v d' = has_id v d) /\
    (forall k, (forall r, r ∈ recs -> has_id (doc_id r) d = true -> r !! k = None) ->
               d' !! k = d !! k).
Proof.
  revert coll d. induction recs as [|r recs IH]; intros coll d Hi; simpl.
  - exists d. split; [done|]. split; [done|]. split; done.
  - destruct (upsert_keeps r coll i d Hi) as (d1 & H1 & Hor).
    destruct (IH _ _ H1) as (d' & Hd' & Hdom & Hid & Hk).
    exists d'. split; [done|].
    destruct Hor as [-> | [Hr ->]].
    + split; [done|]. split; [done|].
      intros k Hnone. apply Hk. intros r' Hin. apply Hnone. by right.
    + split; [|split].
      * etrans; [|exact Hdom]. unfold Bson.set_fields.
        rewrite dom_union. apply union_subseteq_r.
      * intros v. rewrite Hid. by apply has_id_set_fields.
      * intros k Hnone. rewrite Hk.
        -- unfold Bson.set_fields. apply lookup_union_r.
           apply Hnone; [by left|done].
        -- intros r' Hin Hr'. rewrite has_id_set_fields in Hr' by done.
           apply Hnone; [by right|done].
Qed.

End UpsertRuns.

(** The upsert transfer, when records of the range are found in a source
    keyed by [_id]: one bulk write of an upsert per record is issued,
    after which every found record is stored in the destination (the
    document carrying its identifier has all its fields); the count is
    logged under the year 2024, both clients are disconnected and the run
    ends with status 0. Nothing else in the store changes. *)
Theorem upsert_transfer_stores_records (p : Sys.Process) (w : Sys.World)
    (env : gmap string string) (c_src c_dst : list doc) :
  let src := Env.Getenv env "SOURCE_MONGO_URI" in
  let dst := Env.Getenv env "DEST_MONGO_URI" in
  let recs := Mongo.Find Upsert.filter c_src in
  let models := Upsert.updateModel <$> recs in
  load_config (Sys.w_dotenv w) (Sys.environ p) = Some env ->
  src <> EmptyString -> dst <> EmptyString ->
  Sys.w_store w !! src = Some c_src -> Sys.w_store w !! dst = Some c_dst ->
  recs <> [] ->
  unique_ids c_src = true ->
  ran w 0
    ("Successfully transferred " ++ Text.decimal (Z.of_nat (length recs))
     ++ " records from 2024")%string
    [ Sys.CallConnect src; Sys.CallConnect dst;
      Sys.CallFind src Upsert.filter; Sys.CallBulkWrite dst models;
      Sys.CallDisconnect dst; Sys.CallDisconnect src ]
    (<[dst := Mongo.BulkWrite models c_dst]> (Sys.w_store w))
    (Sys.run (Upsert.TransferRecords p) w) /\
  Forall (fun r => stored r (Mongo.BulkWrite models c_dst)) recs.
Proof.
  intros src dst recs models Hc Hs Hd Hsrc Hdst Hne Hu. split.
  - rewrite (upsert_run p w env c_src c_dst Hc Hs Hd Hsrc Hdst Hne).
    fold src dst recs models.
    unfold ran, models. rewrite length_fmap. cbn. rewrite <- !app_assoc. done.
  - unfold models. rewrite bulk_upsert_fold. apply bulk_upsert_stores.
    by apply unique_ids_filter.
Qed.

Lemma upsert_transfer_stores_records_witness :
  let models := Upsert.updateModel <$> [Sample.r3; Sample.r1; Sample.r2] in
  ran Sample.world 0 "Successfully transferred 3 records from 2024"
    [ Sys.CallConnect "mongodb://a"; Sys.CallConnect "mongodb://b";
      Sys.CallFind "mongodb://a" Upsert.filter;
      Sys.CallBulkWrite "mongodb://b" models;
      Sys.CallDisconnect "mongodb://b"; Sys.CallDisconnect "mongodb://a" ]
    (<["mongodb://b"%string := Mongo.BulkWrite models []]>
       (Sys.w_store Sample.world))
    (Sys.run (Upsert.TransferRecords Sample.process) Sample.world) /\
  Forall (fun r => stored r (Mongo.BulkWrite models []))
    [Sample.r3; Sample.r1; Sample.r2].
Proof.
  pose (env := {[ "MONGO_URI" := "mongodb://a";
                  "SOURCE_MONGO_URI" := "mongodb://a";
                  "DEST_MONGO_URI" := "mongodb://b" ]}%string
               : gmap string string).
  assert (Es : Env.Getenv env "SOURCE_MONGO_URI" = "mongodb://a"%string)
    by by_computation.
  assert (Ed : Env.Getenv env "DEST_MONGO_URI" = "mongodb://b"%string)
    by by_computation.
  assert (Er : Mongo.Find Upsert.filter [Sample.r3; Sample.r1; Sample.r2]
               = [Sample.r3; Sample.r1; Sample.r2]) by by_computation.
  pose proof (upsert_transfer_stores_records Sample.process Sample.world env
                [Sample.r3; Sample.r1; Sample.r2] []) as H.
  cbv zeta in H. rewrite Es, Ed, Er in H.
  apply H.
  - by_computation.
  - by_computation_neq.
  - by_computation_neq.
  - by_computation.
  - by_computation.
  - discriminate.
  - by_computation.
Defined.

(** The bulk upsert of the transfer never removes a document or a field
    from the destination. Every document stays at its position, keeps
    its identifier and at least the fields it had, and a field keeps its
    value unless a transferred record with the identifier of the
    document carries that field. The collection grows by at most one
    document per record. *)
Theorem upsert_keeps_documents (recs coll : list doc) :
  let coll' := Mongo.BulkWrite (Upsert.updateModel <$> recs) coll in
  (length coll <= length coll' <= length coll + length recs)%nat /\
  (forall i d, coll !! i = Some d ->
     exists d', coll' !! i = Some d' /\
       dom d ⊆ dom d' /\
       Mongo.has_id (doc_id d) d' = true /\
       (forall k,
          (forall r, r ∈ recs -> Mongo.has_id (doc_id r) d = true -> r !! k = None) ->
          d' !! k = d !! k)).
Proof.
  intros coll'. subst coll'. rewrite bulk_upsert_fold. split.
  - apply bulk_upsert_length.
  - intros i d Hi.
    destruct (bulk_upsert_keeps recs coll i d Hi) as (d' & Hd' & Hdom & Hid & Hk).
    exists d'. split; [done|]. split; [done|]. split; [|done].
    rewrite Hid. unfold Mongo.has_id. fold (doc_id d). apply eqb_refl.
Qed.

Lemma upsert_keeps_documents_witness :
  exists d',
    Mongo.BulkWrite (Upsert.updateModel <$> [Sample.r1; Sample.r2])
      [Sample.r1_note] !! 0%nat = Some d' /\
    d' !! "note"%string = Some (VStr "calibrated") /\
    Mongo.has_id (VNum 1) d' = true.
Proof.
  destruct (proj2 (upsert_keeps_documents [Sample.r1; Sample.r2] [Sample.r1_note])
              0%nat Sample.r1_note eq_refl) as (d' & Hd' & _ & Hid & Hk).
  exists d'. split; [exact Hd'|]. split; [|exact Hid].
  rewrite (Hk "note"%string); [by_computation|].
  intros r Hin _.
  apply elem_of_cons in Hin as [-> | Hin]; [by_computation|].
  apply elem_of_cons in Hin as [-> | Hin]; [by_computation|].
  by apply elem_of_nil in Hin.
Defined.

(* ===================================================================== *)
(** * Properties: what the transfers select                               *)
(* ===================================================================== *)

Section Selection.
Import Env Sys Mongo.

Lemma Find_sublist q (coll : list doc) : sublist (Find q coll) coll.
Proof.
  unfold Find. induction coll as [|d coll IH]; simpl; [constructor|].
  destruct (matches q d); by constructor.
Qed.

Lemma Find_range startDate endDate (coll : list doc) (r : doc) :
  r ∈ Find (range_filter startDate endDate) coll <->
  r ∈ coll /\
  updated_in (GoTime.unix startDate * 1000) (GoTime.unix endDate * 1000) r.
Proof.
  unfold Find.
  rewrite !list_elem_of_In, filter_In, range_filter_matches. reflexivity.
Qed.

(** The calls and the store a run of the plain transfer leaves, whatever
    the query returns. *)
Lemma transfer_recs_selection p w env c_src c_dst :
  let src := Getenv env "SOURCE_MONGO_URI" in
  let dst := Getenv env "DEST_MONGO_URI" in
  let recs := Find transfer_recs.filter c_src in
  let r := run (transfer_recs.TransferRecs p) w in
  load_config (w_dotenv w) (environ p) = Some env ->
  src <> EmptyString -> dst <> EmptyString ->
  w_store w !! src = Some c_src -> w_store w !! dst = Some c_dst ->
  transferred w src dst transfer_recs.filter recs (CallInsertMany dst recs) r /\
  w_store (fst r) =
    match recs with
    | [] => w_store w
    | _ => <[dst := fst (InsertMany recs c_dst)]> (w_store w)
    end.
Proof.
  intros src dst recs r Hc Hs Hd Hsrc Hdst. subst r.
  destruct recs as [|r0 rest] eqn:Er.
  - assert (Hz : Find transfer_recs.filter (collection src w) = []).
    { unfold collection. by rewrite Hsrc. }
    destruct (transfer_recs_zero p w env Hc Hs Hd (mk_is_Some _ _ Hsrc)
                (mk_is_Some _ _ Hdst) Hz) as (H0 & Hst & Hcalls & _).
    fold src dst in H0, Hst, Hcalls.
    split; [|done]. unfold transferred. by rewrite H0, Hcalls.
  - assert (Hne : Find transfer_recs.filter c_src <> []).
    { fold recs. by rewrite Er. }
    rewrite (transfer_recs_run p w env c_src c_dst Hc Hs Hd Hsrc Hdst Hne).
    fold src dst recs. rewrite Er.
    destruct (InsertMany (r0 :: rest) c_dst) as [coll' [e|]];
      unfold transferred; cbn; rewrite <- !app_assoc; done.
Qed.

(** The same for the upsert transfer. *)
Lemma upsert_selection p w env c_src c_dst :
  let src := Getenv env "SOURCE_MONGO_URI" in
  let dst := Getenv env "DEST_MONGO_URI" in
  let recs := Find Upsert.filter c_src in
  let models := Upsert.updateModel <$> recs in
  let r := run (Upsert.TransferRecords p) w in
  load_config (w_dotenv w) (environ p) = Some env ->
  src <> EmptyString -> dst <> EmptyString ->
  w_store w !! src = Some c_src -> w_store w !! dst = Some c_dst ->
  transferred w src dst Upsert.filter recs (CallBulkWrite dst models) r /\
  w_store (fst r) =
    match recs with
    | [] => w_store w
    | _ => <[dst := BulkWrite models c_dst]> (w_store w)
    end.
Proof.
  intros src dst recs models r Hc Hs Hd Hsrc Hdst. subst r models.
  destruct recs as [|r0 rest] eqn:Er.
  - assert (Hz : Find Upsert.filter (collection src w) = []).
    { unfold collection. by rewrite Hsrc. }
    destruct (upsert_zero p w env Hc Hs Hd (mk_is_Some _ _ Hsrc)
                (mk_is_Some _ _ Hdst) Hz) as (H0 & Hst & Hcalls & _).
    fold src dst in H0, Hst, Hcalls.
    split; [|done]. unfold transferred. by rewrite H0, Hcalls.
  - assert (Hne : Find Upsert.filter c_src <> []).
    { fold recs. by rewrite Er. }
    rewrite (upsert_run p w env c_src c_dst Hc Hs Hd Hsrc Hdst Hne).
    fold src dst recs. rewrite Er.
    unfold transferred. cbn. rewrite <- !app_assoc. done.
Qed.

End Selection.

(** C3: each transfer queries the source once, with the filter it builds
    from its range, and hands on exactly what that query returns. For
    every range, the query returns the records of the source whose
    [updatedAt] is a date in [start, end), the start included and the end
    excluded, and no others. So a run of [TransferRecs] passes to
    [InsertMany] exactly the records of the source dated in
    [2023-01-01, 2024-01-01) UTC, and a run of [TransferRecords] passes
    to [BulkWrite] one upsert for exactly those dated in
    [2020-05-01, 2020-09-01) UTC, in the order of the source; with no
    such record no write call is issued. The destination is what that
    write makes of it, and no other collection changes. *)
Theorem range_transfer_selects (p : Sys.Process) (w : Sys.World)
    (env : gmap string string) (c_src c_dst : list doc) :
  let src := Env.Getenv env "SOURCE_MONGO_URI" in
  let dst := Env.Getenv env "DEST_MONGO_URI" in
  let recs := Mongo.Find transfer_recs.filter c_src in
  let recs' := Mongo.Find Upsert.filter c_src in
  let run1 := Sys.run (transfer_recs.TransferRecs p) w in
  let run2 := Sys.run (Upsert.TransferRecords p) w in
  load_config (Sys.w_dotenv w) (Sys.environ p) = Some env ->
  src <> EmptyString -> dst <> EmptyString ->
  Sys.w_store w !! src = Some c_src -> Sys.w_store w !! dst = Some c_dst ->
  (forall (startDate endDate : GoTime.Time) (coll : list doc) (r : doc),
     r ∈ Mongo.Find (range_filter startDate endDate) coll <->
     r ∈ coll /\
     updated_in (GoTime.unix startDate * 1000) (GoTime.unix endDate * 1000) r) /\
  ((forall r, r ∈ recs <->
              r ∈ c_src /\ updated_in 1672531200000 1704067200000 r) /\
   sublist recs c_src /\
   transferred w src dst transfer_recs.filter recs
     (Sys.CallInsertMany dst recs) run1 /\
   Sys.w_store (fst run1) =
     match recs with
     | [] => Sys.w_store w
     | _ => <[dst := fst (Mongo.InsertMany recs c_dst)]> (Sys.w_store w)
     end) /\
  ((forall r, r ∈ recs' <->
              r ∈ c_src /\ updated_in 1588291200000 1598918400000 r) /\
   sublist recs' c_src /\
   transferred w src dst Upsert.filter recs'
     (Sys.CallBulkWrite dst (Upsert.updateModel <$> recs')) run2 /\
   Sys.w_store (fst run2) =
     match recs' with
     | [] => Sys.w_store w
     | _ => <[dst := Mongo.BulkWrite (Upsert.updateModel <$> recs') c_dst]>
              (Sys.w_store w)
     end).
Proof.
  intros src dst recs recs' run1 run2 Hc Hs Hd Hsrc Hdst.
  split; [apply Find_range|]. split.
  - destruct (transfer_recs_selection p w env c_src c_dst Hc Hs Hd Hsrc Hdst)
      as [Hcalls Hst].
    split; [|split; [apply Find_sublist|by split]].
    intros r. apply (Find_range transfer_recs.startDate transfer_recs.endDate).
  - destruct (upsert_selection p w env c_src c_dst Hc Hs Hd Hsrc Hdst)
      as [Hcalls Hst].
    split; [|split; [apply Find_sublist|by split]].
    intros r. apply (Find_range Upsert.startDate Upsert.endDate).
Qed.

Lemma range_transfer_selects_witness :
  let w := Sample.world_2023 in
  let recs := [Sample.r_2023a; Sample.r_2023b] in
  transferred w "mongodb://a" "mongodb://b" transfer_recs.filter recs
    (Sys.CallInsertMany "mongodb://b" recs)
    (Sys.run (transfer_recs.TransferRecs Sample.process) w) /\
  Sys.w_store (fst (Sys.run (transfer_recs.TransferRecs Sample.process) w))
    !! "mongodb://b"%string
  = Some [Sample.r1; Sample.r_2023a; Sample.r_2023b] /\
  updated_in 1672531200000 1704067200000 Sample.r_2023a /\
  ~ updated_in 1672531200000 1704067200000 Sample.r_2024.
Proof.
  intros w recs.
  pose (env := {[ "MONGO_URI" := "mongodb://a";
                  "SOURCE_MONGO_URI" := "mongodb://a";
                  "DEST_MONGO_URI" := "mongodb://b" ]}%string
               : gmap string string).
  pose (coll := [Sample.r_2023a; Sample.r_2024; Sample.r_2023b]).
  assert (Es : Env.Getenv env "SOURCE_MONGO_URI" = "mongodb://a"%string)
    by by_computation.
  assert (Ed : Env.Getenv env "DEST_MONGO_URI" = "mongodb://b"%string)
    by by_computation.
  assert (Er : Mongo.Find transfer_recs.filter coll = recs) by by_computation.
  assert (Ei : Mongo.InsertMany recs [Sample.r1]
               = ([Sample.r1; Sample.r_2023a; Sample.r_2023b], None))
    by by_computation.
  pose proof (range_transfer_selects Sample.process w env coll [Sample.r1]) as H.
  cbv zeta in H. rewrite Es, Ed, Er in H.
  destruct H as (_ & (Hin & _ & Hcalls & Hst) & _).
  - by_computation.
  - by_computation_neq.
  - by_computation_neq.
  - by_computation.
  - by_computation.
  - split; [exact Hcalls|]. split; [|split].
    + rewrite Hst. cbn [recs]. rewrite Ei. apply lookup_insert_eq.
    + apply (Hin Sample.r_2023a). apply list_elem_of_here.
    + intros Hu.
      assert (Hm : Sample.r_2024 ∈ recs).
      { apply Hin. split; [|exact Hu].
        apply list_elem_of_further, list_elem_of_here. }
      assert (E9 : Sample.r_2024 !! "_id"%string = Some (VNum 9)) by by_computation.
      assert (E7 : Sample.r_2023a !! "_id"%string = Some (VNum 7)) by by_computation.
      assert (E8 : Sample.r_2023b !! "_id"%string = Some (VNum 8)) by by_computation.
      apply elem_of_cons in Hm as [E|Hm].
      { rewrite E, E7 in E9. discriminate E9. }
      apply elem_of_cons in Hm as [E|Hm].
      { rewrite E, E8 in E9. discriminate E9. }
      by apply elem_of_nil in Hm.
Defined.

(* ===================================================================== *)
(** * Properties: the console report                                      *)
(* ===================================================================== *)

Section ConsoleReportRun.
Import Env Mongo Sys Aggregation.
Variable tzdb : string -> option (Z -> Z).
Variable parse_date : string -> option Z.

(** The loop over the cursor prints the line of every row, in order. *)
Lemma print_rows rows w :
  Forall (fun row => Decode row = inl (decode_row row)) rows ->
  foldM
    (fun _ d => result ← check id (Decode d); fmt_Print (ConsoleReport.line result))
    () rows w
  = (mkWorld (w_dotenv w) (w_store w) (w_fs w) (w_nocreate w) (w_writer w)
       (w_stdout w ++ report_lines rows) (w_log w) (w_calls w),
     Return ()).
Proof.
  intros HF. revert w. induction HF as [|row rows Hd HF IH]; intros w.
  - destruct w. simpl. unfold mret, prog_ret. simpl. by rewrite app_nil_r.
  - cbn [foldM]. rewrite Hd.
    erewrite bind_return; [|reflexivity].
    rewrite IH. unfold report_lines. cbn. by rewrite <- app_assoc.
Qed.

Lemma console_report_run p w env rows :
  let uri := Getenv env "MONGO_URI" in
  load_config (w_dotenv w) (environ p) = Some env ->
  uri <> EmptyString ->
  is_Some (w_store w !! uri) ->
  Aggregate tzdb parse_date (pipeline (now p)) (collection uri w) = Ok rows ->
  reported w uri (pipeline (now p)) (report_lines rows)
    (run (ConsoleReport.main tzdb parse_date p) w).
Proof.
  intros uri Hc Hu Hs Hagg.
  assert (Hdec : Forall (fun row => Decode row = inl (decode_row row)) rows).
  { eapply Forall_impl; [exact (aggregate_rows_decode _ _ _ _ _ Hagg)|].
    by intros row [? _]. }
  unfold run, ConsoleReport.main.
  rewrite (config_loaded _ _ _ _ _ _ Hc).
  apply String.eqb_neq in Hu. fold uri. rewrite Hu.
  rewrite (bind_return _ _ _ _ _ (connect_ok _ w Hs)).
  rewrite (bind_return _ _ _ _ _
             (aggregate_ok _ _ uri _ rows (add_call _ w) Hagg)).
  rewrite (bind_return _ _ _ _ _ (print_rows rows _ Hdec)).
  unfold reported. cbn. rewrite <- !app_assoc. done.
Qed.

End ConsoleReportRun.

(** The console report, when the aggregation succeeds: for every row, in
    the (sorted) order of the rows, it prints the line
    [Hour: <bucket>, Avg Humidity: <h>, Avg Temperature: <t>] with the
    averages in two decimals, humidity before temperature; it then
    disconnects and ends with status 0. It writes no file, logs nothing
    and changes no collection; with no rows it prints nothing. *)
Theorem console_report_prints_rows
    (tzdb : string -> option (Z -> Z)) (parse_date : string -> option Z)
    (p : Sys.Process) (w : Sys.World) (env : gmap string string)
    (rows : list doc) :
  let uri := Env.Getenv env "MONGO_URI" in
  load_config (Sys.w_dotenv w) (Sys.environ p) = Some env ->
  uri <> EmptyString ->
  is_Some (Sys.w_store w !! uri) ->
  Mongo.Aggregate tzdb parse_date (Aggregation.pipeline (Sys.now p))
    (Sys.collection uri w) = Mongo.Ok rows ->
  reported w uri (Aggregation.pipeline (Sys.now p)) (report_lines rows)
    (Sys.run (ConsoleReport.main tzdb parse_date p) w) /\
  Forall2
    (fun row line =>
       line = ("Hour: " ++ row_key row
               ++ ", Avg Humidity: "
               ++ Num.format_fixed 2 (Aggregation.AvgHumidity (decode_row row))
               ++ ", Avg Temperature: "
               ++ Num.format_fixed 2 (Aggregation.AvgTemperature (decode_row row))
               ++ String Text.newline "")%string)
    rows (report_lines rows).
Proof.
  intros uri Hc Hu Hs Hagg. split.
  - by apply console_report_run.
  - unfold report_lines. rewrite <- list_fmap_compose.
    apply Forall2_fmap_r, Forall_Forall2_diag, Forall_forall.
    intros row _. reflexivity.
Qed.

Lemma console_report_prints_rows_witness :
  reported Sample.world "mongodb://a"
    (Aggregation.pipeline (Sys.now Sample.process))
    [ ("Hour: 2020-05-01 00:00:00, Avg Humidity: 40.00, Avg Temperature: 10.00"
       ++ String Text.newline "")%string;
      ("Hour: 2020-05-01 01:00:00, Avg Humidity: 42.00, Avg Temperature: 10.00"
       ++ String Text.newline "")%string ]
    (Sys.run (ConsoleReport.main TzData.tzdb TzData.parse_date Sample.process)
       Sample.world).
Proof.
  pose (env := {[ "MONGO_URI" := "mongodb://a";
                  "SOURCE_MONGO_URI" := "mongodb://a";
                  "DEST_MONGO_URI" := "mongodb://b" ]}%string
               : gmap string string).
  assert (Eu : Env.Getenv env "MONGO_URI" = "mongodb://a"%string)
    by by_computation.
  assert (El : report_lines [Sample.row_00; Sample.row_01]
               = [ ("Hour: 2020-05-01 00:00:00, Avg Humidity: 40.00, Avg Temperature: 10.00"
                    ++ String Text.newline "")%string;
                   ("Hour: 2020-05-01 01:00:00, Avg Humidity: 42.00, Avg Temperature: 10.00"
                    ++ String Text.newline "")%string ]) by by_computation.
  pose proof (console_report_prints_rows TzData.tzdb TzData.parse_date
                Sample.process Sample.world env
                [Sample.row_00; Sample.row_01]) as H.
  cbv zeta in H. rewrite Eu, El in H.
  apply H.
  - by_computation.
  - by_computation_neq.
  - exists [Sample.r3; Sample.r1; Sample.r2]. by_computation.
  - by_computation.
Defined.

(* ===================================================================== *)
(** * Properties: when the aggregation succeeds, and what its rows are    *)
(* ===================================================================== *)

Section AggregationRows.
Import Mongo.
Variable tzdb : string -> option (Z -> Z).
Variable parse_date : string -> option Z.

Lemma round_Ok_inv v t : round 2 v = Ok t -> number_or_null v.
Proof. destruct v; simpl; try done; intros _; [by left | right; eauto]. Qed.

(** A record in range that the pipeline reads is readable. *)
Lemma reading_readable now offset d kv :
  tzdb "America/Chicago" = Some offset ->
  matches (range_filter (Aggregation.yesterdayStart now)
                        (Aggregation.yesterdayEnd now)) d = true ->
  reading tzdb parse_date d = Ok kv ->
  readable offset d.
Proof.
  intros Htz Hm Hr.
  destruct (reading_in_range _ _ _ _ _ Hm Hr) as (o & t & Ho & Hd & Hp & _).
  assert (o = offset) as -> by congruence.
  destruct (reading_Ok _ _ _ _ Hr) as (key & h & tt & _ & _ & Hh & Ht).
  split; [eauto|]. split; by eapply round_Ok_inv.
Qed.

Lemma aggregate_readable now offset coll rows :
  tzdb "America/Chicago" = Some offset ->
  Aggregate tzdb parse_date (Aggregation.pipeline now) coll = Ok rows ->
  Forall (readable offset)
    (Find (range_filter (Aggregation.yesterdayStart now)
                        (Aggregation.yesterdayEnd now)) coll).
Proof.
  intros Htz (keyed & HF & _)%aggregate_inv.
  apply Forall_forall. intros d Hin.
  destruct (proj1 (list_elem_of_lookup _ _) Hin) as [i Hi].
  destruct (Forall2_lookup_l _ _ _ _ _ HF Hi) as (kv & _ & Hr).
  eapply reading_readable; [done| |done].
  unfold Find in Hin. by apply list_elem_of_In, filter_In in Hin as [_ ?].
Qed.

(** The key read from a record in range is the string of its bucket, and
    the record belongs to that bucket. *)
Lemma reading_key now d kv :
  matches (range_filter (Aggregation.yesterdayStart now)
                        (Aggregation.yesterdayEnd now)) d = true ->
  reading tzdb parse_date d = Ok kv ->
  exists s, fst kv = VStr s /\ in_bucket tzdb parse_date s d = true.
Proof.
  intros Hm Hr.
  destruct (reading_in_range _ _ _ _ _ Hm Hr) as (o & t & _ & _ & _ & Hk).
  destruct (reading_Ok _ _ _ _ Hr) as (key & h & tt & -> & Hb & _ & _).
  simpl in Hk. subst key. eexists. split; [done|].
  unfold in_bucket. rewrite Hb. apply String.eqb_refl.
Qed.

Lemma keyed_keys now coll keyed k :
  Forall2 (fun d kv => reading tzdb parse_date d = Ok kv)
    (Find (range_filter (Aggregation.yesterdayStart now)
                        (Aggregation.yesterdayEnd now)) coll) keyed ->
  k ∈ fst <$> keyed ->
  exists s d, k = VStr s /\
    d ∈ Find (range_filter (Aggregation.yesterdayStart now)
                           (Aggregation.yesterdayEnd now)) coll /\
    in_bucket tzdb parse_date s d = true.
Proof.
  intros HF (kv & -> & Hkv)%list_elem_of_fmap.
  destruct (proj1 (list_elem_of_lookup _ _) Hkv) as [i Hi].
  destruct (Forall2_lookup_r _ _ _ _ _ HF Hi) as (d & Hd & Hr).
  apply list_elem_of_lookup_2 in Hd.
  assert (Hm : matches (range_filter (Aggregation.yesterdayStart now)
                          (Aggregation.yesterdayEnd now)) d = true).
  { unfold Find in Hd. by apply list_elem_of_In, filter_In in Hd as [_ ?]. }
  destruct (reading_key _ _ _ Hm Hr) as (s & Hs & Hb).
  exists s, d. done.
Qed.

Lemma row_key_row_of keyed s : row_key (row_of keyed (VStr s)) = s.
Proof. unfold row_key. by rewrite row_of_id. Qed.

Lemma distinct_length ks : (length (distinct ks) <= length ks)%nat.
Proof.
  induction ks as [|k ks IH]; simpl; [done|].
  pose proof (List.filter_length_le (fun k' => negb (Bson.eqb k k')) (distinct ks)).
  lia.
Qed.

(** The rows of a successful aggregation partition yesterday's window by
    hour: no two rows carry the same bucket string, every row stands for
    at least one record of the window (an hour without records has no
    row), every record of the window belongs to the bucket of a row, and
    so there are no more rows than records. *)
Theorem aggregation_rows_partition_window (now : GoTime.Time)
    (coll rows : list doc) :
  let window := Find (range_filter (Aggregation.yesterdayStart now)
                                   (Aggregation.yesterdayEnd now)) coll in
  Aggregate tzdb parse_date (Aggregation.pipeline now) coll = Ok rows ->
  NoDup (row_key <$> rows) /\
  (forall row, row ∈ rows ->
     bucket_members tzdb parse_date now coll (row_key row) <> []) /\
  (forall d, d ∈ window ->
     exists row, row ∈ rows /\
       d ∈ bucket_members tzdb parse_date now coll (row_key row)) /\
  (length rows <= length window)%nat.
Proof.
  intros window (keyed & HF & ->)%aggregate_inv. fold window in HF.
  set (ks := fst <$> keyed).
  assert (Hstr : forall k, k ∈ distinct ks ->
            exists s d, k = VStr s /\ d ∈ window /\
                        in_bucket tzdb parse_date s d = true).
  { intros k Hk%distinct_sub. by eapply keyed_keys. }
  split; [|split; [|split]].
  - unfold sort. rewrite merge_sort_Permutation, <- list_fmap_compose.
    apply NoDup_fmap_2_strong; [|apply distinct_NoDup].
    intros k1 k2 H1 H2. cbn.
    destruct (Hstr _ H1) as (s1 & _ & -> & _).
    destruct (Hstr _ H2) as (s2 & _ & -> & _).
    rewrite !row_key_row_of. by intros ->.
  - intros row (k & -> & Hk)%elem_of_sort%list_elem_of_fmap.
    destruct (Hstr _ Hk) as (s & d & -> & Hd & Hb).
    rewrite row_key_row_of. unfold bucket_members. fold window.
    intros Hnil.
    assert (Hin : In d (List.filter (in_bucket tzdb parse_date s) window)).
    { apply filter_In. split; [by apply list_elem_of_In|done]. }
    rewrite Hnil in Hin. destruct Hin.
  - intros d Hd.
    destruct (proj1 (list_elem_of_lookup _ _) Hd) as [i Hi].
    destruct (Forall2_lookup_l _ _ _ _ _ HF Hi) as (kv & Hkv & Hr).
    assert (Hm : matches (range_filter (Aggregation.yesterdayStart now)
                            (Aggregation.yesterdayEnd now)) d = true).
    { unfold window, Find in Hd.
      by apply list_elem_of_In, filter_In in Hd as [_ ?]. }
    destruct (reading_key _ _ _ Hm Hr) as (s & Hs & Hb).
    destruct (distinct_complete ks (fst kv)) as (k' & Hk' & He).
    { apply list_elem_of_fmap. exists kv. split; [done|].
      by eapply list_elem_of_lookup_2. }
    assert (k' = VStr s) as ->.
    { rewrite Hs in He. rewrite eqb_sym in He. by apply eqb_str in He. }
    exists (row_of keyed (VStr s)). split.
    + apply elem_of_sort, list_elem_of_fmap. eauto.
    + rewrite row_key_row_of. unfold bucket_members. fold window.
      apply list_elem_of_In, filter_In. split; [by apply list_elem_of_In|done].
  - unfold sort. rewrite merge_sort_Permutation, length_fmap.
    etrans; [apply distinct_length|].
    unfold ks. rewrite length_fmap.
    by rewrite (Forall2_length _ _ _ HF).
Qed.

(** A row whose bucket holds no number in a field carries null there,
    and decodes to zero. *)
Lemma aggregate_null_averages now coll rows row :
  let grp := bucket_members tzdb parse_date now coll (row_key row) in
  Aggregate tzdb parse_date (Aggregation.pipeline now) coll = Ok rows ->
  row ∈ rows ->
  Aggregation.Decode row = inl (decode_row row) /\
  (numbers "humidity" grp = [] ->
   Bson.get row "avgHumidity" = VNull /\
   Aggregation.AvgHumidity (decode_row row) = 0%Q) /\
  (numbers "temperature" grp = [] ->
   Bson.get row "avgTemperature" = VNull /\
   Aggregation.AvgTemperature (decode_row row) = 0%Q).
Proof.
  intros grp Hagg Hin.
  pose proof (aggregate_rows_decode _ _ _ _ _ Hagg) as Hdec.
  rewrite Forall_forall in Hdec. destruct (Hdec row Hin) as [Hd _].
  split; [done|].
  destruct (aggregate_rows _ _ _ _ _ _ Hagg Hin) as (keyed & k & HF & Hk & ->).
  destruct (keyed_keys _ _ _ _ HF Hk) as (s & _ & -> & _).
  subst grp. rewrite row_key_row_of.
  destruct (bucket_columns tzdb parse_date _ _ s HF) as [H0 H1].
  unfold decode_row. cbn [Aggregation.AvgHumidity Aggregation.AvgTemperature].
  rewrite row_of_humidity, row_of_temperature.
  unfold bucket_members.
  split; intros Hnone.
  - rewrite Hnone in H0.
    rewrite (avg_round_then_average _ _ H0). by split.
  - rewrite Hnone in H1.
    rewrite (avg_round_then_average _ _ H1). by split.
Qed.

End AggregationRows.

(** On a server that knows the zone, the aggregation succeeds exactly
    when every record of yesterday's window is readable: its [updatedAt]
    falls in a year from 0 to 9999 on the wall clock of the zone, and its
    humidity and temperature are numbers, null or absent. One record of
    the window with, say, a string for a humidity fails the whole
    report; records outside the window are never looked at. *)
Theorem aggregation_succeeds_iff_readable
    (tzdb : string -> option (Z -> Z)) (parse_date : string -> option Z)
    (offset : Z -> Z) (now : GoTime.Time) (coll : list doc) :
  tzdb "America/Chicago"%string = Some offset ->
  (exists rows,
     Mongo.Aggregate tzdb parse_date (Aggregation.pipeline now) coll
     = Mongo.Ok rows) <->
  Forall (readable offset)
    (Mongo.Find (range_filter (Aggregation.yesterdayStart now)
                              (Aggregation.yesterdayEnd now)) coll).
Proof.
  intros Htz. split.
  - intros [rows Hagg]. by eapply aggregate_readable.
  - by apply aggregate_succeeds.
Qed.

Lemma aggregation_succeeds_iff_readable_witness :
  let now := Sys.now Sample.process in
  Forall (readable TzData.us_central)
    (Mongo.Find (range_filter (Aggregation.yesterdayStart now)
                              (Aggregation.yesterdayEnd now))
       [Sample.r3; Sample.r1; Sample.r2]) /\
  ~ Forall (readable TzData.us_central)
    (Mongo.Find (range_filter (Aggregation.yesterdayStart now)
                              (Aggregation.yesterdayEnd now))
       [Sample.r3; Sample.r_text]).
Proof.
  intros now.
  assert (Htz : TzData.tzdb "America/Chicago" = Some TzData.us_central)
    by reflexivity.
  split.
  - apply (proj1 (aggregation_succeeds_iff_readable TzData.tzdb TzData.parse_date
                    TzData.us_central now [Sample.r3; Sample.r1; Sample.r2] Htz)).
    exists [Sample.row_00; Sample.row_01]. by_computation.
  - intros HF.
    apply (proj2 (aggregation_succeeds_iff_readable TzData.tzdb TzData.parse_date
                    TzData.us_central now [Sample.r3; Sample.r_text] Htz)) in HF.
    destruct HF as [rows Hagg].
    assert (He : Mongo.Aggregate TzData.tzdb TzData.parse_date
                   (Aggregation.pipeline now) [Sample.r3; Sample.r_text]
                 = Mongo.Err "$round only supports numeric types")
      by by_computation.
    rewrite He in Hagg. discriminate Hagg.
Defined.

Lemma aggregation_rows_partition_window_witness :
  let now := Sys.now Sample.process in
  let coll := [Sample.r3; Sample.r1; Sample.r2] in
  NoDup (row_key <$> [Sample.row_00; Sample.row_01]) /\
  bucket_members TzData.tzdb TzData.parse_date now coll (row_key Sample.row_01)
    <> [] /\
  (exists row, row ∈ [Sample.row_00; Sample.row_01] /\
     Sample.r2 ∈ bucket_members TzData.tzdb TzData.parse_date now coll (row_key row)).
Proof.
  intros now coll.
  assert (Hagg : Mongo.Aggregate TzData.tzdb TzData.parse_date
                   (Aggregation.pipeline now) coll
                 = Mongo.Ok [Sample.row_00; Sample.row_01]) by by_computation.
  destruct (aggregation_rows_partition_window TzData.tzdb TzData.parse_date
              now coll _ Hagg) as (Hnd & Hne & Hcov & _).
  split; [exact Hnd|]. split.
  - apply Hne. apply list_elem_of_further, list_elem_of_here.
  - apply Hcov.
    assert (Ew : Mongo.Find (range_filter (Aggregation.yesterdayStart now)
                                          (Aggregation.yesterdayEnd now)) coll
                 = coll) by by_computation.
    rewrite Ew. do 2 apply list_elem_of_further. apply list_elem_of_here.
Defined.

(** A bucket whose records carry no number for a field is not skipped:
    its row carries null for that average, which is decoded into the
    number zero, so that the CSV export writes [0.00] in that column. *)
Theorem missing_readings_are_written_as_zero
    (tzdb : string -> option (Z -> Z)) (parse_date : string -> option Z)
    (now : GoTime.Time) (coll rows : list doc) (row : doc) :
  let grp := bucket_members tzdb parse_date now coll (row_key row) in
  Mongo.Aggregate tzdb parse_date (Aggregation.pipeline now) coll = Mongo.Ok rows ->
  row ∈ rows ->
  exists r,
    Aggregation.Decode row = inl r /\
    (numbers "humidity" grp = [] ->
     Bson.get row "avgHumidity" = VNull /\
     CsvExport.record r =
       [ row_key row; Num.format_fixed 2 (Aggregation.AvgTemperature r);
         "0.00"%string ]) /\
    (numbers "temperature" grp = [] ->
     Bson.get row "avgTemperature" = VNull /\
     CsvExport.record r =
       [ row_key row; "0.00"%string;
         Num.format_fixed 2 (Aggregation.AvgHumidity r) ]).
Proof.
  intros grp Hagg Hin.
  destruct (aggregate_null_averages tzdb parse_date now coll rows row Hagg Hin)
    as (Hd & Hh & Ht).
  exists (decode_row row). split; [done|]. split; intros Hnone.
  - destruct (Hh Hnone) as [Hnull Hz]. split; [done|].
    unfold CsvExport.record. rewrite Hz. reflexivity.
  - destruct (Ht Hnone) as [Hnull Hz]. split; [done|].
    unfold CsvExport.record. rewrite Hz. reflexivity.
Qed.

Lemma missing_readings_are_written_as_zero_witness :
  exists r,
    Aggregation.Decode Sample.row_03 = inl r /\
    CsvExport.record r = [ "2020-05-01 03:00:00"; "12.00"; "0.00" ]%string.
Proof.
  pose (now := Sys.now Sample.process).
  pose (coll := [Sample.r1; Sample.r_dry]).
  assert (Hagg : Mongo.Aggregate TzData.tzdb TzData.parse_date
                   (Aggregation.pipeline now) coll
                 = Mongo.Ok [Sample.row_00; Sample.row_03]) by by_computation.
  destruct (missing_readings_are_written_as_zero TzData.tzdb TzData.parse_date
              now coll _ Sample.row_03 Hagg) as (r & Hd & Hh & _).
  { apply list_elem_of_further, list_elem_of_here. }
  exists r. split; [exact Hd|].
  destruct Hh as [_ Hrec]; [by_computation|].
  rewrite Hrec.
  assert (Hr : r = decode_row Sample.row_03).
  { assert (Hd' : Aggregation.Decode Sample.row_03 = inl (decode_row Sample.row_03))
      by by_computation.
    congruence. }
  rewrite Hr. by_computation.
Defined.

(* ===================================================================== *)
(** * Properties: yesterday's window                                      *)
(* ===================================================================== *)

Section Yesterday.
Import Calendar GoTime Aggregation.

Lemma days_from_civil_day y m d :
  days_from_civil y m 1 + (d - 1) = days_from_civil y m d.
Proof. unfold days_from_civil. lia. Qed.

(** Midnight of a date, in a zone whose offset never changes. *)
Lemma Date_midnight y m d l o :
  1 <= m <= 12 ->
  (forall u, offset_at l u = o) ->
  unix (Date y m d 0 0 0 l) = days_from_civil y m d * 86400 - o.
Proof.
  intros Hm Ho. unfold Date, norm.
  rewrite (Z.div_small (m - 1) 12), (Z.mod_small (m - 1) 12) by lia.
  repeat rewrite ?Zdiv_0_l, ?Zmod_0_l, ?Z.add_0_r, ?Z.add_0_l, ?Z.mul_0_l.
  rewrite Z.sub_add, days_from_civil_day.
  set (u := days_from_civil y m d * 86400).
  pose proof (Ho u) as Hu. unfold offset_at in Hu.
  destruct (lookup l u) as [[offset start] stop]. simpl in Hu. subst offset.
  cbn [unix].
  destruct (Z.eqb_spec o 0) as [E | _]; [lia|].
  rewrite Ho. by destruct (_ || _).
Qed.

(** Midnight of the day before, in a zone whose offset never changes. *)
Lemma yesterdayStart_fixed now o :
  (forall u, offset_at (loc now) u = o) ->
  unix (yesterdayStart now) = ((unix now + o) / 86400 - 1) * 86400 - o.
Proof.
  intros Ho. unfold yesterdayStart, Year, Month, Day, wall, civil_of_seconds.
  rewrite Ho. set (day := (unix now + o) / 86400).
  pose proof (civil_from_days_bounds day) as Hb.
  pose proof (days_from_civil_from_days day) as Hrt.
  destruct (civil_from_days day) as [[y m] d]. cbn [c_year c_month c_day].
  rewrite (Date_midnight y m (d - 1) (loc now) o) by tauto.
  rewrite <- (days_from_civil_day y m (d - 1)).
  rewrite <- Hrt, <- (days_from_civil_day y m d). lia.
Qed.

Lemma yesterday_fixed now o :
  let day := (unix now + o) / 86400 in
  (forall u, offset_at (loc now) u = o) ->
  unix (yesterdayStart now) = (day - 1) * 86400 - o /\
  unix (yesterdayEnd now) = day * 86400 - o /\
  (forall t, unix (yesterdayStart now) <= t < unix (yesterdayEnd now)
             <-> (t + o) / 86400 = day - 1).
Proof.
  intros day Ho.
  pose proof (yesterdayStart_fixed now o Ho) as Hs. fold day in Hs.
  assert (He : unix (yesterdayEnd now) = day * 86400 - o).
  { unfold yesterdayEnd, Add, Hour. cbn [unix]. rewrite Hs. lia. }
  split; [done|]. split; [done|].
  intros t. rewrite Hs, He. split; intros H; Z.div_mod_to_equations; lia.
Qed.

End Yesterday.

(** In a zone whose offset never changes (a server set to UTC, for one),
    yesterday's window is the previous calendar day of that zone: it
    starts at the midnight that opened the day before the run and ends at
    the midnight that opened the day of the run, month and year
    boundaries included; an instant lies in the window exactly when its
    local date is the day before the local date of the run. The windows
    of runs on consecutive days are adjacent. *)
Theorem yesterday_window_is_previous_day (now : GoTime.Time) (o : Z) :
  let day := (GoTime.unix now + o) / 86400 in
  (forall u, GoTime.offset_at (GoTime.loc now) u = o) ->
  GoTime.unix (Aggregation.yesterdayStart now) = (day - 1) * 86400 - o /\
  GoTime.unix (Aggregation.yesterdayEnd now) = day * 86400 - o /\
  (forall t,
     GoTime.unix (Aggregation.yesterdayStart now) <= t
       < GoTime.unix (Aggregation.yesterdayEnd now)
     <-> Calendar.civil_from_days ((t + o) / 86400)
         = Calendar.civil_from_days (day - 1)) /\
  (forall later,
     GoTime.loc later = GoTime.loc now ->
     (GoTime.unix later + o) / 86400 = day + 1 ->
     GoTime.unix (Aggregation.yesterdayStart later)
     = GoTime.unix (Aggregation.yesterdayEnd now)).
Proof.
  intros day Ho.
  destruct (yesterday_fixed now o Ho) as (Hs & He & Hin). fold day in Hs, He, Hin.
  split; [done|]. split; [done|]. split.
  - intros t. rewrite Hin. split; [by intros ->|].
    intros Hc.
    pose proof (days_from_civil_from_days ((t + o) / 86400)) as H1.
    pose proof (days_from_civil_from_days (day - 1)) as H2.
    rewrite Hc in H1. destruct (Calendar.civil_from_days (day - 1)) as [[y m] d].
    congruence.
  - intros later Hl Hd.
    assert (Ho' : forall u, GoTime.offset_at (GoTime.loc later) u = o)
      by (by rewrite Hl).
    destruct (yesterday_fixed later o Ho') as (Hs' & _ & _).
    rewrite Hs', He, Hd. lia.
Qed.

Lemma yesterday_window_is_previous_day_witness :
  GoTime.unix (Aggregation.yesterdayStart Sample.now_utc) = 1588291200 /\
  GoTime.unix (Aggregation.yesterdayEnd Sample.now_utc) = 1588377600 /\
  Calendar.civil_from_days ((1588377599 + 0) / 86400) = (2020, 5, 1).
Proof.
  destruct (yesterday_window_is_previous_day Sample.now_utc 0 (fun u => eq_refl))
    as (Hs & He & Hin & _).
  split; [exact Hs|]. split; [exact He|].
  rewrite (proj1 (Hin 1588377599)); [reflexivity|].
  rewrite Hs, He. split; [by apply Z.leb_le | by apply Z.ltb_lt].
Defined.

(* ===================================================================== *)
(** * Properties: the ranges of the transfers on the calendar             *)
(* ===================================================================== *)

Section TransferRanges.
Import Calendar.

(** Days compare as their dates do. *)
Lemma civil_from_days_range a z b :
  a <= z < b <->
  date_code (civil_from_days a) <= date_code (civil_from_days z)
    < date_code (civil_from_days b).
Proof.
  split.
  - intros [Ha Hb]. split.
    + destruct (Z.eq_dec a z) as [->|]; [lia|].
      pose proof (civil_from_days_mono a z ltac:(lia)). lia.
    + apply civil_from_days_mono. lia.
  - intros [Ha Hb]. split.
    + destruct (Z.lt_ge_cases z a) as [H|H]; [|lia].
      pose proof (civil_from_days_mono z a H). lia.
    + destruct (Z.lt_ge_cases z b) as [H|H]; [done|].
      destruct (Z.eq_dec b z) as [->|]; [lia|].
      pose proof (civil_from_days_mono b z ltac:(lia)). lia.
Qed.

(** The UTC date of a BSON date lies in a range of days exactly when the
    date lies between the two midnights. *)
Lemma date_between a b t :
  a * 86400 * 1000 <= t < b * 86400 * 1000 <-> a <= t / 1000 / 86400 < b.
Proof. split; intros H; Z.div_mod_to_equations; lia. Qed.

Lemma year_2023 t :
  1672531200 * 1000 <= t < 1704067200 * 1000 <->
  c_year (civil_of_seconds (t / 1000)) = 2023.
Proof.
  change (1672531200 * 1000) with (19358 * 86400 * 1000).
  change (1704067200 * 1000) with (19723 * 86400 * 1000).
  rewrite date_between, civil_from_days_range.
  change (civil_from_days 19358) with (2023, 1, 1).
  change (civil_from_days 19723) with (2024, 1, 1).
  unfold civil_of_seconds.
  pose proof (civil_from_days_bounds (t / 1000 / 86400)) as Hb.
  destruct (civil_from_days (t / 1000 / 86400)) as [[y m] d].
  cbn [c_year]. unfold date_code. lia.
Qed.

Lemma summer_2020 t :
  1588291200 * 1000 <= t < 1598918400 * 1000 <->
  c_year (civil_of_seconds (t / 1000)) = 2020 /\
  5 <= c_month (civil_of_seconds (t / 1000)) <= 8.
Proof.
  change (1588291200 * 1000) with (18383 * 86400 * 1000).
  change (1598918400 * 1000) with (18506 * 86400 * 1000).
  rewrite date_between, civil_from_days_range.
  change (civil_from_days 18383) with (2020, 5, 1).
  change (civil_from_days 18506) with (2020, 9, 1).
  unfold civil_of_seconds.
  pose proof (civil_from_days_bounds (t / 1000 / 86400)) as Hb.
  destruct (civil_from_days (t / 1000 / 86400)) as [[y m] d].
  cbn [c_year c_month]. unfold date_code. lia.
Qed.

End TransferRanges.

(** The ranges the transfers build are calendar ranges of the UTC clock:
    the plain transfer selects exactly the records whose [updatedAt] is a
    date of the year 2023, and the upsert transfer exactly those whose
    [updatedAt] is a date of May, June, July or August 2020 (the months
    its log lines call 2024 and 2021). A record without a date in
    [updatedAt] is never selected. *)
Theorem transfer_ranges_on_the_calendar (d : doc) :
  (Mongo.matches transfer_recs.filter d = true <->
   exists t, d !! "updatedAt"%string = Some (VDate t) /\
     Calendar.c_year (Calendar.civil_of_seconds (t / 1000)) = 2023) /\
  (Mongo.matches Upsert.filter d = true <->
   exists t, d !! "updatedAt"%string = Some (VDate t) /\
     Calendar.c_year (Calendar.civil_of_seconds (t / 1000)) = 2020 /\
     5 <= Calendar.c_month (Calendar.civil_of_seconds (t / 1000)) <= 8).
Proof.
  split.
  - unfold transfer_recs.filter. rewrite range_filter_matches.
    change (GoTime.unix transfer_recs.startDate) with 1672531200.
    change (GoTime.unix transfer_recs.endDate) with 1704067200.
    unfold updated_in. split; intros (t & Hd & Ht); exists t; (split; [done|]);
      by apply year_2023.
  - unfold Upsert.filter. rewrite range_filter_matches.
    change (GoTime.unix Upsert.startDate) with 1588291200.
    change (GoTime.unix Upsert.endDate) with 1598918400.
    unfold updated_in. split; intros (t & Hd & Ht); exists t; (split; [done|]);
      by apply summer_2020.
Qed.

(* ===================================================================== *)
(** * Properties: numbers printed with two decimals                       *)
(* ===================================================================== *)

Section FixedPoint.
Import Text Num.

(** Rounding to the nearest integer moves a number by at most a half. *)
Lemma round_half_even_near q :
  (Qabs (inject_Z (round_half_even q) - q) <= 1 # 2)%Q.
Proof.
  unfold round_half_even.
  pose proof (Qfloor_le q) as Hl. pose proof (Qlt_floor q) as Hu.
  rewrite inject_Z_plus in Hu. change (inject_Z 1) with 1%Q in Hu.
  apply Qabs_Qle_condition.
  destruct (Qcompare_spec (q - inject_Z (Qfloor q)) (1 # 2)) as [He|Hlt|Hgt].
  - destruct (Z.even (Qfloor q)); rewrite ?inject_Z_plus;
      change (inject_Z 1) with 1%Q; split; lra.
  - split; lra.
  - rewrite inject_Z_plus. change (inject_Z 1) with 1%Q. split; lra.
Qed.

Lemma round_half_even_nonneg q : (0 <= q)%Q -> 0 <= round_half_even q.
Proof.
  intros Hq. unfold round_half_even.
  assert (Hf : 0 <= Qfloor q).
  { change 0 with (Qfloor 0). by apply Qfloor_resp_le. }
  destruct (Qcompare _ _); [destruct (Z.even _)| |]; lia.
Qed.

Lemma zeros_decimal_pad2 m :
  0 <= m <= 99 ->
  (zeros (2 - String.length (decimal m)) ++ decimal m)%string = pad2 m.
Proof.
  intros Hm. rewrite <- (appendInt_pad2 m Hm). unfold appendInt.
  rewrite Z.abs_eq by lia. destruct (Z.ltb_spec m 0); [lia|].
  by rewrite string_app_nil.
Qed.

Lemma pad2_value m : 0 <= m <= 99 -> numeral_value (pad2 m) = m.
Proof.
  intros Hm. unfold numeral_value, pad2. cbn [numeral_from].
  rewrite !digit_code by (Z.div_mod_to_equations; lia).
  rewrite !N2Z.inj_add, !Z2N.id by (Z.div_mod_to_equations; lia).
  change (Z.of_N 48) with 48. Z.div_mod_to_equations. lia.
Qed.

Lemma pad2_digits m : all_digits (pad2 m) = true.
Proof.
  unfold pad2. cbn [all_digits].
  rewrite !digit_is_digit by (Z.div_mod_to_equations; lia). done.
Qed.

Lemma digits_all_digits fuel u acc :
  all_digits acc = true -> all_digits (digits fuel u acc) = true.
Proof.
  revert u acc. induction fuel as [|fuel IH]; intros u acc Hacc; simpl; [done|].
  destruct (Z.ltb_spec u 10).
  - simpl. by rewrite digit_is_digit, Hacc by lia.
  - apply IH. simpl.
    by rewrite digit_is_digit, Hacc by (Z.div_mod_to_equations; lia).
Qed.

Lemma decimal_digits n : all_digits (decimal n) = true /\ decimal n <> EmptyString.
Proof.
  split; [by apply digits_all_digits|].
  destruct (decimal_plain n) as [_ Hh]. by destruct (decimal n).
Qed.

Lemma format_fixed_2 x :
  let n := round_half_even (Qabs x * inject_Z 100) in
  format_fixed 2 x
  = ((if Qlt_le_dec x 0 then "-" else "") ++ decimal (n / 100) ++ "."
     ++ pad2 (n mod 100))%string.
Proof.
  intros n. unfold format_fixed. change (pow10 2) with 100. fold n.
  rewrite zeros_decimal_pad2 by (Z.div_mod_to_equations; lia).
  reflexivity.
Qed.

End FixedPoint.

(** A number printed with [%.2f] reads back as the number rounded to the
    nearest hundredth, ties to the even neighbour: the text is an
    optional minus sign, the digits of the whole part (at least one), a
    point and exactly two digits, and the value of those digits is
    within half a hundredth of the magnitude of the number. *)
Theorem format_fixed_reads_back (x : Q) :
  let n := Num.round_half_even (Qabs x * inject_Z 100) in
  let whole := Text.decimal (n / 100) in
  let cents := Text.pad2 (n mod 100) in
  Num.format_fixed 2 x
  = ((if Qlt_le_dec x 0 then "-" else "") ++ whole ++ "." ++ cents)%string /\
  all_digits whole = true /\ whole <> EmptyString /\
  all_digits cents = true /\ String.length cents = 2%nat /\
  Text.numeral_value whole * 100 + Text.numeral_value cents = n /\
  (Qabs (inject_Z n / inject_Z 100 - Qabs x) <= 1 # 200)%Q.
Proof.
  intros n whole cents.
  assert (Hn : 0 <= n).
  { apply round_half_even_nonneg.
    apply Qmult_le_0_compat; [apply Qabs_nonneg|done]. }
  split; [apply format_fixed_2|].
  destruct (decimal_digits (n / 100)) as [Hd Hne].
  split; [done|]. split; [done|].
  split; [apply pad2_digits|]. split; [reflexivity|].
  split.
  - unfold whole, cents.
    rewrite decimal_value by (Z.div_mod_to_equations; lia).
    rewrite pad2_value by (Z.div_mod_to_equations; lia).
    Z.div_mod_to_equations. lia.
  - pose proof (round_half_even_near (Qabs x * inject_Z 100)) as Hr. fold n in Hr.
    apply Qabs_Qle_condition in Hr as [Hr1 Hr2].
    apply Qabs_Qle_condition.
    set (a := Qabs x) in *. set (r := inject_Z n) in *.
    change (inject_Z 100) with (100 # 1)%Q in *.
    unfold Qdiv. change (/ (100 # 1))%Q with (1 # 100)%Q.
    split; lra.
Qed.

(* ===================================================================== *)
(** * Properties: the bulk upsert, read by identifier                     *)
(* ===================================================================== *)

Section UpsertOrder.
Import Mongo.
Implicit Types r d : doc.
Implicit Types coll : list doc.
#[local] Arguments matches : simpl never.
#[local] Arguments has_id : simpl never.
#[local] Arguments Bson.set_fields : simpl never.

Lemma eqb_same_r a b c : Bson.eqb a b = true -> Bson.eqb c a = Bson.eqb c b.
Proof. intros H. rewrite (eqb_sym c a), (eqb_sym c b). by apply eqb_same. Qed.

Lemma has_id_same v v' d : Bson.eqb v v' = true -> has_id v d = has_id v' d.
Proof. intros H. unfold has_id. by apply eqb_same_r. Qed.

Lemma upsert_cons r d coll :
  upsert r (d :: coll) =
  if has_id (doc_id r) d then Bson.set_fields r d :: coll
  else d :: upsert r coll.
Proof.
  rewrite !upsert_unfold. simpl. rewrite matches_id.
  destruct (has_id (doc_id r) d); [done|].
  by destruct (update_first _ _ coll).
Qed.

(** One upsert, read by identifier. *)
Lemma find_upsert v r coll :
  find (has_id v) (upsert r coll) =
  if Bson.eqb (doc_id r) v
  then Some (Bson.set_fields r
               (default {[ "_id"%string := doc_id r ]} (find (has_id v) coll)))
  else find (has_id v) coll.
Proof.
  induction coll as [|d coll IH].
  - rewrite upsert_unfold. cbn [update_first app find default].
    assert (Hnew : has_id v (Bson.set_fields r {[ "_id"%string := doc_id r ]})
                   = Bson.eqb (doc_id r) v).
    { pose proof (new_doc_id r) as Hn. unfold has_id in Hn |- *.
      by apply eqb_same. }
    rewrite Hnew. by destruct (Bson.eqb (doc_id r) v).
  - rewrite upsert_cons. destruct (has_id (doc_id r) d) eqn:Er.
    + cbn [find]. rewrite has_id_set_fields by done.
      destruct (Bson.eqb (doc_id r) v) eqn:E.
      * by rewrite <- (has_id_same _ _ _ E), Er.
      * destruct (has_id v d) eqn:Ev; [|done].
        unfold has_id in Er, Ev. rewrite (eqb_same _ _ v Er) in Ev. congruence.
    + cbn [find]. destruct (has_id v d) eqn:Ev.
      * destruct (Bson.eqb (doc_id r) v) eqn:E; [|done].
        rewrite (has_id_same _ _ _ E) in Er. congruence.
      * apply IH.
Qed.

(** The bulk upsert, read by identifier. *)
Lemma find_bulk_upsert v recs coll :
  find (has_id v) (fold_left (fun c r => upsert r c) recs coll)
  = upserted v recs (find (has_id v) coll).
Proof.
  unfold upserted. revert coll.
  induction recs as [|r recs IH]; intros coll; simpl; [done|].
  by rewrite IH, find_upsert.
Qed.

Lemma existsb_Permutation {A} (f : A -> bool) l l' :
  l ≡ₚ l' -> existsb f l = existsb f l'.
Proof.
  induction 1 as [|x l l' _ IH|x y l|l l' l'' _ IH1 _ IH2]; simpl.
  - done.
  - by rewrite IH.
  - by destruct (f x), (f y).
  - by etrans.
Qed.

Lemma unique_ids_Permutation recs recs' :
  recs ≡ₚ recs' -> unique_ids recs = unique_ids recs'.
Proof.
  induction 1 as [|x l l' Hp IH|x y l|l l' l'' _ IH1 _ IH2]; simpl.
  - done.
  - by rewrite IH, (existsb_Permutation _ _ _ Hp).
  - rewrite (has_id_sym y x).
    destruct (has_id (doc_id x) y), (existsb (has_id (doc_id x)) l),
      (existsb (has_id (doc_id y)) l); reflexivity.
  - by etrans.
Qed.

(** With distinct identifiers among the records, the order in which
    they are upserted does not matter to what is found under an
    identifier. *)
Lemma upserted_Permutation v recs recs' found :
  unique_ids recs = true -> recs ≡ₚ recs' ->
  upserted v recs' found = upserted v recs found.
Proof.
  intros Hu Hp. revert found Hu.
  induction Hp as [|x l l' Hp IH|x y l|l l' l'' Hp1 IH1 Hp2 IH2];
    intros found Hu.
  - done.
  - unfold upserted. simpl. apply IH. by apply unique_ids_cons in Hu as [_ ?].
  - unfold upserted. simpl. f_equal.
    destruct (Bson.eqb (doc_id x) v) eqn:Ex, (Bson.eqb (doc_id y) v) eqn:Ey;
      try reflexivity.
    exfalso. simpl in Hu. apply andb_true_iff in Hu as [Hn _].
    apply negb_true_iff, orb_false_iff in Hn as [Hn _].
    unfold has_id in Hn. fold (doc_id x) in Hn.
    rewrite (eqb_same _ _ (doc_id y) Ex), eqb_sym, Ey in Hn. discriminate.
  - rewrite IH2, IH1; [done|done|].
    by rewrite <- (unique_ids_Permutation _ _ Hp1).
Qed.

Lemma existsb_find {A} (f : A -> bool) l :
  existsb f l = match find f l with Some _ => true | None => false end.
Proof. induction l as [|a l IH]; simpl; [done|]. by destruct (f a). Qed.

Lemma upsert_grows r coll :
  length (upsert r coll)
  = (length coll + if existsb (has_id (doc_id r)) coll then 0 else 1)%nat.
Proof.
  induction coll as [|d coll IH].
  - reflexivity.
  - rewrite upsert_cons. cbn [existsb].
    destruct (has_id (doc_id r) d); cbn [orb length]; [lia|].
    rewrite IH. lia.
Qed.

(** The bulk upsert adds one document per record whose identifier was
    not there. *)
Lemma bulk_upsert_grows recs coll :
  unique_ids recs = true ->
  length (fold_left (fun c r => upsert r c) recs coll)
  = (length coll
     + length (List.filter (fun r => negb (existsb (has_id (doc_id r)) coll)) recs))%nat.
Proof.
  revert coll. induction recs as [|r recs IH]; intros coll Hu; simpl; [lia|].
  destruct (unique_ids_cons _ _ Hu) as [Hne Hu'].
  rewrite IH, upsert_grows by done.
  assert (Hsame : List.filter (fun r' => negb (existsb (has_id (doc_id r')) (upsert r coll))) recs
                  = List.filter (fun r' => negb (existsb (has_id (doc_id r')) coll)) recs).
  { apply List.filter_ext_in. intros r' Hin.
    rewrite !existsb_find, find_upsert.
    rewrite Forall_forall in Hne.
    by rewrite eqb_sym, (Hne r' (proj2 (list_elem_of_In _ _) Hin)). }
  rewrite Hsame.
  destruct (existsb (has_id (doc_id r)) coll); simpl; lia.
Qed.

End UpsertOrder.

(** What the bulk upsert leaves, read by identifier: under every
    identifier, the document that was there with the records carrying
    that identifier written over it, or a new document when there was
    none. When the records carry distinct identifiers, as the documents
    of one collection do, the order in which the upserts are applied
    does not matter: any order leaves the same document under every
    identifier, and the same number of documents. *)
Theorem bulk_upsert_by_identifier (recs recs' coll : list doc) :
  unique_ids recs = true ->
  recs ≡ₚ recs' ->
  (forall v,
     find (Mongo.has_id v) (Mongo.BulkWrite (Upsert.updateModel <$> recs) coll)
     = upserted v recs (find (Mongo.has_id v) coll)) /\
  (forall v,
     find (Mongo.has_id v) (Mongo.BulkWrite (Upsert.updateModel <$> recs') coll)
     = find (Mongo.has_id v) (Mongo.BulkWrite (Upsert.updateModel <$> recs) coll)) /\
  length (Mongo.BulkWrite (Upsert.updateModel <$> recs') coll)
  = length (Mongo.BulkWrite (Upsert.updateModel <$> recs) coll).
Proof.
  intros Hu Hp. rewrite !bulk_upsert_fold.
  split; [|split].
  - intros v. apply find_bulk_upsert.
  - intros v. rewrite !find_bulk_upsert. by apply upserted_Permutation.
  - rewrite !bulk_upsert_grows; [|done|by rewrite <- (unique_ids_Permutation _ _ Hp)].
    f_equal. apply Permutation_length. symmetry.
    by apply filter_Permutation_bool.
Qed.

Lemma bulk_upsert_by_identifier_witness :
  let coll := [Sample.r1_note] in
  let one := Mongo.BulkWrite (Upsert.updateModel <$> [Sample.r1; Sample.r2]) coll in
  let other := Mongo.BulkWrite (Upsert.updateModel <$> [Sample.r2; Sample.r1]) coll in
  find (Mongo.has_id (VNum 1)) other = find (Mongo.has_id (VNum 1)) one /\
  find (Mongo.has_id (VNum 2)) other = find (Mongo.has_id (VNum 2)) one /\
  length other = length one.
Proof.
  intros coll one other.
  destruct (bulk_upsert_by_identifier [Sample.r1; Sample.r2]
              [Sample.r2; Sample.r1] coll) as (_ & Hf & Hl).
  - by_computation.
  - apply perm_swap.
  - split; [apply Hf|]. split; [apply Hf|exact Hl].
Defined.

(* ===================================================================== *)
(** * Properties: running the CSV export again                            *)
(* ===================================================================== *)

Section CsvExportAgain.
Import Env Mongo Sys Aggregation.
Variable tzdb : string -> option (Z -> Z).
Variable parse_date : string -> option Z.


End CsvExportAgain.


(* ===================================================================== *)
(** * Properties: a transfer from a deployment onto itself                *)
(* ===================================================================== *)

(** When source and destination name the same deployment and records are
    found, the upsert transfer rewrites every found record over itself
    and leaves the store as it was (status 0), whereas the plain
    transfer is refused its first record as a duplicate key and exits
    with status 1, the store unchanged as well. *)
Theorem transfer_onto_itself (p : Sys.Process) (w : Sys.World)
    (env : gmap string string) (coll : list doc) :
  let uri := Env.Getenv env "SOURCE_MONGO_URI" in
  load_config (Sys.w_dotenv w) (Sys.environ p) = Some env ->
  Env.Getenv env "DEST_MONGO_URI" = uri ->
  uri <> EmptyString ->
  Sys.w_store w !! uri = Some coll ->
  unique_ids coll = true ->
  identified coll ->
  (Mongo.Find Upsert.filter coll <> [] ->
   snd (Sys.run (Upsert.TransferRecords p) w) = 0 /\
   Sys.w_store (fst (Sys.run (Upsert.TransferRecords p) w)) = Sys.w_store w) /\
  (Mongo.Find transfer_recs.filter coll <> [] ->
   ran w 1 "E11000 duplicate key error"
     [ Sys.CallConnect uri; Sys.CallConnect uri;
       Sys.CallFind uri transfer_recs.filter;
       Sys.CallInsertMany uri (Mongo.Find transfer_recs.filter coll) ]
     (Sys.w_store w)
     (Sys.run (transfer_recs.TransferRecs p) w)).
Proof.
  intros uri Hc Hd Hu Hs Hk Hi.
  assert (Hdne : Env.Getenv env "DEST_MONGO_URI" <> EmptyString) by (by rewrite Hd).
  assert (Hdst : Sys.w_store w !! Env.Getenv env "DEST_MONGO_URI" = Some coll)
    by (by rewrite Hd).
  split; intros Hne.
  - rewrite (upsert_run p w env coll coll Hc Hu Hdne Hs Hdst Hne).
    split; [done|]. cbn. unfold Mongo.Find.
    rewrite (bulk_upsert_self _ _ Hk). by apply insert_id.
  - destruct (Mongo.Find transfer_recs.filter coll) as [|r0 rest] eqn:Er; [done|].
    destruct (find_head_identified _ _ _ _ Hi Er) as [id0 Hid0].
    pose proof (transfer_recs_duplicate p w env coll coll [] r0 rest id0
                  Hc Hu Hdne Hs Hdst Er) as H.
    rewrite app_nil_r, Hd in H. fold uri in H.
    rewrite (insert_id _ _ _ Hs) in H.
    apply H; [done|done|].
    assert (Hin : In r0 (Mongo.Find transfer_recs.filter coll))
      by (rewrite Er; by left).
    unfold Mongo.Find in Hin. apply filter_In in Hin as [Hin _].
    apply existsb_exists. exists r0. split; [done|].
    unfold Mongo.has_id, Bson.get. rewrite Hid0. apply eqb_refl.
Qed.

Lemma transfer_onto_itself_witness :
  let p := Sample.process_onto_itself in
  let w := Sample.world_one_deployment in
  snd (Sys.run (Upsert.TransferRecords p) w) = 0 /\
  Sys.w_store (fst (Sys.run (Upsert.TransferRecords p) w)) = Sys.w_store w /\
  snd (Sys.run (transfer_recs.TransferRecs p) w) = 1.
Proof.
  intros p w.
  pose (env := {[ "SOURCE_MONGO_URI" := "mongodb://a";
                  "DEST_MONGO_URI" := "mongodb://a" ]}%string
               : gmap string string).
  destruct (transfer_onto_itself p w env
              [Sample.r1; Sample.r_2023a; Sample.r2]) as [Hup Hpl].
  - by_computation.
  - by_computation.
  - by_computation_neq.
  - by_computation.
  - by_computation.
  - constructor; [exists (VNum 1); by_computation|].
    constructor; [exists (VNum 7); by_computation|].
    constructor; [exists (VNum 2); by_computation|]. constructor.
  - destruct Hup as [H0 Hst].
    { assert (Er : Mongo.Find Upsert.filter [Sample.r1; Sample.r_2023a; Sample.r2]
                   = [Sample.r1; Sample.r2]) by by_computation.
      rewrite Er. discriminate. }
    split; [exact H0|]. split; [exact Hst|].
    destruct Hpl as (H1 & _).
    { assert (Er : Mongo.Find transfer_recs.filter
                     [Sample.r1; Sample.r_2023a; Sample.r2]
                   = [Sample.r_2023a]) by by_computation.
      rewrite Er. discriminate. }
    exact H1.
Defined.

(* ===================================================================== *)
(** * Worked examples                                                     *)
(* ===================================================================== *)

(** Yesterday, for a process started on 2020-05-02 at 10:00 in Chicago, is
    2020-05-01 from 00:00 to 24:00 Central daylight time. *)
Example yesterday_of_sample :
  GoTime.unix (Aggregation.yesterdayStart (Sys.now Sample.process)) = 1588309200 /\
  GoTime.unix (Aggregation.yesterdayEnd (Sys.now Sample.process)) = 1588395600.
Proof. split; by_computation. Qed.

(** 05:59Z and 06:01Z on 2020-05-01 are 00:59 and 01:01 in Chicago: two
    buckets, although 06:01Z and 06:01:10Z share one. *)
Example buckets_follow_local_hour :
  hour_bucket TzData.tzdb TzData.parse_date Sample.r1
    = Mongo.Ok (VStr "2020-05-01 00:00:00") /\
  hour_bucket TzData.tzdb TzData.parse_date Sample.r2
    = Mongo.Ok (VStr "2020-05-01 01:00:00") /\
  hour_bucket TzData.tzdb TzData.parse_date Sample.r3
    = Mongo.Ok (VStr "2020-05-01 01:00:00").
Proof. repeat split; by_computation. Qed.

(** When daylight saving time ends, the wall clock shows the hour from
    01:00 to 02:00 twice; readings taken one hour apart then carry the
    same wall-clock hour and fall in the same bucket. *)
Example repeated_hour_is_one_bucket :
  hour_bucket TzData.tzdb TzData.parse_date Sample.r_cdt
    = Mongo.Ok (VStr "2020-11-01 01:00:00") /\
  hour_bucket TzData.tzdb TzData.parse_date Sample.r_cst
    = Mongo.Ok (VStr "2020-11-01 01:00:00") /\
  local_hour_number TzData.us_central 1604212200000
    = local_hour_number TzData.us_central 1604215800000.
Proof. repeat split; by_computation. Qed.

(** Rounding to 2 decimals, ties to even. *)
Example round_places_examples :
  Num.round_places (10004 # 1000) 2 = 10%Q /\
  Num.round_places (10006 # 1000) 2 = (1001 # 100)%Q /\
  Num.round_places (10005 # 1000) 2 = 10%Q /\
  Num.round_places (10015 # 1000) 2 = (501 # 50)%Q.
Proof. repeat split; reflexivity. Qed.

(** [%.2f] of 70.125 (a tie, exact in binary) and of 40.333. *)
Example format_fixed_examples :
  Num.format_fixed 2 (70125 # 1000) = "70.12"%string /\
  Num.format_fixed 2 (40333 # 1000) = "40.33"%string /\
  Num.format_fixed 2 (- (5 # 1000)) = "-0.00"%string.
Proof. repeat split; reflexivity. Qed.

(** A field with a comma or a leading space is quoted by the writer; a
    bucket string is not. *)
Example csv_quoting :
  Csv.Write ["a,b"; " x"; "2020-05-01 00:00:00"]%string
  = (String Text.quote ("a,b" ++ String Text.quote ("," ++
     String Text.quote (" x" ++ String Text.quote
       (",2020-05-01 00:00:00" ++ String Text.newline "")))))%string.
Proof. reflexivity. Qed.

(** The console report of the sample collection. *)
Example console_report_of_sample :
  let r := Sys.run (ConsoleReport.main TzData.tzdb TzData.parse_date Sample.process)
             Sample.world in
  snd r = 0 /\
  Sys.w_stdout (fst r) =
    [ ("Hour: 2020-05-01 00:00:00, Avg Humidity: 40.00, Avg Temperature: 10.00"
       ++ String Text.newline "")%string;
      ("Hour: 2020-05-01 01:00:00, Avg Humidity: 42.00, Avg Temperature: 10.00"
       ++ String Text.newline "")%string ].
Proof. split; by_computation. Qed.

(** The plain transfer of a reading of 2023 into an empty collection,
    and into a collection that already holds it. *)
Example plain_transfer_is_not_repeatable :
  let r2023 : doc :=
    {[ "_id" := VNum 7; "updatedAt" := VDate 1680000000000 ]}%string in
  Mongo.InsertMany [r2023] [] = ([r2023], None) /\
  Mongo.InsertMany [r2023] [r2023]
    = ([r2023], Some "E11000 duplicate key error"%string).
Proof. split; by_computation. Qed.

(** The window is 24 hours long, and the day that ends daylight saving
    time has 25. Run in Chicago on 2020-11-02 and on 2020-11-03, the
    reports cover 2020-11-01 up to 23:00 and 2020-11-02 from 00:00: the
    last hour of 2020-11-01 is in neither window. *)
Example last_hour_of_a_long_day :
  let run1 := {| GoTime.unix := 1604332800; GoTime.loc := TzData.Chicago |} in
  let run2 := {| GoTime.unix := 1604419200; GoTime.loc := TzData.Chicago |} in
  let at_ u := {| GoTime.unix := u; GoTime.loc := TzData.Chicago |} in
  GoTime.Format (Aggregation.yesterdayStart run1) "2006-01-02 15:04:05"
    = "2020-11-01 00:00:00"%string /\
  GoTime.unix (Aggregation.yesterdayEnd run1) = 1604293200 /\
  GoTime.Format (at_ 1604293200) "2006-01-02 15:04:05"
    = "2020-11-01 23:00:00"%string /\
  GoTime.unix (Aggregation.yesterdayStart run2) = 1604296800 /\
  GoTime.Format (at_ 1604296800) "2006-01-02 15:04:05"
    = "2020-11-02 00:00:00"%string.
Proof. repeat split; by_computation. Qed.
